(** * excel_diff.py: workbook comparison, verified over a shallow embedding

    The development follows the layout of [src/excel_diff.py]:
    - [Py]: the Python built-ins the program and openpyxl call ([==],
      [str], [float], [abs], [str.strip], [str.lower], [range], [sorted],
      [str.join], slices, the scan of [re.findall]);
    - [Xl]: the part of openpyxl the program reads and writes (worksheets
      and chart sheets, workbooks, column letters, the renaming of a
      title that is taken, the check of the text a cell is given);
    - the program's own functions, under their source names;
    - the definitions the properties are stated with, and the properties.

    Text is modelled as [string], read as a sequence of code points below
    256.  Numbers are Python ints ([Z]) and IEEE-754 binary64 floats:
    [spec_float] at precision 53 and exponent bound 1024, in canonical
    form, with the rounding of the Standard Library's [SpecFloat].
    A function that can raise returns an [option], [None] standing for
    the exception; a call that mutates an object and can raise half-way
    returns the state it leaves with the [option].

    [compare_workbooks] is modelled on the three workbooks it loads, up
    to the point where it writes the output workbook to its file; the
    file system, the command line of [main] and [src/nav_calc.py], a
    separate script, are outside the model. *)

From Stdlib Require Import ZArith Lia Bool Ascii String List SpecFloat.
From stdpp Require Import base decidable option numbers list sorting.
From stdpp Require Import gmap sets strings pretty.

Open Scope Z_scope.

(* stdpp's solvers clear hypotheses that may already be gone. *)
Set Warnings "-clear-no-such-hyp".

(* ===================================================================== *)
(** * Python built-ins *)
(* ===================================================================== *)

Module Py.

(** ** binary64 *)

Definition prec : Z := 53.
Definition emax : Z := 1024.

Abbreviation float := spec_float.

Definition fsub (x y : float) : float := SFsub prec emax x y.
Definition fabs (x : float) : float := SFabs x.
Definition fle (x y : float) : bool := SFleb x y.
Definition feq (x y : float) : bool := SFeqb x y.

(** [float(z)] for an int: the nearest double, ties to even;
    [OverflowError] ([None]) when that is beyond the largest double. *)
Definition float_of_int (z : Z) : option float :=
  match binary_normalize prec emax z 0 false with
  | S754_infinity _ => None
  | f => Some f
  end.

(** [f == z] for a float and an int: Python compares the exact values. *)
Definition float_eq_int (f : float) (z : Z) : bool :=
  match f with
  | S754_zero _ => z =? 0
  | S754_finite s m e =>
      let v := if s then Z.neg m else Z.pos m in
      if 0 <=? e then z =? v * 2 ^ e else z * 2 ^ (- e) =? v
  | _ => false
  end.

(** ** datetime (naive), as openpyxl returns for date cells *)

Record datetime := Datetime {
  year : N; month : N; day : N;
  hour : N; minute : N; second : N; microsecond : N
}.

#[global] Instance datetime_eq_dec : EqDecision datetime.
Proof. solve_decision. Defined.

(** ** Cell values: what [cell.value] can hold *)

Inductive value :=
| VNone
| VBool (b : bool)
| VInt (z : Z)
| VFloat (f : float)
| VStr (s : string)
| VDate (d : datetime).

#[global] Instance float_eq_dec : EqDecision float.
Proof. solve_decision. Defined.
#[global] Instance value_eq_dec : EqDecision value.
Proof. solve_decision. Defined.

Definition isinstance_str (x : value) : bool :=
  match x with VStr _ => true | _ => false end.

Definition is_None (x : value) : bool :=
  match x with VNone => true | _ => false end.

(** [bool] is a subclass of [int]: [True == 1], [False == 0]. *)
Definition int_of_bool (b : bool) : Z := if b then 1 else 0.

(** [a == b].  Numbers (bools included) compare by exact value across
    int and float; [nan] equals nothing; values of unrelated types are
    unequal. *)
Definition eq (a b : value) : bool :=
  match a, b with
  | VNone, VNone => true
  | VBool x, VBool y => Bool.eqb x y
  | VBool x, VInt z | VInt z, VBool x => int_of_bool x =? z
  | VBool x, VFloat f | VFloat f, VBool x => float_eq_int f (int_of_bool x)
  | VInt x, VInt y => x =? y
  | VInt z, VFloat f | VFloat f, VInt z => float_eq_int f z
  | VFloat x, VFloat y => feq x y
  | VStr s, VStr t => bool_decide (s = t)
  | VDate d, VDate d' => bool_decide (d = d')
  | _, _ => false
  end.

(** ** [repr] of a float: the shortest decimal that reads back *)

Section shortest.
Variables (m : positive) (e : Z).

(** In units of [2^(e-2)] the double [m * 2^e] is [xn]; every real in
    the interval from [lon] to [hin] rounds to it, the end points too
    when [m] is even. *)
Definition xn : Z := 4 * Z.pos m.
Definition lon : Z :=
  xn - (if (Z.pos m =? 2 ^ 52) && (-1074 <? e) then 1 else 2).
Definition hin : Z := xn + 2.
Definition closed : bool := Z.even (Z.pos m).

(** [d * 10^k] against [n * 2^(e-2)], as the integers [d * da k] and
    [n * db k]. *)
Definition da (k : Z) : Z := 10 ^ Z.max k 0 * 2 ^ Z.max (2 - e) 0.
Definition db (k : Z) : Z := 2 ^ Z.max (e - 2) 0 * 10 ^ Z.max (- k) 0.

Definition d_lo (k : Z) : Z :=
  let a := lon * db k in
  let q := - ((- a) / da k) in
  if negb closed && (q * da k =? a) then q + 1 else q.
Definition d_hi (k : Z) : Z :=
  let a := hin * db k in
  let q := a / da k in
  if negb closed && (q * da k =? a) then q - 1 else q.

(** The multiple of [10^k] nearest to the double, ties to even. *)
Definition d_near (k : Z) : Z :=
  let q := (2 * xn * db k + da k) / (2 * da k) in
  if (q * (2 * da k) =? 2 * xn * db k + da k) && Z.odd q
  then q - 1 else q.

(** The largest [k] with a multiple of [10^k] in the interval gives
    the fewest digits; among those multiples, the nearest one. *)
Fixpoint search (fuel : nat) (k : Z) : Z * Z :=
  match fuel with
  | O => (Z.pos m, 0)
  | S fuel' =>
      if d_lo k <=? d_hi k
      then (Z.max (d_lo k) (Z.min (d_hi k) (d_near k)), k)
      else search fuel' (k - 1)
  end.

Definition k_start : Z :=
  (Z.log2 hin + 1 + (e - 2)) * 30103 / 100000 + 2.
Definition shortest : Z * Z := search 64 k_start.
End shortest.

Fixpoint zeros (n : nat) : string :=
  match n with O => "" | S n' => String "0" (zeros n') end.

(** Digits and decimal point laid out as [repr] does: scientific
    notation when the decimal point falls before the fourth leading zero
    or after sixteen digits. *)
Definition repr_pos (m : positive) (e : Z) : string :=
  let '(d, k) := shortest m e in
  let ds := pretty d in
  let len := String.length ds in
  let n := Z.of_nat len in
  let decpt := n + k in
  if (decpt <=? -4) || (16 <? decpt) then
    let ex := decpt - 1 in
    String.substring 0 1 ds
      +:+ (if n =? 1 then "" else "." +:+ String.substring 1 (len - 1) ds)
      +:+ "e" +:+ (if ex <? 0 then "-" else "+")
      +:+ (if Z.abs ex <? 10 then "0" else "") +:+ pretty (Z.abs ex)
  else if decpt <=? 0 then
    "0." +:+ zeros (Z.to_nat (- decpt)) +:+ ds
  else if n <=? decpt then
    ds +:+ zeros (Z.to_nat (decpt - n)) +:+ ".0"
  else
    String.substring 0 (Z.to_nat decpt) ds +:+ "."
      +:+ String.substring (Z.to_nat decpt) (len - Z.to_nat decpt) ds.

Definition float_repr (f : float) : string :=
  match f with
  | S754_nan => "nan"
  | S754_infinity s => if s then "-inf" else "inf"
  | S754_zero s => if s then "-0.0" else "0.0"
  | S754_finite s m e => (if s then "-" else "") +:+ repr_pos m e
  end.

(** ** [str(x)] *)

Definition pad (w : nat) (n : N) : string :=
  let s := pretty n in zeros (w - String.length s) +:+ s.

(** [datetime.__str__] is [isoformat(sep=' ')]. *)
Definition datetime_str (d : datetime) : string :=
  pad 4 (year d) +:+ "-" +:+ pad 2 (month d) +:+ "-" +:+ pad 2 (day d)
    +:+ " " +:+ pad 2 (hour d) +:+ ":" +:+ pad 2 (minute d)
    +:+ ":" +:+ pad 2 (second d)
    +:+ (if (microsecond d =? 0)%N then ""
         else "." +:+ pad 6 (microsecond d)).

Definition str (x : value) : string :=
  match x with
  | VNone => "None"
  | VBool b => if b then "True" else "False"
  | VInt z => pretty z
  | VFloat f => float_repr f
  | VStr s => s
  | VDate d => datetime_str d
  end.

(** ** [str.strip()] and [str.lower()] on code points below 256 *)

(** [str.isspace]: U+0009..U+000D, U+001C..U+0020, U+0085, U+00A0. *)
Definition isspace (c : ascii) : bool :=
  let n := N_of_ascii c in
  ((9 <=? n) && (n <=? 13) || (28 <=? n) && (n <=? 32)
   || (n =? 133) || (n =? 160))%N.

Fixpoint lstrip (s : string) : string :=
  match s with
  | String c s' => if isspace c then lstrip s' else s
  | EmptyString => EmptyString
  end.

Definition strip (s : string) : string :=
  String.rev (lstrip (String.rev (lstrip s))).

(** Lower-casing: A..Z, and U+00C0..U+00DE except the multiplication
    sign U+00D7, move up by 32. *)
Definition lower_char (c : ascii) : ascii :=
  let n := N_of_ascii c in
  if ((65 <=? n) && (n <=? 90)
      || (192 <=? n) && (n <=? 222) && negb (n =? 215))%N
  then ascii_of_N (n + 32) else c.

Fixpoint lower (s : string) : string :=
  match s with
  | String c s' => String (lower_char c) (lower s')
  | EmptyString => EmptyString
  end.

(** [str.isalpha] and [str.isdigit] on code points below 256. *)
Definition isalpha (c : ascii) : bool :=
  let n := N_of_ascii c in
  ((65 <=? n) && (n <=? 90) || (97 <=? n) && (n <=? 122)
   || (n =? 170) || (n =? 181) || (n =? 186)
   || (192 <=? n) && negb (n =? 215) && negb (n =? 247))%N.

Definition isdigit (c : ascii) : bool :=
  let n := N_of_ascii c in
  ((48 <=? n) && (n <=? 57) || (n =? 178) || (n =? 179) || (n =? 185))%N.

Fixpoint filter_chars (p : ascii → bool) (s : string) : string :=
  match s with
  | String c s' => if p c then String c (filter_chars p s') else filter_chars p s'
  | EmptyString => EmptyString
  end.

(** [s.split(sep, 1)] when [sep in s]: the text before and after the
    first [sep]; [None] when [sep] does not occur. *)
Fixpoint split_once (sep : ascii) (s : string) : option (string * string) :=
  match s with
  | String c s' =>
      if bool_decide (c = sep) then Some (EmptyString, s')
      else '(l, r) ← split_once sep s'; Some (String c l, r)
  | EmptyString => None
  end.

Fixpoint int_digits (acc : Z) (s : string) : option Z :=
  match s with
  | String c s' =>
      let n := Z.of_N (N_of_ascii c) in
      if (48 <=? n) && (n <=? 57) then int_digits (acc * 10 + (n - 48)) s'
      else None
  | EmptyString => Some acc
  end.

(** [int(s)] for a string of [isdigit] characters: [ValueError]
    ([None]) when it is empty or holds a digit that is not 0..9. *)
Definition int_of_str (s : string) : option Z :=
  match s with EmptyString => None | _ => int_digits 0 s end.

(** ** [range(lo, hi)] and [sorted] on strings *)

Definition range (lo hi : Z) : list Z := seqZ lo (hi - lo).

Definition sorted (l : list string) : list string := merge_sort String.le l.

(** ** [s.split(sep)] for a one-character separator *)

(** The pieces between the separators, empty ones included: one piece
    more than there are separators. *)
Fixpoint split (sep : ascii) (s : string) : list string :=
  match s with
  | EmptyString => [EmptyString]
  | String c s' =>
      if bool_decide (c = sep) then EmptyString :: split sep s'
      else match split sep s' with
           | piece :: pieces => String c piece :: pieces
           | [] => [String c EmptyString]
           end
  end.

(** ** [sep.join(pieces)], [s[:n]] and tests on the characters of a text *)

(** [sep.join(pieces)] for a one-character separator. *)
Fixpoint join (sep : ascii) (pieces : list string) : string :=
  match pieces with
  | [] => ""
  | [piece] => piece
  | piece :: pieces' => piece +:+ String sep (join sep pieces')
  end.

(** [s[:n]] for [n >= 0]. *)
Fixpoint slice_to (n : Z) (s : string) : string :=
  match s with
  | String c s' =>
      if 0 <? n then String c (slice_to (n - 1) s') else EmptyString
  | EmptyString => EmptyString
  end.

(** Some character of the text is in the class [p]: [re.search] of a
    character class. *)
Fixpoint has_char (p : ascii → bool) (s : string) : bool :=
  match s with
  | String c s' => p c || has_char p s'
  | EmptyString => false
  end.

(** [s.isdigit()]: at least one character, and each one [isdigit]. *)
Definition str_isdigit (s : string) : bool :=
  negb (bool_decide (s = "")) && negb (has_char (λ c, negb (isdigit c)) s).

(** ** [re.findall] of a literal followed by digits *)

(** [\d] on code points below 256: 0 to 9. *)
Definition is_decimal (c : ascii) : bool :=
  let n := N_of_ascii c in ((48 <=? n) && (n <=? 57))%N.

(** The text left after a prefix that is [t] up to case, as [re.I]
    compares a literal on code points below 256: character by character,
    by their lower-case forms. *)
Fixpoint match_literal (t s : string) : option string :=
  match t, s with
  | EmptyString, _ => Some s
  | String a t', String b s' =>
      if bool_decide (lower_char a = lower_char b) then match_literal t' s'
      else None
  | String _ _, EmptyString => None
  end.

(** The digits a text starts with, and what follows them. *)
Fixpoint digits_prefix (s : string) : string :=
  match s with
  | String c s' => if is_decimal c then String c (digits_prefix s') else ""
  | EmptyString => ""
  end.

Fixpoint after_digits (s : string) : string :=
  match s with
  | String c s' => if is_decimal c then after_digits s' else s
  | EmptyString => ""
  end.

(** [re.findall], without regard to case, of the pattern that
    [avoid_duplicate_name] builds: the literal [t], of at least one
    character, as the first group, the digits after it as the second,
    then an optional comma.  The result lists the second group of each
    match.  The scan goes left to right; a match takes [t], the digits
    after it, as many as there are, and one comma if there is one, and
    the next match is sought where it ends.  [skip] counts the
    characters of [s] that the last match still covers. *)
Fixpoint findall_counts (t : string) (skip : nat) (s : string) : list string :=
  match s with
  | EmptyString => []
  | String _ s' =>
      match skip with
      | S skip' => findall_counts t skip' s'
      | O =>
          match match_literal t s with
          | Some rest =>
              let count := digits_prefix rest in
              let comma := match after_digits rest with
                           | String "," _ => 1%nat
                           | _ => 0%nat
                           end in
              count
                :: findall_counts t
                     (String.length t + String.length count + comma - 1) s'
          | None => findall_counts t 0 s'
          end
      end
  end.

(** ** Calls that mutate an object

    A call on an object in state [S] leaves the object in some state and
    either returns ([Some]) or raises ([None]). *)

Abbreviation run S := (S → S * option unit)%type.

(** A statement that cannot raise. *)
Definition effect {S} (f : S → S) : run S := λ s, (f s, Some ()).

(** Statements in sequence: the first that raises ends the run. *)
Fixpoint seq {S} (stmts : list (run S)) : run S :=
  λ s, match stmts with
       | [] => (s, Some ())
       | stmt :: stmts' =>
           match stmt s with
           | (s', Some _) => seq stmts' s'
           | (s', None) => (s', None)
           end
       end.

(** [for x in l: body(x)] *)
Definition for_in {A S} (l : list A) (body : A → run S) : run S :=
  seq (body <$> l).

End Py.

(* ===================================================================== *)
(** * openpyxl: worksheets and workbooks *)
(* ===================================================================== *)

Module Xl.

(** ** Column letters *)

(** The loop of [get_column_letter]: bijective base 26, least
    significant letter first. *)
Fixpoint column_letters (fuel : nat) (col_idx : Z) : list ascii :=
  match fuel with
  | O => []
  | S fuel' =>
      if 0 <? col_idx then
        let q := col_idx / 26 in
        let r := col_idx mod 26 in
        let '(q, r) := if r =? 0 then (q - 1, 26) else (q, r) in
        ascii_of_N (Z.to_N (r + 64)) :: column_letters fuel' q
      else []
  end.

(** [get_column_letter(col_idx)]: columns 1 to 18278 (A to ZZZ);
    [ValueError] ([None]) outside. *)
Definition get_column_letter (col_idx : Z) : option string :=
  if (1 <=? col_idx) && (col_idx <=? 18278)
  then Some (string_of_list_ascii (rev (column_letters 3 col_idx)))
  else None.

Definition letter_value (c : ascii) : option Z :=
  let n := Z.of_N (N_of_ascii c) in
  if (65 <=? n) && (n <=? 90) then Some (n - 64)
  else if (97 <=? n) && (n <=? 122) then Some (n - 96)
  else None.

Fixpoint letters_value (acc : Z) (l : list ascii) : option Z :=
  match l with
  | [] => Some acc
  | c :: l' => v ← letter_value c; letters_value (acc * 26 + v) l'
  end.

(** [column_index_from_string(s)]: one to three letters, either case;
    [ValueError] ([None]) otherwise. *)
Definition column_index_from_string (s : string) : option Z :=
  let l := list_ascii_of_string s in
  if bool_decide (1 <= length l <= 3)%nat then letters_value 0 l else None.

(** ** Cells and worksheets *)

Record PatternFill := {
  start_color : string; end_color : string; fill_type : string
}.

#[global] Instance PatternFill_eq_dec : EqDecision PatternFill.
Proof. solve_decision. Defined.

Record Cell := {
  value : Py.value;
  fill : option PatternFill;
  font_bold : bool
}.

#[global] Instance Cell_eq_dec : EqDecision Cell.
Proof. solve_decision. Defined.

Definition new_cell (v : Py.value) : Cell :=
  {| value := v; fill := None; font_bold := false |}.

Record MergedCellRange := {
  min_row : Z; min_col : Z; max_row : Z; max_col : Z
}.

#[global] Instance MergedCellRange_eq_dec : EqDecision MergedCellRange.
Proof. solve_decision. Defined.

(** A worksheet: its title, the cells that exist (keyed by row and
    column, both from 1), the merged ranges, and the view settings the
    summary builder writes. *)
Record Worksheet := {
  title : string;
  cells : gmap (Z * Z) Cell;
  merged_cells : list MergedCellRange;
  current_row : Z;
  freeze_panes : option string;
  auto_filter_ref : option string;
  column_width : gmap string Z
}.

#[global] Instance Worksheet_eq_dec : EqDecision Worksheet.
Proof. solve_decision. Defined.

(** [ws.cell(row=r, column=c).value]: a cell that does not exist yet
    reads as [None]. *)
Definition cell_value (ws : Worksheet) (r c : Z) : Py.value :=
  match cells ws !! (r, c) with
  | Some x => value x
  | None => Py.VNone
  end.

Definition rows_of (ws : Worksheet) : list Z :=
  fst <$> elements (dom (cells ws)).
Definition cols_of (ws : Worksheet) : list Z :=
  snd <$> elements (dom (cells ws)).

Definition list_max (d : Z) (l : list Z) : Z :=
  match l with [] => d | x :: l' => foldr Z.max x l' end.
Definition list_min (d : Z) (l : list Z) : Z :=
  match l with [] => d | x :: l' => foldr Z.min x l' end.

(** [ws.max_row], [ws.max_column]: 1 for a sheet without cells. *)
Definition ws_max_row (ws : Worksheet) : Z := list_max 1 (rows_of ws).
Definition ws_max_column (ws : Worksheet) : Z := list_max 1 (cols_of ws).

(** [ws.calculate_dimension()]: ["A1:A1"] for a sheet without cells,
    else the corners of the box around the existing cells; it raises
    ([None]) when [get_column_letter] does. *)
Definition calculate_dimension (ws : Worksheet) : option string :=
  if bool_decide (cells ws = ∅) then Some "A1:A1"%string
  else
    lo ← get_column_letter (list_min 1 (cols_of ws));
    hi ← get_column_letter (list_max 1 (cols_of ws));
    Some (lo +:+ pretty (list_min 1 (rows_of ws)) +:+ ":"
          +:+ hi +:+ pretty (list_max 1 (rows_of ws))).

Definition with_cells (f : gmap (Z * Z) Cell → gmap (Z * Z) Cell)
    (row : Z) (ws : Worksheet) : Worksheet :=
  {| title := title ws;
     cells := f (cells ws);
     merged_cells := merged_cells ws;
     current_row := row;
     freeze_panes := freeze_panes ws;
     auto_filter_ref := auto_filter_ref ws;
     column_width := column_width ws |}.

(** [ws.cell(row=r, column=c)] as a write target: the cell is created,
    empty, when it does not exist. *)
Definition touch (r c : Z) (ws : Worksheet) : Worksheet :=
  match cells ws !! (r, c) with
  | Some _ => ws
  | None =>
      with_cells <[(r, c) := new_cell Py.VNone]> (Z.max r (current_row ws)) ws
  end.

(** [ws.cell(row=r, column=c).fill = f] *)
Definition set_fill (r c : Z) (f : PatternFill) (ws : Worksheet)
  : Worksheet :=
  let ws := touch r c ws in
  with_cells
    (alter (λ x, {| value := value x; fill := Some f;
                    font_bold := font_bold x |}) (r, c))
    (current_row ws) ws.

(** [for cell in ws[row]: cell.font = Font(bold=True)], on a sheet
    whose rows are filled from column 1 without gaps. *)
Definition set_row_bold (row : Z) (ws : Worksheet) : Worksheet :=
  with_cells
    (map_imap (λ k x, Some (if k.1 =? row
                            then {| value := value x; fill := fill x;
                                    font_bold := true |}
                            else x)))
    (current_row ws) ws.

Definition set_freeze_panes (ref : string) (ws : Worksheet) : Worksheet :=
  {| title := title ws; cells := cells ws;
     merged_cells := merged_cells ws; current_row := current_row ws;
     freeze_panes := Some ref;
     auto_filter_ref := auto_filter_ref ws;
     column_width := column_width ws |}.

Definition set_auto_filter_ref (ref : string) (ws : Worksheet) : Worksheet :=
  {| title := title ws; cells := cells ws;
     merged_cells := merged_cells ws; current_row := current_row ws;
     freeze_panes := freeze_panes ws;
     auto_filter_ref := Some ref;
     column_width := column_width ws |}.

(** [ws.column_dimensions[col].width = w] *)
Definition set_width (col : string) (w : Z) (ws : Worksheet) : Worksheet :=
  {| title := title ws; cells := cells ws;
     merged_cells := merged_cells ws; current_row := current_row ws;
     freeze_panes := freeze_panes ws;
     auto_filter_ref := auto_filter_ref ws;
     column_width := <[col := w]> (column_width ws) |}.

(** ** Values given to a cell *)

(** [ILLEGAL_CHARACTERS_RE]: the control characters other than tab,
    line feed and carriage return. *)
Definition illegal_char (c : ascii) : bool :=
  let n := N_of_ascii c in
  ((n <=? 8) || (11 <=? n) && (n <=? 12) || (14 <=? n) && (n <=? 31))%N.

(** [Cell.check_string]: the text is cut at 32767 characters;
    [IllegalCharacterError] ([None]) when what is left holds an illegal
    character. *)
Definition check_string (s : string) : option string :=
  let s := Py.slice_to 32767 s in
  if Py.has_char illegal_char s then None else Some s.

(** [cell.value = v], the setter: a text goes through [check_string],
    any other value is stored as it is. *)
Definition bind_value (v : Py.value) : option Py.value :=
  match v with
  | Py.VStr s => Py.VStr <$> check_string s
  | _ => Some v
  end.

(** The loop of [ws.append]: one new cell per value, from column [c];
    it stops at the first value that cannot be stored, with the cells
    it has made by then. *)
Fixpoint put_row (r c : Z) (vs : list Py.value) : Py.run (gmap (Z * Z) Cell) :=
  λ m, match vs with
       | [] => (m, Some ())
       | v :: vs' =>
           match bind_value v with
           | Some v' => put_row r (c + 1) vs' (<[(r, c) := new_cell v']> m)
           | None => (m, None)
           end
       end.

(** [ws.append(values)]: a new row under the current one, from column
    1; the row counter moves when the loop has ended. *)
Definition append (vs : list Py.value) : Py.run Worksheet :=
  λ ws,
    let r := current_row ws + 1 in
    match put_row r 1 vs (cells ws) with
    | (m, Some _) => (with_cells (λ _, m) r ws, Some ())
    | (m, None) => (with_cells (λ _, m) (current_row ws) ws, None)
    end.

(** ** Workbooks *)

(** A chart sheet: a sheet without cells. *)
Record Chartsheet := { chart_title : string }.

#[global] Instance Chartsheet_eq_dec : EqDecision Chartsheet.
Proof. solve_decision. Defined.

Inductive Sheet :=
| Ws (ws : Worksheet)
| Cs (cs : Chartsheet).

#[global] Instance Sheet_eq_dec : EqDecision Sheet.
Proof. solve_decision. Defined.

Definition sheet_title (sh : Sheet) : string :=
  match sh with Ws ws => title ws | Cs cs => chart_title cs end.

(** A method of worksheets called on a sheet: [AttributeError] ([None])
    on a chart sheet. *)
Definition as_worksheet (sh : Sheet) : option Worksheet :=
  match sh with Ws ws => Some ws | Cs _ => None end.

Definition is_worksheet (sh : Sheet) : bool :=
  match sh with Ws _ => true | Cs _ => false end.

(** The sheets in tab order, worksheets and chart sheets. *)
Definition Workbook := list Sheet.

Definition sheetnames (wb : Workbook) : list string := sheet_title <$> wb.

Definition worksheets (wb : Workbook) : list Sheet :=
  List.filter is_worksheet wb.
Definition chartsheets (wb : Workbook) : list Sheet :=
  List.filter (λ sh, negb (is_worksheet sh)) wb.

(** [wb[name]]: the first sheet of that title among the worksheets, then
    among the chart sheets; [KeyError] ([None]) when there is none. *)
Definition getitem (wb : Workbook) (name : string) : option Sheet :=
  find (λ sh, bool_decide (sheet_title sh = name))
       (worksheets wb ++ chartsheets wb).

(** [wb.remove(sh)] for a sheet of the workbook. *)
Fixpoint remove (sh : Sheet) (wb : Workbook) : Workbook :=
  match wb with
  | [] => []
  | x :: wb' => if bool_decide (x = sh) then wb' else x :: remove sh wb'
  end.

Definition empty_sheet (name : string) : Worksheet :=
  {| title := name; cells := ∅; merged_cells := []; current_row := 0;
     freeze_panes := None; auto_filter_ref := None; column_width := ∅ |}.

(** [list.insert(index, x)] for [index >= 0]. *)
Definition list_insert_at {A} (index : nat) (x : A) (l : list A) : list A :=
  take index l ++ x :: drop index l.

(** [INVALID_TITLE_REGEX]: the characters no title may hold,
    [\ * ? : / [ ]]. *)
Definition invalid_title_char (c : ascii) : bool :=
  let n := N_of_ascii c in
  ((n =? 92) || (n =? 42) || (n =? 63) || (n =? 58) || (n =? 47)
   || (n =? 91) || (n =? 93))%N.

(** [avoid_duplicate_name(names, value)]: when a name equals [value] up
    to case, [value] followed by one more than the highest number that
    follows an occurrence of [value], up to case, in the names joined
    by commas. *)
Definition avoid_duplicate_name (names : list string) (value : string)
  : string :=
  let matched :=
    filter (λ n, Py.lower n = Py.lower value) names in
  if bool_decide (matched = []) then value
  else
    let matches := Py.findall_counts value 0 (Py.join "," names) in
    if bool_decide (matches = []) then value
    else
      let counts :=
        omap (λ idx, if Py.str_isdigit idx then Py.int_of_str idx else None)
             matches in
      let highest := list_max 0 counts in
      value +:+ pretty (highest + 1).

(** [wb.create_sheet(title, index)]: a new empty worksheet at position
    [index].  Its title is the requested one, "Sheet" for an empty one,
    as [avoid_duplicate_name] renames it; [ValueError] ([None]), before
    anything is made, when the requested title holds a character that
    no title may hold. *)
Definition create_sheet (title : string) (index : nat) (wb : Workbook)
  : option (Worksheet * Workbook) :=
  let value := if bool_decide (title = "") then "Sheet"%string else title in
  if Py.has_char invalid_title_char value then None
  else
    let ws := empty_sheet (avoid_duplicate_name (sheetnames wb) value) in
    Some (ws, list_insert_at index (Ws ws) wb).

(** The effect, on the workbook, of mutating by [f] the worksheet
    object titled [name] that it holds: the one [wb[name]] returns when
    it returns a worksheet. *)
Fixpoint modify (name : string) (f : Worksheet → Worksheet) (wb : Workbook)
  : Workbook :=
  match wb with
  | [] => []
  | Ws ws :: wb' =>
      if bool_decide (title ws = name) then Ws (f ws) :: wb'
      else Ws ws :: modify name f wb'
  | Cs cs :: wb' => Cs cs :: modify name f wb'
  end.

(** The same for statements that can raise; [None] too when the
    workbook holds no such worksheet. *)
Fixpoint mutate (name : string) (stmt : Py.run Worksheet) : Py.run Workbook :=
  λ wb, match wb with
        | [] => ([], None)
        | Ws ws :: wb' =>
            if bool_decide (title ws = name)
            then let '(ws', r) := stmt ws in (Ws ws' :: wb', r)
            else let '(wb'', r) := mutate name stmt wb' in (Ws ws :: wb'', r)
        | Cs cs :: wb' =>
            let '(wb'', r) := mutate name stmt wb' in (Cs cs :: wb'', r)
        end.

End Xl.

(* ===================================================================== *)
(** * excel_diff.py *)
(* ===================================================================== *)

Import Py(value, VNone, VBool, VInt, VFloat, VStr, VDate, float).

(** Highlight fills. *)
Definition FILL_CHANGED : Xl.PatternFill :=
  {| Xl.start_color := "FFE699"; Xl.end_color := "FFE699"; Xl.fill_type := "solid" |}.
Definition FILL_ADDED : Xl.PatternFill :=
  {| Xl.start_color := "C6EFCE"; Xl.end_color := "C6EFCE"; Xl.fill_type := "solid" |}.
Definition FILL_REMOVED : Xl.PatternFill :=
  {| Xl.start_color := "FFC7CE"; Xl.end_color := "FFC7CE"; Xl.fill_type := "solid" |}.

Record DiffRecord := {
  sheet : string;
  cell : string;
  status : string;
  old : value;
  new : value
}.

Definition is_number (x : value) : bool :=
  match x with VInt _ | VFloat _ => true | _ => false end.

Definition normalize_str (s : value) (trim_whitespace case_insensitive : bool)
  : value :=
  match s with
  | VNone => VNone
  | VStr s =>
      let out := if trim_whitespace then Py.strip s else s in
      VStr (if case_insensitive then Py.lower out else out)
  | other => other
  end.

(** [float(x)] where [is_number x]; [None] is the exception that the
    [try] of [equal_values] catches. *)
Definition float_of_number (x : value) : option float :=
  match x with
  | VInt z => Py.float_of_int z
  | VFloat f => Some f
  | _ => None
  end.

(** [str(x) if x is not None else None] *)
Definition str_or_None (x : value) : value :=
  if Py.is_None x then VNone else VStr (Py.str x).

Definition equal_values (a b : value) (tolerance : float)
    (trim_whitespace case_insensitive : bool) : bool :=
  if Py.eq a b then true
  else if is_number a && is_number b then
    match float_of_number a, float_of_number b with
    | Some x, Some y => Py.fle (Py.fabs (Py.fsub x y)) tolerance
    | _, _ => false
    end
  else if Py.isinstance_str a || Py.isinstance_str b then
    Py.eq (normalize_str (str_or_None a) trim_whitespace case_insensitive)
          (normalize_str (str_or_None b) trim_whitespace case_insensitive)
  else false.

Definition cell_coord (row col : Z) : option string :=
  letters ← Xl.get_column_letter col; Some (letters +:+ pretty row).

Definition merged_non_anchors (ws : Xl.Worksheet) : gset (Z * Z) :=
  foldl (λ coords mr,
    foldl (λ coords r,
      foldl (λ coords c,
        if bool_decide (r = Xl.min_row mr ∧ c = Xl.min_col mr) then coords
        else {[ (r, c) ]} ∪ coords)
      coords (Py.range (Xl.min_col mr) (Xl.max_col mr + 1)))
    coords (Py.range (Xl.min_row mr) (Xl.max_row mr + 1)))
  ∅ (Xl.merged_cells ws).

(** The body of the [try] in [sheet_used_bounds]; [None] is an exception. *)
Definition parse_dimension (dim : string) : option (Z * Z) :=
  let br := match Py.split_once ":" dim with
            | Some (_, br) => br
            | None => dim
            end in
  let col_letters := Py.filter_chars Py.isalpha br in
  let row_digits := Py.filter_chars Py.isdigit br in
  max_col ← (if bool_decide (col_letters = "") then Some 1
             else Xl.column_index_from_string col_letters);
  max_row ← Py.int_of_str (if bool_decide (row_digits = "") then "1"
                           else row_digits);
  Some (max_row, max_col).

(** [x or 1] *)
Definition or_1 (x : Z) : Z := if x =? 0 then 1 else x.

(** [None] when [calculate_dimension], called outside the [try], raises. *)
Definition sheet_used_bounds (ws : Xl.Worksheet) : option (Z * Z) :=
  dim ← Xl.calculate_dimension ws;
  match parse_dimension dim with
  | Some b => Some b
  | None => Some (or_1 (Xl.ws_max_row ws), or_1 (Xl.ws_max_column ws))
  end.

(** [a is None or a == ''] *)
Definition is_empty (a : value) : bool :=
  Py.is_None a || Py.eq a (VStr "").

(** One turn of the inner loop of [iter_diff_cells]: what it yields at
    the coordinate [(r, c)]. *)
Definition diff_cell (base_ws new_ws : Xl.Worksheet)
    (base_skip new_skip : gset (Z * Z)) (tolerance : float)
    (trim_whitespace case_insensitive : bool) (r c : Z)
  : list (Z * Z * string) :=
  if bool_decide ((r, c) ∈ base_skip ∨ (r, c) ∈ new_skip) then []
  else
    let a := Xl.cell_value base_ws r c in
    let b := Xl.cell_value new_ws r c in
    let a_empty := is_empty a in
    let b_empty := is_empty b in
    if a_empty && b_empty then []
    else if a_empty && negb b_empty then [(r, c, "added")]
    else if b_empty && negb a_empty then [(r, c, "removed")]
    else if negb (equal_values a b tolerance trim_whitespace case_insensitive)
    then [(r, c, "changed")]
    else [].

Definition iter_diff_cells (base_ws new_ws : Xl.Worksheet) (tolerance : float)
    (trim_whitespace case_insensitive : bool)
  : option (list (Z * Z * string)) :=
  '(base_max_r, base_max_c) ← sheet_used_bounds base_ws;
  '(new_max_r, new_max_c) ← sheet_used_bounds new_ws;
  let max_r := Z.max base_max_r new_max_r in
  let max_c := Z.max base_max_c new_max_c in
  let base_skip := merged_non_anchors base_ws in
  let new_skip := merged_non_anchors new_ws in
  Some (r ← Py.range 1 (max_r + 1);
        c ← Py.range 1 (max_c + 1);
        diff_cell base_ws new_ws base_skip new_skip tolerance
                  trim_whitespace case_insensitive r c).

(** [f"{name}_{i}"] *)
Definition suffixed (name : string) (i : Z) : string :=
  name +:+ "_" +:+ pretty i.

(** The [while] loop of [ensure_unique_sheet_name], from [i]: the first
    suffix whose name is free.  [fuel] bounds the number of turns. *)
Fixpoint first_free_suffix (fuel : nat) (names : list string) (name : string)
    (i : Z) : option Z :=
  match fuel with
  | O => None
  | S fuel' =>
      if bool_decide (suffixed name i ∈ names)
      then first_free_suffix fuel' names name (i + 1)
      else Some i
  end.

(** The loop runs at most once per existing sheet name, plus one turn. *)
Definition ensure_unique_sheet_name (wb : Xl.Workbook) (name : string)
  : option string :=
  let names := Xl.sheetnames wb in
  if bool_decide (name ∉ names) then Some name
  else
    i ← first_free_suffix (S (length names)) names name 1;
    Some (suffixed name i).

Definition headers : list value :=
  [VStr "Sheet"; VStr "Cell"; VStr "Status"; VStr "Old Value"; VStr "New Value"].

Definition summary_row (d : DiffRecord) : list value :=
  [VStr (sheet d); VStr (cell d); VStr (status d); old d; new d].

(** What [add_summary_sheet] does to the sheet it has created. *)
Definition fill_summary (diffs : list DiffRecord) : Py.run Xl.Worksheet :=
  Py.seq [
    Xl.append headers;
    Py.for_in diffs (λ d, Xl.append (summary_row d));
    Py.effect (Xl.set_row_bold 1);
    Py.effect (Xl.set_freeze_panes "A2");
    Py.effect (Xl.set_auto_filter_ref
                 ("A1:E" +:+ pretty (Z.max 1 (Z.of_nat (length diffs) + 1))));
    Py.effect (Xl.set_width "A" 24);
    Py.effect (Xl.set_width "B" 12);
    Py.effect (Xl.set_width "C" 14);
    Py.effect (Xl.set_width "D" 30);
    Py.effect (Xl.set_width "E" 30)
  ].

(** [add_summary_sheet(wb_out, diffs)]: the workbook as the call leaves
    it, and whether it returns. *)
Definition add_summary_sheet (wb_out : Xl.Workbook) (diffs : list DiffRecord)
  : Xl.Workbook * option unit :=
  match ensure_unique_sheet_name wb_out "Diff_Summary" with
  | None => (wb_out, None)
  | Some title =>
      let removal :=
        if bool_decide (title ∈ Xl.sheetnames wb_out)
        then ws ← Xl.getitem wb_out title; Some (Xl.remove ws wb_out)
        else Some wb_out in
      match removal with
      | None => (wb_out, None)
      | Some wb_out =>
          match Xl.create_sheet title 0 wb_out with
          | None => (wb_out, None)
          | Some (ws, wb_out) =>
              Xl.mutate (Xl.title ws) (fill_summary diffs) wb_out
          end
      end
  end.

(** [if s:] for an optional set: [None] and the empty set are false. *)
Definition truthy (s : option (gset string)) : bool :=
  match s with
  | Some x => negb (bool_decide (x = ∅))
  | None => false
  end.

(** [x in s], evaluated only where [s] is a set. *)
Definition member (x : string) (s : option (gset string)) : bool :=
  match s with
  | Some s => bool_decide (x ∈ s)
  | None => false
  end.

Fixpoint for_each {A S} (body : S → A → option S) (l : list A) (s : S)
  : option S :=
  match l with
  | [] => Some s
  | x :: l' => s' ← body s x; for_each body l' s'
  end.

(** The loop over [sorted(only_in_...)]: one sheet-level record for each
    sheet that passes the filters. *)
Definition record_missing (include_sheets exclude_sheets : option (gset string))
    (st : string) (diffs : list DiffRecord) (names : list string)
  : list DiffRecord :=
  foldl (λ diffs s,
    if truthy include_sheets && negb (member s include_sheets) then diffs
    else if truthy exclude_sheets && member s exclude_sheets then diffs
    else diffs ++ [ {| sheet := s; cell := ""; status := st;
                       old := VNone; new := VNone |} ])
  diffs names.

(** [out_cell.fill = ...] by status. *)
Definition mark (st : string) (r c : Z) (ws : Xl.Worksheet) : Xl.Worksheet :=
  if bool_decide (st = "added") then Xl.set_fill r c FILL_ADDED ws
  else if bool_decide (st = "removed") then Xl.set_fill r c FILL_REMOVED ws
  else if bool_decide (st = "changed") then Xl.set_fill r c FILL_CHANGED ws
  else Xl.touch r c ws.

(** The body of the loop over the differences of one sheet.
    [new_ws_out] is the sheet of the output copy under the name [s], if
    there is one: an object of the workbook [acc.2], where the fills
    are written. *)
Definition record_cell (s : string) (base_ws new_ws_vals : Xl.Worksheet)
    (highlight : bool) (new_ws_out : option Xl.Sheet)
    (acc : list DiffRecord * Xl.Workbook)
    (d : Z * Z * string) : option (list DiffRecord * Xl.Workbook) :=
  let '(r, c, st) := d in
  cell ← cell_coord r c;
  let a := Xl.cell_value base_ws r c in
  let b := Xl.cell_value new_ws_vals r c in
  let diffs := acc.1 ++ [ {| sheet := s; cell := cell; status := st;
                             old := a; new := b |} ] in
  if highlight && bool_decide (is_Some new_ws_out) then
    _ ← new_ws_out ≫= Xl.as_worksheet;
    Some (diffs, Xl.modify s (mark st r c) acc.2)
  else Some (diffs, acc.2).

(** The body of the loop over [to_compare]. *)
Definition compare_sheet (base_wb new_wb_values : Xl.Workbook)
    (tolerance : float) (trim_whitespace case_insensitive highlight : bool)
    (acc : list DiffRecord * Xl.Workbook) (s : string)
  : option (list DiffRecord * Xl.Workbook) :=
  base_ws ← Xl.getitem base_wb s;
  new_ws_vals ← Xl.getitem new_wb_values s;
  new_ws_out ← (if bool_decide (s ∈ Xl.sheetnames acc.2)
                then Some <$> Xl.getitem acc.2 s else Some None);
  base_ws ← Xl.as_worksheet base_ws;
  new_ws_vals ← Xl.as_worksheet new_ws_vals;
  ds ← iter_diff_cells base_ws new_ws_vals tolerance trim_whitespace
                       case_insensitive;
  for_each (record_cell s base_ws new_ws_vals highlight new_ws_out) ds acc.

Definition to_compare_of (base_wb new_wb_values : Xl.Workbook)
    (include_sheets exclude_sheets : option (gset string)) : list string :=
  let base_sheets : gset string := list_to_set (Xl.sheetnames base_wb) in
  let new_sheets : gset string := list_to_set (Xl.sheetnames new_wb_values) in
  let to_compare := Py.sorted (elements (base_sheets ∩ new_sheets)) in
  let to_compare :=
    if truthy include_sheets
    then filter (λ s, member s include_sheets = true) to_compare
    else to_compare in
  if truthy exclude_sheets
  then filter (λ s, member s exclude_sheets = false) to_compare
  else to_compare.

Record Outcome := {
  returned : Z * Z;            (* (num_sheets_compared, num_differences) *)
  diffs_of : list DiffRecord;  (* the local list [diffs] at the end *)
  saved : Xl.Workbook          (* what [new_wb_out.save] writes *)
}.

(** [compare_workbooks] on the three workbooks it loads: the base and the
    new one as read for comparison (values or formulas, by
    [compare_formulas]), and the writable copy of the new one.  [None]
    is an exception leaving the function. *)
Definition compare_workbooks (base_wb new_wb_values new_wb_out : Xl.Workbook)
    (include_sheets exclude_sheets : option (gset string))
    (tolerance : float)
    (trim_whitespace case_insensitive highlight : bool) : option Outcome :=
  let diffs : list DiffRecord := [] in
  let base_sheets : gset string := list_to_set (Xl.sheetnames base_wb) in
  let new_sheets : gset string := list_to_set (Xl.sheetnames new_wb_values) in
  let to_compare :=
    to_compare_of base_wb new_wb_values include_sheets exclude_sheets in
  let only_in_base := base_sheets ∖ new_sheets in
  let only_in_new := new_sheets ∖ base_sheets in
  let diffs := record_missing include_sheets exclude_sheets
                 "missing_sheet_new" diffs
                 (Py.sorted (elements only_in_base)) in
  let diffs := record_missing include_sheets exclude_sheets
                 "missing_sheet_base" diffs
                 (Py.sorted (elements only_in_new)) in
  '(diffs, new_wb_out) ←
    for_each (compare_sheet base_wb new_wb_values tolerance trim_whitespace
                            case_insensitive highlight)
             to_compare (diffs, new_wb_out);
  let '(new_wb_out, ended) := add_summary_sheet new_wb_out diffs in
  _ ← ended;
  Some {| returned := (Z.of_nat (length to_compare), Z.of_nat (length diffs));
          diffs_of := diffs;
          saved := new_wb_out |}.

(** [bool(s)] for a string: the empty string is false. *)
Definition str_truthy (s : string) : bool := negb (bool_decide (s = "")).

Definition parse_csv_set (v : option string) : option (gset string) :=
  match v with
  | None => None
  | Some v =>
      let items := Py.strip <$> filter (λ x, str_truthy (Py.strip x) = true)
                                       (Py.split "," v) in
      if bool_decide (items = []) then None else Some (list_to_set items)
  end.

(* ===================================================================== *)
(** * Definitions used to state the properties *)
(* ===================================================================== *)

(** Text normalisation in the words of the specification: trim when
    configured, then fold case when configured. *)
Definition normalize_text (trim_whitespace case_insensitive : bool)
    (s : string) : string :=
  let s := if trim_whitespace then Py.strip s else s in
  if case_insensitive then Py.lower s else s.

Definition flt (x y : float) : bool := SFltb x y.

(** The double 1.0. *)
Definition one : float := S754_finite false 4503599627370496 (-52).
Definition zero : float := S754_zero false.
(** The double 2.0. *)
Definition two : float := S754_finite false 4503599627370496 (-51).

(** A coordinate inside a merged range other than its top-left corner. *)
Definition non_anchor_member (mr : Xl.MergedCellRange) (r c : Z) : Prop :=
  Xl.min_row mr ≤ r ≤ Xl.max_row mr
  ∧ Xl.min_col mr ≤ c ≤ Xl.max_col mr
  ∧ (r, c) ≠ (Xl.min_row mr, Xl.min_col mr).

(** Row-major order on what [iter_diff_cells] yields: by row, then by
    column. *)
Definition row_major (x y : Z * Z * string) : Prop :=
  x.1.1 < y.1.1 ∨ (x.1.1 = y.1.1 ∧ x.1.2 < y.1.2).

(** The classification of one coordinate in the words of the
    specification, on the raw values of the two sheets: [None] is skip. *)
Definition classify (a b : value) (tolerance : float)
    (trim_whitespace case_insensitive : bool) : option string :=
  match is_empty a, is_empty b with
  | true, true => None
  | true, false => Some "added"
  | false, true => Some "removed"
  | false, false =>
      if equal_values a b tolerance trim_whitespace case_insensitive
      then None else Some "changed"
  end.

(** Lexicographic order on sheet names, by code point. *)
Definition string_lt (s t : string) : Prop := String.compare s t = Lt.

(** The include/exclude rule of the specification: with an allow-list in
    force, be on it; with a deny-list in force, be off it. *)
Definition passes (include_sheets exclude_sheets : option (gset string))
    (s : string) : bool :=
  (negb (truthy include_sheets) || member s include_sheets)
  && (negb (truthy exclude_sheets) || negb (member s exclude_sheets)).

(** A sheet-level record. *)
Definition sheet_level (st s : string) : DiffRecord :=
  {| sheet := s; cell := ""; status := st; old := VNone; new := VNone |}.

(** The cell-level record of one yielded difference; [None] when the
    column has no letters. *)
Definition cell_level (s : string) (base_ws new_ws : Xl.Worksheet)
    (d : Z * Z * string) : option DiffRecord :=
  cell ← cell_coord d.1.1 d.1.2;
  Some {| sheet := s; cell := cell; status := d.2;
          old := Xl.cell_value base_ws d.1.1 d.1.2;
          new := Xl.cell_value new_ws d.1.1 d.1.2 |}.

(** [recs] are the cell-level records of sheet [s]: one per difference
    the diff of its two versions yields, in that order, which is
    row-major. *)
Definition cell_records_of (base_wb new_wb_values : Xl.Workbook)
    (tolerance : float) (trim_whitespace case_insensitive : bool)
    (s : string) (recs : list DiffRecord) : Prop :=
  ∃ base_ws new_ws ds,
    Xl.getitem base_wb s = Some (Xl.Ws base_ws)
    ∧ Xl.getitem new_wb_values s = Some (Xl.Ws new_ws)
    ∧ iter_diff_cells base_ws new_ws tolerance trim_whitespace
                      case_insensitive = Some ds
    ∧ StronglySorted row_major ds
    ∧ Forall2 (λ d rec, cell_level s base_ws new_ws d = Some rec) ds recs.

(** What a run has recorded that took, of the sheet names, exactly the
    ones [keep] accepts: the 'missing_sheet_new' records of the kept
    sheets only the base workbook holds, then the 'missing_sheet_base'
    records of the kept sheets only the new one holds, then the cell
    records of the kept common sheets, sheet by sheet; and it returns
    the number of those common sheets with the number of records. *)
Definition records_of_kept (keep : string → bool)
    (base_wb new_wb_values : Xl.Workbook) (tolerance : float)
    (trim_whitespace case_insensitive : bool) (o : Outcome) : Prop :=
  let base_sheets : gset string := list_to_set (Xl.sheetnames base_wb) in
  let new_sheets : gset string := list_to_set (Xl.sheetnames new_wb_values) in
  let kept := filter (λ s, keep s = true) in
  ∃ groups : list (list DiffRecord),
    diffs_of o
    = (sheet_level "missing_sheet_new" <$>
         kept (Py.sorted (elements (base_sheets ∖ new_sheets))))
      ++ (sheet_level "missing_sheet_base" <$>
            kept (Py.sorted (elements (new_sheets ∖ base_sheets))))
      ++ concat groups
    ∧ Forall2 (cell_records_of base_wb new_wb_values tolerance
                 trim_whitespace case_insensitive)
        (kept (Py.sorted (elements (base_sheets ∩ new_sheets)))) groups
    ∧ returned o
      = (Z.of_nat (length (kept (Py.sorted
                     (elements (base_sheets ∩ new_sheets))))),
         Z.of_nat (length (diffs_of o))).

(** The text of [n] times the character [c]. *)
Fixpoint copies (n : nat) (c : ascii) : string :=
  match n with
  | O => EmptyString
  | S n' => String c (copies n' c)
  end.

(** A chart sheet, and a record whose old value holds a control
    character. *)
Definition chart_ex : Xl.Sheet := Xl.Cs {| Xl.chart_title := "Chart1" |}.
Definition control_record : DiffRecord :=
  {| sheet := "S1"; cell := "A1"; status := "changed";
     old := VStr (String (ascii_of_nat 1) "x"); new := VNone |}.

(** Two versions of a sheet "S1".  The base holds A1 = "foo", A2 = 100
    and the blank text B3; the new one holds A1 = "FOO", A2 = 100, and
    the merged range C4:D4 with a value at its anchor C4 and another
    under it at D4. *)
Definition sheet_with (name : string) (vs : list (Z * Z * value))
    (merged : list Xl.MergedCellRange) : Xl.Worksheet :=
  {| Xl.title := name;
     Xl.cells := list_to_map ((λ x, (x.1, Xl.new_cell x.2)) <$> vs);
     Xl.merged_cells := merged;
     Xl.current_row := 0;
     Xl.freeze_panes := None;
     Xl.auto_filter_ref := None;
     Xl.column_width := ∅ |}.

Definition base_S1 : Xl.Worksheet :=
  sheet_with "S1" [(1, 1, VStr "foo"); (2, 1, VInt 100); (3, 2, VStr "  ")] [].

Definition new_S1 : Xl.Worksheet :=
  sheet_with "S1"
    [(1, 1, VStr "FOO"); (2, 1, VInt 100); (4, 3, VStr "y"); (4, 4, VStr "x")]
    [ {| Xl.min_row := 4; Xl.min_col := 3; Xl.max_row := 4; Xl.max_col := 4 |} ].

(** Two workbooks around them: "S1" is common, "Old" is only in the
    base, "New" only in the new one. *)
Definition base_wb_ex : Xl.Workbook :=
  [Xl.Ws base_S1; Xl.Ws (Xl.empty_sheet "Old")].
Definition new_wb_ex : Xl.Workbook :=
  [Xl.Ws new_S1; Xl.Ws (Xl.empty_sheet "New")].

(** An output workbook that already holds a sheet titled "Diff_Summary",
    with one cell. *)
Definition prior_summary : Xl.Worksheet :=
  (Xl.append [VStr "kept"] (Xl.empty_sheet "Diff_Summary")).1.
Definition wb_with_summary : Xl.Workbook :=
  [Xl.Ws (Xl.empty_sheet "Sheet1"); Xl.Ws prior_summary].

(** The float that equals nothing, itself included. *)
Definition is_nan (a : value) : bool :=
  match a with VFloat S754_nan => true | _ => false end.

(** The status of a difference seen from the other side. *)
Definition swap_status (st : string) : string :=
  if bool_decide (st = "added") then "removed"
  else if bool_decide (st = "removed") then "added"
  else st.

Definition swap_sides (d : Z * Z * string) : Z * Z * string :=
  (d.1, swap_status d.2).

(** The fill [compare_workbooks] gives a cell of each status. *)
Definition fill_of_status (st : string) : option Xl.PatternFill :=
  if bool_decide (st = "added") then Some FILL_ADDED
  else if bool_decide (st = "removed") then Some FILL_REMOVED
  else if bool_decide (st = "changed") then Some FILL_CHANGED
  else None.

(** The first character of a text is white space. *)
Definition starts_blank (s : string) : bool :=
  match s with String c _ => Py.isspace c | EmptyString => false end.

(** No character of the text satisfies [p]. *)
Fixpoint none_of (p : ascii → bool) (s : string) : bool :=
  match s with
  | String c s' => negb (p c) && none_of p s'
  | EmptyString => true
  end.

(** None of the first [k] characters of the text satisfies [p]. *)
Fixpoint none_of_first (p : ascii → bool) (k : nat) (s : string) : bool :=
  match k, s with
  | S k', String c s' => negb (p c) && none_of_first p k' s'
  | _, _ => true
  end.

(** The character is the separator. *)
Definition is_sep (sep c : ascii) : bool := bool_decide (c = sep).

(** Upper-case ASCII letters and ASCII digits. *)
Definition is_upper (c : ascii) : bool :=
  let n := N_of_ascii c in ((65 <=? n) && (n <=? 90))%N.
Definition is_ascii_digit (c : ascii) : bool :=
  let n := N_of_ascii c in ((48 <=? n) && (n <=? 57))%N.

(** The upper-case letters a text starts with. *)
Fixpoint take_upper (s : string) : string :=
  match s with
  | String c s' => if is_upper c then String c (take_upper s') else ""
  | EmptyString => ""
  end.

(** Column [c] has letters, upper-case ones, that read back as [c]. *)
Definition column_reads_back (c : Z) : bool :=
  match Xl.get_column_letter c with
  | Some s =>
      bool_decide (Xl.column_index_from_string s = Some c)
      && none_of (λ ch, negb (is_upper ch)) s
  | None => false
  end.

(** Every cell of the sheet sits at a row from 1 and a column from A to
    ZZZ, as openpyxl places cells. *)
Definition well_placed (ws : Xl.Worksheet) : Prop :=
  map_Forall (λ k _, 1 ≤ k.1 ∧ 1 ≤ k.2 ≤ 18278) (Xl.cells ws).


(** The value a table of rows, written under row [top] from column 1,
    has at row [r] and column [c]. *)
Definition table_cell (rows : list (list value)) (top r c : Z)
  : option value :=
  if bool_decide (top < r ∧ 1 ≤ c)
  then rows !! Z.to_nat (r - top - 1) ≫= λ vs, vs !! Z.to_nat (c - 1)
  else None.

(** A cell of the summary sheet: no fill, bold in the header row. *)
Definition summary_cell (r : Z) (v : value) : Xl.Cell :=
  {| Xl.value := v; Xl.fill := None; Xl.font_bold := bool_decide (r = 1) |}.

(** What a cell holds once it has been given [v]: a text is cut at
    32767 characters. *)
Definition stored (v : value) : value :=
  match v with VStr s => VStr (Py.slice_to 32767 s) | _ => v end.

(** A cell can be given [v]: a text holds no illegal character among
    its first 32767. *)
Definition storable (v : value) : Prop := is_Some (Xl.bind_value v).

(** The row of a record can be written, and the row as it is held. *)
Definition storable_record (d : DiffRecord) : Prop :=
  Forall storable (summary_row d).
Definition stored_row (d : DiffRecord) : list value :=
  stored <$> summary_row d.

(** The fill of a cell; a cell that does not exist has none. *)
Definition fill_at (ws : Xl.Worksheet) (r c : Z) : option Xl.PatternFill :=
  Xl.cells ws !! (r, c) ≫= Xl.fill.

(** Two states of a sheet that differ at most in the fills of their
    cells, in which cells exist as objects, and in the row counter. *)
Definition same_content (a b : Xl.Worksheet) : Prop :=
  Xl.title a = Xl.title b
  ∧ Xl.merged_cells a = Xl.merged_cells b
  ∧ Xl.freeze_panes a = Xl.freeze_panes b
  ∧ Xl.auto_filter_ref a = Xl.auto_filter_ref b
  ∧ Xl.column_width a = Xl.column_width b
  ∧ ∀ r c, Xl.cell_value a r c = Xl.cell_value b r c.

(** The same for two states of a sheet of either kind. *)
Definition same_sheet (a b : Xl.Sheet) : Prop :=
  match a, b with
  | Xl.Ws x, Xl.Ws y => same_content x y
  | Xl.Cs x, Xl.Cs y => x = y
  | _, _ => False
  end.

(** [f] on a worksheet, nothing on a chart sheet. *)
Definition on_worksheet (f : Xl.Worksheet → Xl.Worksheet) (sh : Xl.Sheet)
  : Xl.Sheet :=
  match sh with Xl.Ws ws => Xl.Ws (f ws) | Xl.Cs _ => sh end.


(** The highlights of the differences of one sheet, applied in order. *)
Definition marked (ds : list (Z * Z * string)) (ws : Xl.Worksheet)
  : Xl.Worksheet :=
  foldl (λ ws d, mark d.2 d.1.1 d.1.2 ws) ws ds.

(* ===================================================================== *)
(** * The value equality oracle *)
(* ===================================================================== *)

Section equal_values_facts.
Variables (tolerance : float) (trim_whitespace case_insensitive : bool).

Local Abbreviation equal a b :=
  (equal_values a b tolerance trim_whitespace case_insensitive).

Lemma normalize_str_text s :
  normalize_str (VStr s) trim_whitespace case_insensitive
  = VStr (normalize_text trim_whitespace case_insensitive s).
Proof. reflexivity. Qed.

Lemma equal_values_shortcut a b : Py.eq a b = true → equal a b = true.
Proof. unfold equal_values. by intros ->. Qed.

(** Two texts are compared through their normal forms. *)
Lemma equal_values_text s t :
  equal (VStr s) (VStr t)
  = bool_decide (normalize_text trim_whitespace case_insensitive s
                 = normalize_text trim_whitespace case_insensitive t).
Proof.
  unfold equal_values; simpl. case_bool_decide as Hst; [|done].
  subst. symmetry. by apply bool_decide_eq_true.
Qed.

(** A boolean never enters the tolerance step: against an int it is
    equal exactly when it is that int. *)
Lemma equal_values_bool_int b z :
  equal (VBool b) (VInt z) = (Py.int_of_bool b =? z)
  ∧ equal (VInt z) (VBool b) = (Py.int_of_bool b =? z).
Proof. unfold equal_values; simpl. by destruct (_ =? _). Qed.

End equal_values_facts.

(** ** Comparison of doubles *)

Lemma SFcompare_antisym (x y : float) :
  SFcompare y x = CompOpp <$> SFcompare x y.
Proof.
  destruct x as [sx|sx| |sx mx ex], y as [sy|sy| |sy my ey]; simpl;
    try done; try (by destruct sx); try (by destruct sy);
    try (by destruct sx, sy).
  rewrite (Z.compare_antisym ex ey).
  change (Pos.compare_cont Eq my mx)
    with (Pos.compare_cont (CompOpp Eq) my mx).
  rewrite <- (Pos.compare_cont_antisym mx my Eq).
  destruct sx, sy; simpl; try done;
    destruct (ex ?= ey); simpl; try done;
    by destruct (Pos.compare_cont Eq mx my).
Qed.

Lemma feq_sym (x y : float) : Py.feq x y = Py.feq y x.
Proof.
  unfold Py.feq, SFeqb. rewrite (SFcompare_antisym x y).
  by destruct (SFcompare x y) as [[]|].
Qed.

Lemma feq_fle (x y : float) : Py.feq x y = true → Py.fle x y = true.
Proof.
  unfold Py.feq, Py.fle, SFeqb, SFleb.
  by destruct (SFcompare x y) as [[]|].
Qed.

Lemma flt_not_fle (x y : float) : flt x y = true → Py.fle y x = false.
Proof.
  unfold flt, Py.fle, SFltb, SFleb. rewrite (SFcompare_antisym x y).
  by destruct (SFcompare x y) as [[]|].
Qed.

(** The sign of a rounded result is the sign it was given. *)
Lemma SFabs_binary_round_aux (s s' : bool) (m e : Z) (l : location) :
  SFabs (binary_round_aux Py.prec Py.emax s m e l)
  = SFabs (binary_round_aux Py.prec Py.emax s' m e l).
Proof.
  unfold binary_round_aux.
  destruct (shr_fexp _ _ _ _ _) as [mrs' e'].
  destruct (shr_fexp _ _ _ _ _) as [mrs'' e''].
  destruct (shr_m mrs''); simpl; try done.
  by destruct (_ <=? _).
Qed.

Lemma SFabs_binary_normalize_opp (z e : Z) :
  SFabs (binary_normalize Py.prec Py.emax (- z) e false)
  = SFabs (binary_normalize Py.prec Py.emax z e false).
Proof.
  destruct z; simpl; try done; unfold binary_round;
    destruct (shl_align _ _ _); apply SFabs_binary_round_aux.
Qed.

(** [abs(x - y)] is [abs(y - x)]. *)
Lemma fabs_fsub_sym (x y : float) :
  Py.fabs (Py.fsub x y) = Py.fabs (Py.fsub y x).
Proof.
  unfold Py.fabs, Py.fsub.
  destruct x as [sx|sx| |sx mx ex], y as [sy|sy| |sy my ey]; simpl;
    try done; try (by destruct sx, sy).
  rewrite (Z.min_comm ey ex), <- SFabs_binary_normalize_opp.
  f_equal. f_equal. lia.
Qed.

Lemma Py_eq_sym (a b : value) : Py.eq a b = Py.eq b a.
Proof.
  destruct a, b; simpl; try done.
  - by destruct b, b0.
  - apply Z.eqb_sym.
  - apply feq_sym.
  - apply bool_decide_ext; split; congruence.
  - apply bool_decide_ext; split; congruence.
Qed.

(** The oracle is symmetric on all values, not only on texts. *)
Lemma equal_values_sym (a b : value) (tolerance : float)
    (trim_whitespace case_insensitive : bool) :
  equal_values a b tolerance trim_whitespace case_insensitive
  = equal_values b a tolerance trim_whitespace case_insensitive.
Proof.
  unfold equal_values. rewrite (Py_eq_sym b a).
  rewrite (andb_comm (is_number b)), (orb_comm (Py.isinstance_str b)).
  rewrite (Py_eq_sym (normalize_str (str_or_None b) _ _)).
  destruct (Py.eq a b); [done|].
  destruct (is_number a && is_number b); [|done].
  destruct (float_of_number a) as [x|], (float_of_number b) as [y|];
    try done.
  by rewrite fabs_fsub_sym.
Qed.

(** C8: for every configuration, [True] and the number 1, and [False] and
    the number 0, are equal values (int or float, either way round),
    through the equality shortcut, although [is_number] rejects booleans. *)
Theorem bool_equals_its_number (tolerance : float)
    (trim_whitespace case_insensitive : bool) :
  let equal a b :=
    equal_values a b tolerance trim_whitespace case_insensitive in
  (equal (VBool true) (VInt 1) = true ∧ equal (VBool false) (VInt 0) = true)
  ∧ (equal (VInt 1) (VBool true) = true ∧ equal (VInt 0) (VBool false) = true)
  ∧ (equal (VBool true) (VFloat one) = true
     ∧ equal (VBool false) (VFloat zero) = true)
  ∧ (∀ b, is_number (VBool b) = false).
Proof. by repeat split. Qed.

(** C7: on two texts the oracle gives the same answer whichever comes
    first, for every configuration. *)
Theorem equal_values_text_symmetric (s t : string) (tolerance : float)
    (trim_whitespace case_insensitive : bool) :
  equal_values (VStr s) (VStr t) tolerance trim_whitespace case_insensitive
  = equal_values (VStr t) (VStr s) tolerance trim_whitespace case_insensitive.
Proof.
  rewrite !equal_values_text. apply bool_decide_ext. split; congruence.
Qed.

(** C2, as the code has it: for values that are not strictly equal, not
    both numbers, and of which at least one is text, the oracle answers
    true exactly when neither value is absent and the two texts (a
    non-text value stringified), each trimmed when configured and then
    case-folded when configured, are the same string.  An absent value
    is not stringified: it stays absent and equals no text. *)
Theorem equal_values_text_branch (a b : value) (tolerance : float)
    (trim_whitespace case_insensitive : bool) :
  Py.eq a b = false →
  is_number a && is_number b = false →
  Py.isinstance_str a || Py.isinstance_str b = true →
  (equal_values a b tolerance trim_whitespace case_insensitive = true
   ↔ a ≠ VNone ∧ b ≠ VNone
     ∧ normalize_text trim_whitespace case_insensitive (Py.str a)
       = normalize_text trim_whitespace case_insensitive (Py.str b)).
Proof.
  intros Hne Hnum Htext. unfold equal_values.
  rewrite Hne, Hnum, Htext.
  destruct a, b; simpl in *; try discriminate;
    rewrite ?bool_decide_eq_true; unfold normalize_text;
    (split; [intros H; by repeat split | intros (H1 & H2 & H3); done]).
Qed.

Lemma equal_values_text_branch_witness :
  equal_values (VInt 5) (VStr " 5 ") zero true false = true
  ↔ VInt 5 ≠ VNone ∧ VStr " 5 " ≠ VNone
    ∧ normalize_text true false (Py.str (VInt 5))
      = normalize_text true false (Py.str (VStr " 5 ")).
Proof.
  apply (equal_values_text_branch (VInt 5) (VStr " 5 ") zero true false);
    reflexivity.
Defined.

(** C2 as stated fails where one value is absent: [None] against the
    text "None" is not strictly equal, not numeric, one side is text, and
    both stringify to the same text, yet the oracle answers false. *)
Lemma absent_value_is_not_stringified :
  Py.eq VNone (VStr "None") = false
  ∧ is_number VNone && is_number (VStr "None") = false
  ∧ Py.isinstance_str VNone || Py.isinstance_str (VStr "None") = true
  ∧ normalize_text false false (Py.str VNone)
    = normalize_text false false (Py.str (VStr "None"))
  ∧ equal_values VNone (VStr "None") zero false false = false.
Proof. by repeat split. Qed.

(** C4, as the code has it: for two non-boolean numbers that are not
    strictly equal and convert to the doubles [x] and [y], the oracle
    answers by comparing the double [d = abs(x - y)], as binary64
    computes it, with the tolerance: true exactly when [d <= tolerance],
    so true when [d] equals the tolerance and false when [d] exceeds it. *)
Theorem tolerance_boundary (a b : value) (tolerance : float)
    (trim_whitespace case_insensitive : bool) (x y : float) :
  is_number a = true → is_number b = true → Py.eq a b = false →
  float_of_number a = Some x → float_of_number b = Some y →
  let d := Py.fabs (Py.fsub x y) in
  let answer :=
    equal_values a b tolerance trim_whitespace case_insensitive in
  answer = Py.fle d tolerance
  ∧ (Py.feq d tolerance = true → answer = true)
  ∧ (flt tolerance d = true → answer = false).
Proof.
  intros Ha Hb Hne Hx Hy d answer.
  assert (answer = Py.fle d tolerance) as ->.
  { unfold answer, equal_values. by rewrite Hne, Ha, Hb, Hx, Hy. }
  split; [done|]. split; [apply feq_fle | apply flt_not_fle].
Qed.

Lemma tolerance_boundary_witness :
  let d := Py.fabs (Py.fsub (S754_finite false 6755399441055744 (-51)) one) in
  let answer := equal_values (VInt 3) (VInt 1) two false false in
  answer = Py.fle d two
  ∧ (Py.feq d two = true → answer = true)
  ∧ (flt two d = true → answer = false).
Proof.
  apply (tolerance_boundary (VInt 3) (VInt 1) two false false
           (S754_finite false 6755399441055744 (-51)) one);
    reflexivity.
Defined.

(** C4 as stated, on the real difference, fails beyond 53 bits, where
    [float] rounds: 2^53+3 and 1 are exactly 2^53+2 apart, and unequal at
    tolerance 2^53+2; 10^16+1 and 10^16 are 1 apart, and equal at
    tolerance 0. *)
Lemma tolerance_is_on_rounded_doubles :
  (Py.eq (VInt 9007199254740995) (VInt 1) = false
   ∧ Py.float_eq_int (S754_finite false 4503599627370497 1)
       (Z.abs (9007199254740995 - 1)) = true
   ∧ equal_values (VInt 9007199254740995) (VInt 1)
       (S754_finite false 4503599627370497 1) false false = false)
  ∧ (Py.eq (VInt 10000000000000001) (VInt 10000000000000000) = false
     ∧ Z.abs (10000000000000001 - 10000000000000000) = 0 + 1
     ∧ equal_values (VInt 10000000000000001) (VInt 10000000000000000)
         zero false false = true).
Proof. vm_compute. by repeat split. Qed.

(* ===================================================================== *)
(** * Texts *)
(* ===================================================================== *)

Lemma append_cons (c : ascii) (s t : string) :
  String c s +:+ t = String c (s +:+ t).
Proof. reflexivity. Qed.

Lemma append_nil_r (s : string) : s +:+ "" = s.
Proof. induction s as [|c s IH]; [done|]. by rewrite append_cons, IH. Qed.

Lemma append_assoc (s t u : string) : (s +:+ t) +:+ u = s +:+ (t +:+ u).
Proof. induction s as [|c s IH]; [done|]. by rewrite !append_cons, IH. Qed.

Lemma append_eq_nil (s t : string) : s +:+ t = "" → s = "" ∧ t = "".
Proof. by destruct s. Qed.

Lemma none_of_append (p : ascii → bool) (s t : string) :
  none_of p (s +:+ t) = none_of p s && none_of p t.
Proof.
  induction s as [|c s IH]; [done|]. rewrite append_cons. simpl.
  by rewrite IH, andb_assoc.
Qed.

Lemma none_of_impl (p q : ascii → bool) (s : string) :
  (∀ c, q c = true → p c = true) → none_of p s = true → none_of q s = true.
Proof.
  intros Hpq. induction s as [|c s IH]; [done|]. simpl.
  intros [Hc Hs]%andb_true_iff. rewrite IH by done.
  destruct (q c) eqn:Hq; [|done]. by rewrite (Hpq c Hq) in Hc.
Qed.

Lemma pretty_N_char_digit (d : N) :
  (d < 10)%N → Z.of_N (N_of_ascii (pretty_N_char d)) = 48 + Z.of_N d.
Proof.
  intros Hd.
  assert (d = 0 ∨ d = 1 ∨ d = 2 ∨ d = 3 ∨ d = 4 ∨ d = 5 ∨ d = 6 ∨ d = 7
          ∨ d = 8 ∨ d = 9)%N as Hcases by lia.
  by repeat destruct Hcases as [->|Hcases]; [..|subst].
Qed.

Lemma is_ascii_digit_pretty_N_char (d : N) :
  is_ascii_digit (pretty_N_char d) = true.
Proof. unfold pretty_N_char. by repeat case_match. Qed.

Lemma pretty_N_go_digits (x : N) (s : string) :
  none_of (λ ch, negb (is_ascii_digit ch)) s = true →
  none_of (λ ch, negb (is_ascii_digit ch)) (pretty_N_go x s) = true.
Proof.
  revert s. induction (N.lt_wf_0 x) as [x _ IH]; intros s Hs.
  destruct (decide (x = 0)%N) as [->|Hx]; [done|].
  rewrite pretty_N_go_step by lia. apply IH.
  - apply N.div_lt; lia.
  - simpl. by rewrite is_ascii_digit_pretty_N_char.
Qed.

Lemma pretty_N_go_not_nil (x : N) (s : string) :
  s ≠ "" → pretty_N_go x s ≠ "".
Proof.
  revert s. induction (N.lt_wf_0 x) as [x _ IH]; intros s Hs.
  destruct (decide (x = 0)%N) as [->|Hx]; [done|].
  rewrite pretty_N_go_step by lia. apply IH; [apply N.div_lt; lia|done].
Qed.

Lemma int_digits_pretty_N_go (x : N) (acc : Z) (s : string) :
  ∃ k, 0 ≤ k
       ∧ Py.int_digits acc (pretty_N_go x s)
         = Py.int_digits (acc * 10 ^ k + Z.of_N x) s.
Proof.
  revert acc s. induction (N.lt_wf_0 x) as [x _ IH]; intros acc s.
  destruct (decide (x = 0)%N) as [->|Hx].
  { exists 0. split; [done|]. rewrite pretty_N_go_0. f_equal. lia. }
  rewrite pretty_N_go_step by lia.
  destruct (IH (x `div` 10)%N (N.div_lt x 10 ltac:(lia) eq_refl) acc
              (String (pretty_N_char (x `mod` 10)) s)) as (k & Hk & ->).
  exists (k + 1). split; [lia|]. simpl.
  rewrite pretty_N_char_digit by (apply N.mod_lt; lia).
  pose proof (N.mod_lt x 10 ltac:(lia)) as Hmod.
  pose proof (N.div_mod x 10 ltac:(lia)) as Hdm.
  assert (Z.of_N x = 10 * Z.of_N (x `div` 10) + Z.of_N (x `mod` 10)) as Hx'.
  { rewrite Hdm at 1. lia. }
  rewrite Hx'. clear Hdm Hx' IH.
  generalize dependent (x `mod` 10)%N. intros d Hd.
  generalize (Z.of_N (x `div` 10)). intros q.
  assert ((48 <=? 48 + Z.of_N d) && (48 + Z.of_N d <=? 57) = true) as ->.
  { apply andb_true_iff; split; apply Z.leb_le; lia. }
  f_equal. rewrite Z.pow_add_r, Z.pow_1_r by lia. lia.
Qed.

(** The decimal form of a natural number is a non-empty run of digits
    that [int] reads back. *)
Lemma pretty_nonneg (z : Z) :
  0 ≤ z →
  pretty z ≠ ""
  ∧ none_of (λ ch, negb (is_ascii_digit ch)) (pretty z) = true
  ∧ Py.int_of_str (pretty z) = Some z.
Proof.
  intros Hz. destruct z as [|p|p]; [done| |lia].
  unfold pretty, pretty_Z, pretty, pretty_positive, pretty, pretty_N.
  rewrite decide_False by done.
  assert (pretty_N_go (N.pos p) "" ≠ "") as Hne.
  { rewrite pretty_N_go_step by lia. by apply pretty_N_go_not_nil. }
  split; [done|]. split; [by apply pretty_N_go_digits|].
  unfold Py.int_of_str.
  destruct (pretty_N_go (N.pos p) "") as [|c s] eqn:Hgo; [done|].
  rewrite <- Hgo.
  destruct (int_digits_pretty_N_go (N.pos p) 0 "") as (k & _ & ->).
  simpl. f_equal.
Qed.

Lemma list_max_lower (d lo : Z) (l : list Z) :
  lo ≤ d → Forall (λ x, lo ≤ x) l → lo ≤ Xl.list_max d l.
Proof.
  intros Hd [|x l' Hx Hl']; simpl; [done|].
  induction Hl' as [|y l'' Hy Hl'' IH]; simpl; lia.
Qed.

Lemma filter_none {A} (P : A → Prop) `{!∀ x, Decision (P x)} (l : list A) :
  Forall (λ x, ¬ P x) l → filter P l = [].
Proof.
  induction 1 as [|x l Hx _ IH]; [done|].
  by rewrite filter_cons, decide_False.
Qed.

(* ===================================================================== *)
(** * The summary builder *)
(* ===================================================================== *)

Section unique_name.
Variables (names : list string) (name : string).

#[local] Instance suffixed_inj : Inj (=) (=) (suffixed name).
Proof.
  intros i j H. unfold suffixed in H.
  by apply (inj (String.app name)), (inj (String.app "_")), (inj pretty) in H.
Qed.

(** What the loop returns is free, and every suffix it passed is taken. *)
Lemma first_free_suffix_Some fuel i j :
  first_free_suffix fuel names name i = Some j →
  i ≤ j ∧ (suffixed name j ∉ names)
  ∧ ∀ k, i ≤ k < j → suffixed name k ∈ names.
Proof.
  revert i. induction fuel as [|fuel IH]; intros i; simpl; [done|].
  case_bool_decide as Hi.
  - intros (? & ? & Hk)%IH. repeat split; [lia|done|].
    intros k ?. destruct (decide (k = i)) as [->|]; [done|].
    apply Hk. lia.
  - intros [= <-]. repeat split; [lia|done|lia].
Qed.

(** When the loop runs out of turns, every suffix it tried is taken. *)
Lemma first_free_suffix_None fuel i :
  first_free_suffix fuel names name i = None →
  ∀ k, i ≤ k < i + Z.of_nat fuel → suffixed name k ∈ names.
Proof.
  revert i. induction fuel as [|fuel IH]; intros i; simpl; [lia|].
  case_bool_decide as Hi; [|done].
  intros Hnone k ?. destruct (decide (k = i)) as [->|]; [done|].
  apply (IH _ Hnone). lia.
Qed.

(** One turn more than there are names is enough: the suffixed names
    are pairwise distinct, so they cannot all be taken. *)
Lemma first_free_suffix_total i :
  is_Some (first_free_suffix (S (length names)) names name i).
Proof.
  destruct (first_free_suffix _ _ _ _) as [j|] eqn:Hloop; [by eexists|].
  exfalso.
  pose proof (first_free_suffix_None _ _ Hloop) as Htaken.
  assert (suffixed name <$> seqZ i (Z.of_nat (S (length names))) ⊆+ names)
    as Hsub.
  { apply NoDup_submseteq.
    - apply (NoDup_fmap_2 _), NoDup_seqZ.
    - intros x (k & -> & Hk%elem_of_seqZ)%list_elem_of_fmap.
      apply Htaken. lia. }
  apply submseteq_length in Hsub.
  rewrite length_fmap, length_seqZ in Hsub. lia.
Qed.
End unique_name.

(** [ensure_unique_sheet_name] returns, and returns either the requested
    name, when it is free, or its first free suffixed form. *)
Lemma ensure_unique_sheet_name_spec (wb : Xl.Workbook) (name : string) :
  ∃ title,
    ensure_unique_sheet_name wb name = Some title
    ∧ (title ∉ Xl.sheetnames wb)
    ∧ (name ∉ Xl.sheetnames wb → title = name)
    ∧ (name ∈ Xl.sheetnames wb →
       ∃ i, 1 ≤ i ∧ title = suffixed name i
            ∧ ∀ k, 1 ≤ k < i → suffixed name k ∈ Xl.sheetnames wb).
Proof.
  unfold ensure_unique_sheet_name. case_bool_decide as Hname.
  - exists name. by repeat split.
  - destruct (first_free_suffix_total (Xl.sheetnames wb) name 1) as [i Hi].
    rewrite Hi. simpl. exists (suffixed name i).
    apply first_free_suffix_Some in Hi as (? & ? & ?).
    repeat split; [done|done|]. intros _. by exists i.
Qed.

(** ** Titles: what [create_sheet] makes of the requested one *)

Lemma has_char_none_of (p : ascii → bool) (s : string) :
  Py.has_char p s = negb (none_of p s).
Proof.
  induction s as [|c s IH]; [done|]. simpl. rewrite IH. by destruct (p c).
Qed.

Lemma lower_char_comma (c : ascii) :
  Py.lower_char c = ","%char → c = ","%char.
Proof. destruct c as [[] [] [] [] [] [] [] []]; vm_compute; congruence. Qed.

Lemma match_literal_app (t x : string) : Py.match_literal t (t +:+ x) = Some x.
Proof.
  induction t as [|a t IH]; [by destruct x|]. simpl.
  by rewrite bool_decide_eq_true_2.
Qed.

(** What a match of the literal takes has the length of the literal
    and, like it, no comma. *)
Lemma match_literal_Some (t s rest : string) :
  none_of (is_sep ",") t = true →
  Py.match_literal t s = Some rest →
  ∃ m, s = m +:+ rest ∧ String.length m = String.length t
       ∧ none_of (is_sep ",") m = true.
Proof.
  revert s. induction t as [|a t IH]; intros s Ht; simpl.
  { intros [= <-]. by exists "". }
  destruct s as [|b s]; [done|]. case_bool_decide as Hab; [|done].
  simpl in Ht. apply andb_true_iff in Ht as [Ha Ht].
  intros (m & -> & Hlen & Hm)%IH; [|done].
  exists (String b m). split; [done|]. split; [simpl; by rewrite Hlen|].
  simpl. rewrite Hm, andb_true_r. unfold is_sep in *.
  apply negb_true_iff, bool_decide_eq_false. intros ->.
  apply negb_true_iff, bool_decide_eq_false in Ha. apply Ha.
  by apply lower_char_comma.
Qed.

Lemma digits_split (s : string) :
  s = Py.digits_prefix s +:+ Py.after_digits s.
Proof.
  induction s as [|c s IH]; [done|]. simpl.
  destruct (Py.is_decimal c); [|done]. rewrite append_cons. by f_equal.
Qed.

Lemma digits_prefix_digits (s : string) :
  none_of (λ ch, negb (is_ascii_digit ch)) (Py.digits_prefix s) = true.
Proof.
  induction s as [|c s IH]; [done|]. simpl.
  destruct (Py.is_decimal c) eqn:Hc; [|done]. simpl.
  change (is_ascii_digit c) with (Py.is_decimal c). by rewrite Hc, IH.
Qed.

Lemma digit_not_comma (c : ascii) :
  is_sep "," c = true → negb (is_ascii_digit c) = true.
Proof. unfold is_sep. by intros ->%bool_decide_eq_true. Qed.

Lemma digits_prefix_app (ds w : string) :
  none_of (λ ch, negb (is_ascii_digit ch)) ds = true →
  Py.digits_prefix w = "" →
  Py.digits_prefix (ds +:+ w) = ds ∧ Py.after_digits (ds +:+ w) = w.
Proof.
  intros Hds Hw. induction ds as [|c ds IH].
  { split; [done|]. simpl. destruct w as [|c w]; [done|]. simpl in *.
    by destruct (Py.is_decimal c). }
  simpl in Hds. apply andb_true_iff in Hds as [Hc Hds].
  destruct (IH Hds) as [IH1 IH2].
  rewrite append_cons. simpl.
  change (Py.is_decimal c) with (is_ascii_digit c).
  rewrite negb_involutive in Hc. by rewrite Hc, IH1, IH2.
Qed.

Lemma none_of_first_le (p : ascii → bool) (k : nat) (x y : string) :
  none_of p x = true → (k ≤ String.length x)%nat →
  none_of_first p k (x +:+ y) = true.
Proof.
  revert k. induction x as [|c x IH]; intros k Hx Hk; simpl in *.
  { by replace k with 0%nat by lia. }
  destruct k as [|k]; [done|]. simpl.
  apply andb_true_iff in Hx as [-> Hx]. apply IH; [done|lia].
Qed.

Lemma none_of_first_tail (p : ascii → bool) (k : nat) (c : ascii)
    (s : string) :
  none_of_first p k (String c s) = true →
  none_of_first p (k - 1) s = true.
Proof.
  destruct k as [|k]; simpl; [by destruct s|].
  rewrite Nat.sub_0_r. by intros [_ ?]%andb_true_iff.
Qed.

Lemma length_append (s t : string) :
  String.length (s +:+ t) = (String.length s + String.length t)%nat.
Proof. induction s as [|c s IH]; [done|]. simpl. by rewrite IH. Qed.

(** No match runs over a comma, unless it ends with it: at each comma
    of the text the scan starts afresh. *)
Lemma findall_counts_sync (t u v : string) (skip : nat) :
  t ≠ "" → none_of (is_sep ",") t = true →
  none_of_first (is_sep ",") (skip - 1) (u +:+ String "," v) = true →
  ∃ ms, Py.findall_counts t skip (u +:+ String "," v)
        = ms ++ Py.findall_counts t 0 v.
Proof.
  intros Hne Ht. revert skip. induction u as [|c u IH]; intros skip Hinv.
  - exists []. simpl. destruct skip as [|[|skip]]; [|done|done].
    destruct t as [|a t]; [done|]. simpl.
    rewrite bool_decide_eq_false_2; [done|].
    intros Ha. apply (lower_char_comma a) in Ha as ->.
    by simpl in Ht.
  - rewrite append_cons.
    destruct skip as [|skip].
    + simpl. rewrite <- append_cons.
      destruct (Py.match_literal t (String c u +:+ String "," v))
        as [rest|] eqn:Hmatch.
      * set (count := Py.digits_prefix rest).
        set (comma := match Py.after_digits rest with
                      | String "," _ => 1%nat
                      | _ => 0%nat
                      end).
        destruct (IH (String.length t + String.length count + comma - 1)%nat)
          as [ms Hms].
        { destruct (match_literal_Some _ _ _ Ht Hmatch)
            as (m & Hs & Hlen & Hm).
          apply (none_of_first_tail _ _ c).
          rewrite <- append_cons, Hs, (digits_split rest).
          fold count. rewrite <- append_assoc.
          apply none_of_first_le.
          - rewrite none_of_append, Hm. simpl.
            eapply none_of_impl; [|apply digits_prefix_digits].
            apply digit_not_comma.
          - rewrite length_append, Hlen.
            assert (comma ≤ 1)%nat; [|lia].
            unfold comma. by repeat case_match; lia. }
        rewrite Hms. by exists (count :: ms).
      * by apply (IH 0%nat).
    + simpl. apply IH. apply (none_of_first_tail _ _ c).
      by replace (S skip - 1)%nat with skip in Hinv by lia.
Qed.

(** At the start of a name that is the literal followed by digits, the
    scan finds these digits. *)
Lemma findall_counts_here (t ds w : string) :
  t ≠ "" →
  none_of (λ ch, negb (is_ascii_digit ch)) ds = true →
  Py.digits_prefix w = "" →
  ∃ ms, Py.findall_counts t 0 (t +:+ ds +:+ w) = ds :: ms.
Proof.
  intros Hne Hds Hw. destruct t as [|a t]; [done|].
  rewrite append_cons. simpl.
  rewrite bool_decide_eq_true_2 by done. rewrite match_literal_app.
  destruct (digits_prefix_app ds w Hds Hw) as [-> _]. by eexists.
Qed.

Lemma join_cons (sep : ascii) (n : string) (names : list string) :
  Py.join sep (n :: names)
  = match names with
    | [] => n
    | _ => n +:+ String sep (Py.join sep names)
    end.
Proof. by destruct names. Qed.

(** Where a name stands in the joined names: at the start or after a
    comma, and before a comma or at the end. *)
Lemma join_elem (n : string) (names : list string) :
  n ∈ names →
  ∃ w, Py.digits_prefix w = ""
       ∧ (Py.join "," names = n +:+ w
          ∨ ∃ u, Py.join "," names = u +:+ String "," (n +:+ w)).
Proof.
  induction names as [|x names IH]; [by intros ?%elem_of_nil|].
  rewrite join_cons. intros [->|Hin]%elem_of_cons.
  - destruct names as [|y names].
    + exists "". split; [done|]. left. by rewrite append_nil_r.
    + exists (String "," (Py.join "," (y :: names))). split; [done|]. by left.
  - destruct names as [|y names]; [by apply elem_of_nil in Hin|].
    destruct (IH Hin) as (w & Hw & [Hj|[u Hj]]); exists w; (split; [done|]);
      right; rewrite Hj.
    + by exists x.
    + exists (x +:+ String "," u). by rewrite append_assoc.
Qed.

(** A name that is the literal followed by digits gives these digits as
    a count. *)
Lemma findall_counts_join (t ds : string) (names : list string) :
  t ≠ "" → none_of (is_sep ",") t = true →
  none_of (λ ch, negb (is_ascii_digit ch)) ds = true →
  t +:+ ds ∈ names →
  ds ∈ Py.findall_counts t 0 (Py.join "," names).
Proof.
  intros Hne Ht Hds (w & Hw & [Hj|[u Hj]])%join_elem; rewrite Hj.
  - rewrite append_assoc.
    destruct (findall_counts_here t ds w) as [ms ->]; [done..|].
    apply list_elem_of_here.
  - destruct (findall_counts_sync t u ((t +:+ ds) +:+ w) 0) as [ms ->];
      [done..|].
    rewrite append_assoc.
    destruct (findall_counts_here t ds w) as [ms' ->]; [done..|].
    apply elem_of_app. right. apply list_elem_of_here.
Qed.

Lemma int_digits_nonneg (s : string) (acc z : Z) :
  0 ≤ acc → Py.int_digits acc s = Some z → 0 ≤ z.
Proof.
  revert acc. induction s as [|c s IH]; intros acc Hacc; simpl.
  { by intros [= <-]. }
  case_match eqn:Hc; [|done]. apply IH.
  apply andb_true_iff in Hc as [?%Z.leb_le ?%Z.leb_le]. lia.
Qed.

Lemma int_of_str_nonneg (s : string) (z : Z) :
  Py.int_of_str s = Some z → 0 ≤ z.
Proof.
  unfold Py.int_of_str. destruct s; [done|]. by apply int_digits_nonneg.
Qed.

Lemma list_max_ge (d x : Z) (l : list Z) : x ∈ l → x ≤ Xl.list_max d l.
Proof.
  destruct l as [|y l]; [by intros ?%elem_of_nil|]. simpl.
  assert (y ≤ foldr Z.max y l ∧ ∀ z, z ∈ l → z ≤ foldr Z.max y l)
    as [Hy Hl].
  { induction l as [|z l [IH1 IH2]]; simpl.
    - split; [lia|]. by intros ? ?%elem_of_nil.
    - split; [lia|]. intros w [->|Hw]%elem_of_cons; [lia|].
      specialize (IH2 w Hw). lia. }
  intros [->|Hin]%elem_of_cons; [done|by apply Hl].
Qed.

Lemma str_isdigit_digits (ds : string) :
  ds ≠ "" → none_of (λ ch, negb (is_ascii_digit ch)) ds = true →
  Py.str_isdigit ds = true.
Proof.
  intros Hne Hds. unfold Py.str_isdigit.
  rewrite bool_decide_eq_false_2 by done. simpl.
  rewrite has_char_none_of, negb_involutive.
  eapply none_of_impl; [|exact Hds]. intros c Hc. simpl in *.
  revert Hc. by destruct c as [[] [] [] [] [] [] [] []].
Qed.

(** The title is kept, or followed by a number from 1. *)
Lemma avoid_duplicate_name_cases (names : list string) (t : string) :
  Xl.avoid_duplicate_name names t = t
  ∨ ∃ k, 1 ≤ k ∧ Xl.avoid_duplicate_name names t = t +:+ pretty k.
Proof.
  unfold Xl.avoid_duplicate_name. repeat case_bool_decide; [by left..|].
  right. eexists. split; [|done].
  match goal with |- 1 ≤ ?h + 1 => assert (0 ≤ h); [|lia] end.
  apply list_max_lower; [done|]. apply Forall_forall.
  intros z (idx & _ & Hz)%list_elem_of_omap.
  destruct (Py.str_isdigit idx); [|done]. by eapply int_of_str_nonneg.
Qed.

(** It is kept when no name is the title up to case. *)
Lemma avoid_duplicate_name_keeps (names : list string) (t : string) :
  (∀ n, n ∈ names → Py.lower n ≠ Py.lower t) →
  Xl.avoid_duplicate_name names t = t.
Proof.
  intros Hnone. unfold Xl.avoid_duplicate_name.
  rewrite bool_decide_eq_true_2; [done|].
  apply filter_none, Forall_forall. intros n Hn. by apply Hnone.
Qed.

(** Renamed or not, a title that no sheet carries becomes one that no
    sheet carries. *)
Lemma match_literal_lower (t n rest : string) :
  Py.lower n = Py.lower t → Py.match_literal t (n +:+ rest) = Some rest.
Proof.
  revert n. induction t as [|a t IH]; intros [|b n]; simpl; try done.
  intros [= Hb Hn]. rewrite bool_decide_eq_true_2 by done. by apply IH.
Qed.

(** The scan finds something when the title matches somewhere. *)
Lemma findall_counts_found (t u s rest : string) :
  t ≠ "" → Py.match_literal t s = Some rest →
  Py.findall_counts t 0 (u +:+ s) ≠ [].
Proof.
  intros Hne Hm. induction u as [|c u IH].
  - destruct s as [|b s]; [by destruct t|].
    change ("" +:+ String b s) with (String b s).
    unfold Py.findall_counts; fold Py.findall_counts. by rewrite Hm.
  - rewrite append_cons.
    unfold Py.findall_counts; fold Py.findall_counts.
    destruct (Py.match_literal t (String c (u +:+ s))); [done|apply IH].
Qed.

(** A title that a sheet carries up to letter case is renamed. *)
Lemma avoid_duplicate_name_renames (names : list string) (t n : string) :
  t ≠ "" → n ∈ names → Py.lower n = Py.lower t →
  ∃ k, 1 ≤ k ∧ Xl.avoid_duplicate_name names t = t +:+ pretty k.
Proof.
  intros Hne Hn Hlow. unfold Xl.avoid_duplicate_name.
  rewrite bool_decide_eq_false_2; last first.
  { intros Hnil.
    assert (n ∈ filter (λ n, Py.lower n = Py.lower t) names) as Hin
      by by apply list_elem_of_filter.
    rewrite Hnil in Hin. by apply elem_of_nil in Hin. }
  rewrite bool_decide_eq_false_2; last first.
  { destruct (join_elem n names Hn) as (w & _ & [-> | [u ->] ]).
    - apply (findall_counts_found t "" _ w); [done|].
      by apply match_literal_lower.
    - replace (u +:+ String "," (n +:+ w)) with ((u +:+ ",") +:+ (n +:+ w))
        by by rewrite append_assoc.
      apply (findall_counts_found t _ _ w); [done|].
      by apply match_literal_lower. }
  eexists. split; [|done].
  match goal with |- 1 ≤ ?h + 1 => assert (0 ≤ h); [|lia] end.
  apply list_max_lower; [done|]. apply Forall_forall.
  intros z (idx & _ & Hz)%list_elem_of_omap.
  destruct (Py.str_isdigit idx); [|done]. by eapply int_of_str_nonneg.
Qed.

Lemma avoid_duplicate_name_fresh (names : list string) (t : string) :
  t ≠ "" → none_of (is_sep ",") t = true →
  (t ∉ names) → Xl.avoid_duplicate_name names t ∉ names.
Proof.
  intros Hne Ht Hfresh. unfold Xl.avoid_duplicate_name.
  repeat case_bool_decide; [done..|].
  set (counts := omap _ _). set (h := Xl.list_max 0 counts).
  assert (0 ≤ h) as Hh.
  { apply list_max_lower; [done|]. apply Forall_forall.
    intros z (idx & _ & Hz)%list_elem_of_omap.
    destruct (Py.str_isdigit idx); [|done]. by eapply int_of_str_nonneg. }
  destruct (pretty_nonneg (h + 1)) as (Hpne & Hdigits & Hint); [lia|].
  intros Hin.
  assert (h + 1 ∈ counts) as Hcount.
  { apply list_elem_of_omap. exists (pretty (h + 1)).
    split; [by apply findall_counts_join|].
    by rewrite str_isdigit_digits. }
  apply (list_max_ge 0) in Hcount. fold h in Hcount. lia.
Qed.

Lemma digit_not_invalid (c : ascii) :
  Xl.invalid_title_char c = true → negb (is_ascii_digit c) = true.
Proof. by destruct c as [[] [] [] [] [] [] [] []]. Qed.

Lemma has_char_append (p : ascii → bool) (s t : string) :
  Py.has_char p (s +:+ t) = Py.has_char p s || Py.has_char p t.
Proof.
  rewrite !has_char_none_of, none_of_append. by destruct (none_of p s).
Qed.

(** The title [add_summary_sheet] asks for has characters, no comma
    among them, and none that a title may not hold. *)
Lemma summary_title_plain (wb : Xl.Workbook) (title : string) :
  ensure_unique_sheet_name wb "Diff_Summary" = Some title →
  title ≠ ""
  ∧ none_of (is_sep ",") title = true
  ∧ Py.has_char Xl.invalid_title_char title = false.
Proof.
  intros Htitle.
  destruct (ensure_unique_sheet_name_spec wb "Diff_Summary")
    as (title' & Htitle' & _ & Hfree & Htaken).
  assert (title' = title) as -> by congruence.
  destruct (decide ("Diff_Summary" ∈ Xl.sheetnames wb)) as [Hin|Hout].
  - destruct (Htaken Hin) as (i & Hi & -> & _).
    destruct (pretty_nonneg i) as (_ & Hdigits & _); [lia|].
    unfold suffixed. split; [done|].
    rewrite !has_char_append, !has_char_none_of, !none_of_append.
    rewrite (none_of_impl _ (is_sep ",") _ digit_not_comma Hdigits).
    by rewrite (none_of_impl _ Xl.invalid_title_char _ digit_not_invalid
                  Hdigits).
  - by rewrite (Hfree Hout).
Qed.

Lemma create_sheet_front (title : string) (wb : Xl.Workbook) :
  title ≠ "" → Py.has_char Xl.invalid_title_char title = false →
  Xl.create_sheet title 0 wb
  = Some (Xl.empty_sheet (Xl.avoid_duplicate_name (Xl.sheetnames wb) title),
          Xl.Ws (Xl.empty_sheet
                   (Xl.avoid_duplicate_name (Xl.sheetnames wb) title))
            :: wb).
Proof.
  intros Hne Hvalid. unfold Xl.create_sheet.
  rewrite bool_decide_eq_false_2 by done. by rewrite Hvalid.
Qed.

(** ** Sheets of a workbook *)

Lemma find_app {A} (p : A → bool) (l1 l2 : list A) :
  find p (l1 ++ l2)
  = match find p l1 with Some x => Some x | None => find p l2 end.
Proof.
  induction l1 as [|x l1 IH]; [done|]. simpl. by destruct (p x).
Qed.

Lemma find_Some_elem {A} (p : A → bool) (l : list A) (x : A) :
  find p l = Some x → p x = true ∧ x ∈ l.
Proof.
  induction l as [|y l IH]; [done|]. simpl. destruct (p y) eqn:Hy.
  - intros [= <-]. split; [done|apply list_elem_of_here].
  - intros [? ?]%IH. split; [done|by apply list_elem_of_further].
Qed.


Lemma elem_of_worksheets (sh : Xl.Sheet) (wb : Xl.Workbook) :
  sh ∈ Xl.worksheets wb ++ Xl.chartsheets wb ↔ sh ∈ wb.
Proof.
  unfold Xl.worksheets, Xl.chartsheets.
  rewrite elem_of_app, !list_elem_of_In, !filter_In.
  destruct (Xl.is_worksheet sh); naive_solver.
Qed.

Lemma getitem_Some (wb : Xl.Workbook) (name : string) (sh : Xl.Sheet) :
  Xl.getitem wb name = Some sh → Xl.sheet_title sh = name ∧ sh ∈ wb.
Proof.
  unfold Xl.getitem. intros [Htitle Hin]%find_Some_elem.
  split; [by apply bool_decide_eq_true in Htitle|].
  by apply elem_of_worksheets.
Qed.

Lemma getitem_sheetnames (wb : Xl.Workbook) (name : string) (sh : Xl.Sheet) :
  Xl.getitem wb name = Some sh → name ∈ Xl.sheetnames wb.
Proof.
  intros [<- Hin]%getitem_Some. unfold Xl.sheetnames.
  apply list_elem_of_fmap. by exists sh.
Qed.


(** A sheet put in front under a fresh title hides no sheet. *)
Lemma getitem_cons_fresh (wb : Xl.Workbook) (w sh : Xl.Sheet) (name : string) :
  Xl.sheet_title w ∉ Xl.sheetnames wb →
  Xl.getitem wb name = Some sh → Xl.getitem (w :: wb) name = Some sh.
Proof.
  intros Hfresh Hget.
  assert (bool_decide (Xl.sheet_title w = name) = false) as Hw.
  { apply bool_decide_eq_false. intros Heq. apply Hfresh. rewrite Heq.
    by eapply getitem_sheetnames. }
  revert Hget. unfold Xl.getitem, Xl.worksheets, Xl.chartsheets.
  destruct w as [ws|cs]; simpl in *.
  - by rewrite Hw.
  - rewrite !find_app. simpl. by rewrite Hw.
Qed.

(** ** Rows given to a sheet *)

Lemma storable_stored (v : value) :
  storable v → Xl.bind_value v = Some (stored v).
Proof.
  unfold storable. destruct v as [| | | |s|]; try done. simpl.
  unfold Xl.check_string. by destruct (Py.has_char _ _); [intros [? ?]|].
Qed.

Lemma put_row_ends (r c : Z) (vs : list value) (m : gmap (Z * Z) Xl.Cell) :
  (Xl.put_row r c vs m).2 = Some () ↔ Forall storable vs.
Proof.
  revert c m. induction vs as [|v vs IH]; intros c m; simpl; [done|].
  rewrite Forall_cons. unfold storable at 1.
  destruct (Xl.bind_value v) as [v'|]; simpl.
  - rewrite IH. split; [by split; [eexists|]|by intros [_ ?]].
  - split; [done|]. by intros [[? ?] _].
Qed.

Lemma lookup_put_row (r0 c0 : Z) (vs : list value)
    (m m' : gmap (Z * Z) Xl.Cell) (r c : Z) :
  Xl.put_row r0 c0 vs m = (m', Some ()) →
  m' !! (r, c)
  = if bool_decide (r = r0 ∧ c0 ≤ c)
    then match (stored <$> vs) !! Z.to_nat (c - c0) with
         | Some v => Some (Xl.new_cell v)
         | None => m !! (r, c)
         end
    else m !! (r, c).
Proof.
  revert c0 m. induction vs as [|v vs IH]; intros c0 m; simpl.
  { intros [= <-]. by case_bool_decide. }
  destruct (Xl.bind_value v) as [v'|] eqn:Hv; [|done].
  assert (v' = stored v) as ->.
  { rewrite storable_stored in Hv by (by eexists). congruence. }
  intros ->%IH.
  destruct (decide (r = r0 ∧ c = c0)) as [[-> ->]|Hne].
  - rewrite bool_decide_eq_false_2 by lia.
    rewrite bool_decide_eq_true_2 by lia.
    rewrite Z.sub_diag. simpl. by rewrite lookup_insert_eq.
  - rewrite lookup_insert_ne by naive_solver.
    case_bool_decide as H1; case_bool_decide as H2; try done; try lia.
    by replace (Z.to_nat (c - c0)) with (S (Z.to_nat (c - (c0 + 1))))
      by lia.
Qed.

Lemma append_ends (vs : list value) (ws : Xl.Worksheet) :
  (Xl.append vs ws).2 = Some () ↔ Forall storable vs.
Proof.
  rewrite <- (put_row_ends (Xl.current_row ws + 1) 1 vs (Xl.cells ws)).
  unfold Xl.append. by destruct (Xl.put_row _ _ _ _) as [m [[]|]].
Qed.

(** Whether it returns or raises, [append] touches only the cells and
    the row counter. *)
Lemma append_frame (vs : list value) (ws : Xl.Worksheet) :
  Xl.title (Xl.append vs ws).1 = Xl.title ws
  ∧ Xl.merged_cells (Xl.append vs ws).1 = Xl.merged_cells ws
  ∧ Xl.freeze_panes (Xl.append vs ws).1 = Xl.freeze_panes ws
  ∧ Xl.auto_filter_ref (Xl.append vs ws).1 = Xl.auto_filter_ref ws
  ∧ Xl.column_width (Xl.append vs ws).1 = Xl.column_width ws.
Proof.
  unfold Xl.append. by destruct (Xl.put_row _ _ _ _) as [m [[]|]].
Qed.

Lemma append_returns (vs : list value) (ws ws' : Xl.Worksheet) :
  Xl.append vs ws = (ws', Some ()) →
  Xl.current_row ws' = Xl.current_row ws + 1
  ∧ ∀ r c, Xl.cells ws' !! (r, c)
           = if bool_decide (r = Xl.current_row ws + 1 ∧ 1 ≤ c)
             then match (stored <$> vs) !! Z.to_nat (c - 1) with
                  | Some v => Some (Xl.new_cell v)
                  | None => Xl.cells ws !! (r, c)
                  end
             else Xl.cells ws !! (r, c).
Proof.
  unfold Xl.append.
  destruct (Xl.put_row _ _ _ _) as [m [[]|]] eqn:Hput; [|done].
  intros [= <-]. split; [done|]. intros r c. simpl.
  by apply lookup_put_row.
Qed.

(** *** Statements in sequence *)

Lemma seq_cons {S} (stmt : Py.run S) (stmts : list (Py.run S)) (s : S) :
  Py.seq (stmt :: stmts) s
  = match stmt s with
    | (s', Some _) => Py.seq stmts s'
    | (s', None) => (s', None)
    end.
Proof. done. Qed.

(** What every statement keeps, whether it returns or raises, the
    sequence keeps. *)
Lemma seq_keeps {S} (P : S → Prop) (stmts : list (Py.run S)) (s : S) :
  Forall (λ stmt, ∀ s, P s → P (stmt s).1) stmts →
  P s → P (Py.seq stmts s).1.
Proof.
  intros Hall. revert s. induction Hall as [|stmt stmts Hstmt _ IH];
    intros s Hs; [done|].
  rewrite seq_cons. specialize (Hstmt s Hs).
  destruct (stmt s) as [s' [[]|]]; [by apply IH|done].
Qed.

(** The rows written one after the other: the sequence returns exactly
    when every value of every row can be stored. *)
Lemma append_rows_ends (rows : list (list value)) (ws : Xl.Worksheet) :
  (Py.seq (Xl.append <$> rows) ws).2 = Some ()
  ↔ Forall (Forall storable) rows.
Proof.
  revert ws. induction rows as [|vs rows IH]; intros ws; [done|].
  rewrite fmap_cons, seq_cons, Forall_cons, <- (append_ends vs ws).
  destruct (Xl.append vs ws) as [ws' [[]|]]; simpl.
  - rewrite IH. naive_solver.
  - naive_solver.
Qed.

Lemma append_rows_returns (rows : list (list value))
    (ws ws' : Xl.Worksheet) :
  Py.seq (Xl.append <$> rows) ws = (ws', Some ()) →
  Xl.current_row ws' = Xl.current_row ws + Z.of_nat (length rows)
  ∧ Xl.freeze_panes ws' = Xl.freeze_panes ws
  ∧ Xl.auto_filter_ref ws' = Xl.auto_filter_ref ws
  ∧ Xl.column_width ws' = Xl.column_width ws
  ∧ Xl.merged_cells ws' = Xl.merged_cells ws
  ∧ ∀ r c,
      Xl.cells ws' !! (r, c)
      = match table_cell ((λ vs : list value, stored <$> vs) <$> rows)
                (Xl.current_row ws) r c with
        | Some v => Some (Xl.new_cell v)
        | None => Xl.cells ws !! (r, c)
        end.
Proof.
  revert ws. induction rows as [|vs rows IH]; intros ws.
  { intros [= <-]. repeat split; [simpl; lia|]. intros r c.
    unfold table_cell. by case_bool_decide. }
  rewrite fmap_cons, seq_cons.
  destruct (Xl.append vs ws) as [ws1 [[]|]] eqn:Happ; [|done].
  pose proof (append_frame vs ws) as (_ & Hm1 & Hf1 & Ha1 & Hw1).
  rewrite Happ in Hm1, Hf1, Ha1, Hw1. simpl in Hm1, Hf1, Ha1, Hw1.
  apply append_returns in Happ as [Hrow1 Hcells1].
  intros (Hrow & Hf & Ha & Hw & Hm & Hcells)%IH.
  repeat split; [simpl; lia|congruence..|].
  intros r c. rewrite Hcells, Hcells1, Hrow1. unfold table_cell.
  set (top := Xl.current_row ws).
  destruct (decide (r = top + 1)) as [->|Hr].
  - rewrite (bool_decide_eq_false_2 (top + 1 < top + 1 ∧ _)) by lia.
    replace (top + 1 - top - 1) with 0 by lia. simpl.
    case_bool_decide as H1; case_bool_decide as H2; try done; try lia.
  - rewrite (bool_decide_eq_false_2 (r = top + 1 ∧ _)) by naive_solver.
    case_bool_decide as H1; case_bool_decide as H2; try done; try lia.
    by replace (Z.to_nat (r - top - 1))
      with (S (Z.to_nat (r - (top + 1) - 1))) by lia.
Qed.

Lemma seq_app {S} (l1 l2 : list (Py.run S)) (s : S) :
  Py.seq (l1 ++ l2) s
  = match Py.seq l1 s with
    | (s', Some _) => Py.seq l2 s'
    | (s', None) => (s', None)
    end.
Proof.
  revert s. induction l1 as [|stmt l1 IH]; intros s; [done|].
  rewrite <- app_comm_cons, !seq_cons.
  destruct (stmt s) as [s' [[]|]]; [apply IH|done].
Qed.

Lemma title_append_rows (rows : list (list value)) (ws : Xl.Worksheet) :
  Xl.title (Py.seq (Xl.append <$> rows) ws).1 = Xl.title ws.
Proof.
  apply (seq_keeps (λ s, Xl.title s = Xl.title ws)); [|done].
  apply Forall_fmap, Forall_forall. intros vs _ s Hs. simpl.
  by destruct (append_frame vs s) as (-> & _).
Qed.

Lemma storable_headers : Forall storable headers.
Proof. repeat constructor; by eexists. Qed.

(** [add_summary_sheet] writes the header row and the rows of the
    records, and formats the sheet when all of them are written. *)
Lemma fill_summary_rows (diffs : list DiffRecord) (ws : Xl.Worksheet) :
  ∃ ws1,
    Py.seq (Xl.append <$> (headers :: (summary_row <$> diffs))) ws
    = (ws1, (fill_summary diffs ws).2)
    ∧ Xl.title (fill_summary diffs ws).1 = Xl.title ws1
    ∧ ((fill_summary diffs ws).2 = Some () →
       (∀ r c, Xl.cells (fill_summary diffs ws).1 !! (r, c)
               = (λ x, {| Xl.value := Xl.value x; Xl.fill := Xl.fill x;
                          Xl.font_bold :=
                            if r =? 1 then true else Xl.font_bold x |})
                   <$> Xl.cells ws1 !! (r, c))
       ∧ Xl.freeze_panes (fill_summary diffs ws).1 = Some "A2"
       ∧ Xl.auto_filter_ref (fill_summary diffs ws).1
         = Some ("A1:E" +:+ pretty (Z.of_nat (length diffs) + 1))
       ∧ Xl.current_row (fill_summary diffs ws).1 = Xl.current_row ws1).
Proof.
  unfold fill_summary, Py.for_in.
  rewrite fmap_cons, !seq_cons.
  destruct (Xl.append headers ws) as [ws0 [[]|]];
    [|exists ws0; simpl; do 2 (split; [done|]); intros [=]].
  rewrite <- list_fmap_compose.
  change (Xl.append ∘ summary_row) with (λ d, Xl.append (summary_row d)).
  rewrite !(seq_cons (Py.seq _)).
  destruct (Py.seq _ ws0) as [ws1 [[]|]];
    [|exists ws1; simpl; do 2 (split; [done|]); intros [=]].
  exists ws1. split; [done|]. split; [done|]. intros _. simpl.
  split; [|split; [done|]; split; [by rewrite Z.max_r by lia|done]].
  intros r c. rewrite map_lookup_imap.
  destruct (Xl.cells ws1 !! (r, c)) as [x|]; simpl; [|done].
  by destruct (r =? 1), x.
Qed.

Lemma fill_summary_ends (diffs : list DiffRecord) (ws : Xl.Worksheet) :
  (fill_summary diffs ws).2 = Some () ↔ Forall storable_record diffs.
Proof.
  destruct (fill_summary_rows diffs ws) as (ws1 & Hrows & _).
  pose proof (append_rows_ends (headers :: (summary_row <$> diffs)) ws)
    as Hends.
  rewrite Hrows in Hends. simpl in Hends. rewrite Hends, Forall_cons.
  rewrite Forall_fmap. unfold storable_record.
  split; [by intros [_ ?]|]. split; [apply storable_headers|done].
Qed.

Lemma title_fill_summary (diffs : list DiffRecord) (ws : Xl.Worksheet) :
  Xl.title (fill_summary diffs ws).1 = Xl.title ws.
Proof.
  destruct (fill_summary_rows diffs ws) as (ws1 & Hrows & -> & _).
  pose proof (title_append_rows (headers :: (summary_row <$> diffs)) ws)
    as Htitle.
  by rewrite Hrows in Htitle.
Qed.

Lemma title_new_summary (diffs : list DiffRecord) (title : string) :
  Xl.title (fill_summary diffs (Xl.empty_sheet title)).1 = title.
Proof. by rewrite title_fill_summary. Qed.

(** The summary sheet goes in front of the untouched workbook, under
    the title [create_sheet] makes of the one asked for, whether the
    rows can all be written or not. *)
Lemma add_summary_sheet_spec (wb_out : Xl.Workbook) (diffs : list DiffRecord) :
  ∃ title,
    ensure_unique_sheet_name wb_out "Diff_Summary" = Some title
    ∧ (title ∉ Xl.sheetnames wb_out)
    ∧ (Xl.avoid_duplicate_name (Xl.sheetnames wb_out) title
         ∉ Xl.sheetnames wb_out)
    ∧ add_summary_sheet wb_out diffs
      = (Xl.Ws (fill_summary diffs
                  (Xl.empty_sheet
                     (Xl.avoid_duplicate_name (Xl.sheetnames wb_out) title))).1
           :: wb_out,
         (fill_summary diffs
            (Xl.empty_sheet
               (Xl.avoid_duplicate_name (Xl.sheetnames wb_out) title))).2).
Proof.
  destruct (ensure_unique_sheet_name_spec wb_out "Diff_Summary")
    as (title & Htitle & Hfresh & _).
  destruct (summary_title_plain _ _ Htitle) as (Hne & Hcomma & Hvalid).
  exists title. split; [done|]. split; [done|].
  split; [by apply avoid_duplicate_name_fresh|].
  unfold add_summary_sheet. rewrite Htitle.
  rewrite (bool_decide_eq_false_2 (title ∈ _)) by done.
  rewrite create_sheet_front by done. simpl.
  rewrite bool_decide_eq_true_2 by done.
  by destruct (fill_summary diffs _) as [ws' r].
Qed.

(** C9: [add_summary_sheet] removes or overwrites nothing, whether it
    returns or an illegal text among the records makes it raise: the
    name it gets from [ensure_unique_sheet_name] is absent from the
    workbook, so the test of the removal branch is false; the title
    [create_sheet] gives the new sheet is absent from it as well; and
    the workbook it leaves is the old one, sheet for sheet, behind one
    new summary sheet at index 0: every sheet of the old workbook, one
    titled "Diff_Summary" included, is still found under its name. *)
Theorem add_summary_sheet_keeps_every_sheet (wb_out : Xl.Workbook)
    (diffs : list DiffRecord) :
  ∃ title summary ended,
    ensure_unique_sheet_name wb_out "Diff_Summary" = Some title
    ∧ (title ∉ Xl.sheetnames wb_out)
    ∧ bool_decide (title ∈ Xl.sheetnames wb_out) = false
    ∧ Xl.title summary
      = Xl.avoid_duplicate_name (Xl.sheetnames wb_out) title
    ∧ (Xl.title summary ∉ Xl.sheetnames wb_out)
    ∧ add_summary_sheet wb_out diffs = (Xl.Ws summary :: wb_out, ended)
    ∧ ∀ name sh, Xl.getitem wb_out name = Some sh →
                 Xl.getitem (Xl.Ws summary :: wb_out) name = Some sh.
Proof.
  destruct (add_summary_sheet_spec wb_out diffs)
    as (title & Ht & Hfresh & Hfresh' & Hadd).
  set (filled := fill_summary diffs _) in Hadd.
  exists title, filled.1, filled.2. unfold filled.
  rewrite title_new_summary.
  do 2 (split; [done|]). split; [by apply bool_decide_eq_false_2|].
  do 3 (split; [done|]).
  intros name sh. apply getitem_cons_fresh. simpl.
  by rewrite title_new_summary.
Qed.

(** C1, as the code has it: on an output workbook that already holds a
    sheet titled "Diff_Summary", the prior sheet is kept as it was, and
    the summary sheet is inserted as the first sheet under a title that
    no sheet carries.  The title asked for is "Diff_Summary_i", [i] the
    least integer from 1 whose suffixed name no sheet carries; the new
    sheet has that title when no sheet carries it up to letter case,
    and that title followed by a number from 1 when one does, which is
    the renaming of [create_sheet]. *)
Theorem summary_sheet_beside_prior_one (wb_out : Xl.Workbook)
    (diffs : list DiffRecord) (prior : Xl.Sheet) :
  Xl.getitem wb_out "Diff_Summary" = Some prior →
  ∃ i summary ended,
    1 ≤ i
    ∧ (∀ k, 1 ≤ k < i → suffixed "Diff_Summary" k ∈ Xl.sheetnames wb_out)
    ∧ (suffixed "Diff_Summary" i ∉ Xl.sheetnames wb_out)
    ∧ Xl.title summary
      = Xl.avoid_duplicate_name (Xl.sheetnames wb_out)
          (suffixed "Diff_Summary" i)
    ∧ ((∀ n, n ∈ Xl.sheetnames wb_out →
             Py.lower n ≠ Py.lower (suffixed "Diff_Summary" i)) →
       Xl.title summary = suffixed "Diff_Summary" i)
    ∧ ((∃ n, n ∈ Xl.sheetnames wb_out
             ∧ Py.lower n = Py.lower (suffixed "Diff_Summary" i)) →
       ∃ k, 1 ≤ k
            ∧ Xl.title summary = suffixed "Diff_Summary" i +:+ pretty k)
    ∧ (Xl.title summary ∉ Xl.sheetnames wb_out)
    ∧ add_summary_sheet wb_out diffs = (Xl.Ws summary :: wb_out, ended)
    ∧ Xl.getitem (Xl.Ws summary :: wb_out) "Diff_Summary" = Some prior.
Proof.
  intros Hprior.
  destruct (ensure_unique_sheet_name_spec wb_out "Diff_Summary")
    as (title & Ht & Hfresh & _ & Htaken).
  destruct Htaken as (i & Hi & -> & Hbelow); [by eapply getitem_sheetnames|].
  destruct (add_summary_sheet_spec wb_out diffs)
    as (title' & Ht' & _ & Hfresh' & Hadd).
  assert (title' = suffixed "Diff_Summary" i) as -> by congruence.
  set (filled := fill_summary diffs _) in Hadd.
  exists i, filled.1, filled.2. unfold filled.
  rewrite title_new_summary.
  do 4 (split; [done|]).
  split; [apply avoid_duplicate_name_keeps|].
  split; [by intros (n & Hn & Hlow); eapply avoid_duplicate_name_renames|].
  do 2 (split; [done|]).
  apply getitem_cons_fresh; [|done]. simpl. by rewrite title_new_summary.
Qed.

Lemma summary_sheet_beside_prior_one_witness :
  ∃ i summary ended,
    1 ≤ i
    ∧ (∀ k, 1 ≤ k < i →
            suffixed "Diff_Summary" k ∈ Xl.sheetnames wb_with_summary)
    ∧ (suffixed "Diff_Summary" i ∉ Xl.sheetnames wb_with_summary)
    ∧ Xl.title summary
      = Xl.avoid_duplicate_name (Xl.sheetnames wb_with_summary)
          (suffixed "Diff_Summary" i)
    ∧ ((∀ n, n ∈ Xl.sheetnames wb_with_summary →
             Py.lower n ≠ Py.lower (suffixed "Diff_Summary" i)) →
       Xl.title summary = suffixed "Diff_Summary" i)
    ∧ ((∃ n, n ∈ Xl.sheetnames wb_with_summary
             ∧ Py.lower n = Py.lower (suffixed "Diff_Summary" i)) →
       ∃ k, 1 ≤ k
            ∧ Xl.title summary = suffixed "Diff_Summary" i +:+ pretty k)
    ∧ (Xl.title summary ∉ Xl.sheetnames wb_with_summary)
    ∧ add_summary_sheet wb_with_summary []
      = (Xl.Ws summary :: wb_with_summary, ended)
    ∧ Xl.getitem (Xl.Ws summary :: wb_with_summary) "Diff_Summary"
      = Some (Xl.Ws prior_summary).
Proof.
  apply (summary_sheet_beside_prior_one wb_with_summary []
           (Xl.Ws prior_summary)).
  reflexivity.
Defined.

(** C1 as stated fails: the prior "Diff_Summary" sheet is not replaced.
    After the call it is still in the workbook, unchanged, and the new
    summary sheet stands in front of it as "Diff_Summary_1". *)
Lemma prior_summary_sheet_is_not_replaced :
  Xl.getitem wb_with_summary "Diff_Summary" = Some (Xl.Ws prior_summary)
  ∧ Xl.sheetnames (add_summary_sheet wb_with_summary []).1
    = ["Diff_Summary_1"; "Sheet1"; "Diff_Summary"]
  ∧ (add_summary_sheet wb_with_summary []).2 = Some ()
  ∧ Xl.getitem (add_summary_sheet wb_with_summary []).1 "Diff_Summary"
    = Some (Xl.Ws prior_summary).
Proof. by vm_compute. Qed.

(* ===================================================================== *)
(** * The cell diff engine *)
(* ===================================================================== *)

Lemma elem_of_range (lo hi x : Z) : x ∈ Py.range lo hi ↔ lo ≤ x < hi.
Proof. unfold Py.range. rewrite elem_of_seqZ. lia. Qed.

(** A loop that only adds to a set: what is in the set afterwards. *)
Lemma elem_of_foldl_collect {A} (g : gset (Z * Z) → A → gset (Z * Z))
    (P : A → Z * Z → Prop) :
  (∀ X a x, x ∈ g X a ↔ x ∈ X ∨ P a x) →
  ∀ l X x, x ∈ foldl g X l ↔ x ∈ X ∨ ∃ a, a ∈ l ∧ P a x.
Proof.
  intros Hg l. induction l as [|a l IH]; intros X x; simpl.
  - set_solver.
  - rewrite IH, Hg. set_solver.
Qed.

(** [merged_non_anchors] is the set of non-anchor members of the
    sheet's merged ranges. *)
Lemma elem_of_merged_non_anchors (ws : Xl.Worksheet) (r c : Z) :
  (r, c) ∈ merged_non_anchors ws
  ↔ ∃ mr, mr ∈ Xl.merged_cells ws ∧ non_anchor_member mr r c.
Proof.
  unfold merged_non_anchors.
  rewrite (elem_of_foldl_collect _
             (λ mr x, non_anchor_member mr x.1 x.2)).
  { set_solver. }
  clear r c. intros X mr x.
  rewrite (elem_of_foldl_collect _
             (λ r x, x.1 = r ∧ Xl.min_col mr ≤ x.2 ≤ Xl.max_col mr
                     ∧ x ≠ (Xl.min_row mr, Xl.min_col mr))).
  { setoid_rewrite elem_of_range. unfold non_anchor_member.
    destruct x as [r c]; simpl. split.
    - intros [?|(r' & ? & -> & ? & ?)]; [by left|right].
      repeat split; [lia..|done].
    - intros [?|((? & ?) & ? & ?)]; [by left|right].
      exists r. repeat split; [lia..|done]. }
  clear X x. intros X r x.
  rewrite (elem_of_foldl_collect _
             (λ c x, x = (r, c) ∧ x ≠ (Xl.min_row mr, Xl.min_col mr))).
  { setoid_rewrite elem_of_range. destruct x as [r' c']; simpl. split.
    - intros [?|(c & ? & [= -> ->] & ?)]; [by left|right].
      repeat split; [lia..|done].
    - intros [?|(-> & ? & ?)]; [by left|right].
      exists c'. repeat split; [lia..|done]. }
  clear X x. intros X c x. case_bool_decide as Hanchor.
  - destruct Hanchor as [-> ->]. naive_solver.
  - rewrite elem_of_union, elem_of_singleton.
    split; [intros [->|?]; [right|by left]|naive_solver].
    split; [done|]. intros [= -> ->]. by apply Hanchor.
Qed.

(** ** Order of a generated sequence *)

Lemma StronglySorted_range (lo hi : Z) : StronglySorted Z.lt (Py.range lo hi).
Proof.
  unfold Py.range. generalize (hi - lo). intros n.
  destruct (Z.le_gt_cases n 0) as [?|Hpos].
  { rewrite seqZ_nil by done. constructor. }
  rewrite <- (Z2Nat.id n) by lia. generalize (Z.to_nat n). clear n Hpos.
  intros n. induction n as [|n IH].
  - rewrite seqZ_nil by done. constructor.
  - rewrite seqZ_S. apply StronglySorted_app_2; [|done|repeat constructor].
    intros x y Hx%elem_of_seqZ ->%list_elem_of_singleton. lia.
Qed.

(** A nested loop yields in order when the outer sequence is in order
    and the inner ones are, each staying within its own turn. *)
Lemma StronglySorted_bind {A B} (RA : relation A) (RB : relation B)
    (f : A → list B) (l : list A) :
  StronglySorted RA l →
  (∀ a, a ∈ l → StronglySorted RB (f a)) →
  (∀ a a' x y, RA a a' → x ∈ f a → y ∈ f a' → RB x y) →
  StronglySorted RB (l ≫= f).
Proof.
  intros Hl Hf Hcross. induction Hl as [|a l Hl IH Hall]; csimpl.
  { constructor. }
  apply StronglySorted_app_2.
  - intros x y Hx (a' & Hy & Ha')%list_elem_of_bind.
    rewrite Forall_forall in Hall. eapply Hcross; [by apply Hall|done..].
  - apply Hf, list_elem_of_here.
  - apply IH. intros a' Ha'. by apply Hf, list_elem_of_further.
Qed.

(** ** What [iter_diff_cells] yields *)

Section diff_cells.
Variables (base_ws new_ws : Xl.Worksheet) (tolerance : float).
Variables (trim_whitespace case_insensitive : bool).

Local Abbreviation a_at r c := (Xl.cell_value base_ws r c).
Local Abbreviation b_at r c := (Xl.cell_value new_ws r c).

(** One turn of the inner loop: nothing on a skipped coordinate, else the
    classification of the two raw values. *)
Lemma diff_cell_classify (base_skip new_skip : gset (Z * Z)) (r c : Z) :
  diff_cell base_ws new_ws base_skip new_skip tolerance trim_whitespace
            case_insensitive r c
  = if bool_decide ((r, c) ∈ base_skip ∨ (r, c) ∈ new_skip) then []
    else match classify (a_at r c) (b_at r c) tolerance trim_whitespace
                        case_insensitive with
         | Some st => [(r, c, st)]
         | None => []
         end.
Proof.
  unfold diff_cell, classify. case_bool_decide; [done|].
  destruct (is_empty (a_at r c)), (is_empty (b_at r c)); simpl; try done.
  by destruct (equal_values _ _ _ _ _).
Qed.

Lemma elem_of_diff_cell (base_skip new_skip : gset (Z * Z)) (r c : Z)
    (x : Z * Z * string) :
  x ∈ diff_cell base_ws new_ws base_skip new_skip tolerance trim_whitespace
                case_insensitive r c
  ↔ x.1 = (r, c) ∧ ((r, c) ∉ base_skip) ∧ ((r, c) ∉ new_skip)
    ∧ classify (a_at r c) (b_at r c) tolerance trim_whitespace
               case_insensitive = Some x.2.
Proof.
  rewrite diff_cell_classify. destruct x as [[r' c'] st]; simpl.
  case_bool_decide as Hskip.
  - rewrite elem_of_nil. naive_solver.
  - destruct (classify _ _ _ _ _) as [st'|].
    + rewrite list_elem_of_singleton. naive_solver.
    + rewrite elem_of_nil. naive_solver.
Qed.

(** The generator returns exactly when both sheets report their bounds,
    and then runs the two loops over the union of the bounds. *)
Lemma iter_diff_cells_Some (ds : list (Z * Z * string)) :
  iter_diff_cells base_ws new_ws tolerance trim_whitespace case_insensitive
  = Some ds
  ↔ ∃ base_max_r base_max_c new_max_r new_max_c,
      sheet_used_bounds base_ws = Some (base_max_r, base_max_c)
      ∧ sheet_used_bounds new_ws = Some (new_max_r, new_max_c)
      ∧ ds = (r ← Py.range 1 (Z.max base_max_r new_max_r + 1);
              c ← Py.range 1 (Z.max base_max_c new_max_c + 1);
              diff_cell base_ws new_ws (merged_non_anchors base_ws)
                        (merged_non_anchors new_ws) tolerance
                        trim_whitespace case_insensitive r c).
Proof.
  unfold iter_diff_cells.
  destruct (sheet_used_bounds base_ws) as [[br bc]|]; simpl;
    [|naive_solver].
  destruct (sheet_used_bounds new_ws) as [[nr nc]|]; simpl;
    naive_solver.
Qed.

(** Membership in the yielded sequence. *)
Lemma elem_of_iter_diff_cells (ds : list (Z * Z * string))
    (base_max_r base_max_c new_max_r new_max_c : Z) :
  iter_diff_cells base_ws new_ws tolerance trim_whitespace case_insensitive
  = Some ds →
  sheet_used_bounds base_ws = Some (base_max_r, base_max_c) →
  sheet_used_bounds new_ws = Some (new_max_r, new_max_c) →
  ∀ r c st,
    (r, c, st) ∈ ds
    ↔ 1 ≤ r ≤ Z.max base_max_r new_max_r
      ∧ 1 ≤ c ≤ Z.max base_max_c new_max_c
      ∧ ((r, c) ∉ merged_non_anchors base_ws)
      ∧ ((r, c) ∉ merged_non_anchors new_ws)
      ∧ classify (a_at r c) (b_at r c) tolerance trim_whitespace
                 case_insensitive = Some st.
Proof.
  intros (br & bc & nr & nc & Hb & Hn & ->)%iter_diff_cells_Some Hb' Hn'.
  assert (br = base_max_r ∧ bc = base_max_c ∧ nr = new_max_r
          ∧ nc = new_max_c) as (-> & -> & -> & ->) by naive_solver.
  intros r c st. rewrite list_elem_of_bind. setoid_rewrite list_elem_of_bind.
  setoid_rewrite elem_of_diff_cell. setoid_rewrite elem_of_range. simpl.
  split.
  - intros (r' & (c' & ([= -> ->] & ? & ? & ?) & ?) & ?).
    repeat split; [lia..|done|done|done].
  - intros (? & ? & ? & ? & ?). exists r. split; [|lia].
    exists c. split; [|lia]. done.
Qed.

(** The sequence is in row-major order, without repetition. *)
Lemma iter_diff_cells_row_major (ds : list (Z * Z * string)) :
  iter_diff_cells base_ws new_ws tolerance trim_whitespace case_insensitive
  = Some ds →
  StronglySorted row_major ds.
Proof.
  intros (br & bc & nr & nc & _ & _ & ->)%iter_diff_cells_Some.
  apply (StronglySorted_bind Z.lt); [apply StronglySorted_range|..].
  - intros r _.
    apply (StronglySorted_bind Z.lt); [apply StronglySorted_range|..].
    + intros c _. rewrite diff_cell_classify.
      repeat case_match; repeat constructor.
    + intros c c' x y Hc [Hx _]%elem_of_diff_cell [Hy _]%elem_of_diff_cell.
      right. rewrite Hx, Hy. simpl. done.
  - intros r r' x y Hr (c & [Hx _]%elem_of_diff_cell & _)%list_elem_of_bind
      (c' & [Hy _]%elem_of_diff_cell & _)%list_elem_of_bind.
    left. by rewrite Hx, Hy.
Qed.

End diff_cells.

(** C3: whatever the two sheets and the configuration, a coordinate the
    diff yields is a non-anchor member of no merged range of either
    sheet, and lies within the union of the two sheets' used bounds. *)
Theorem diff_skips_merged_cells_and_stays_in_bounds
    (base_ws new_ws : Xl.Worksheet) (tolerance : float)
    (trim_whitespace case_insensitive : bool)
    (ds : list (Z * Z * string)) (r c : Z) (st : string) :
  iter_diff_cells base_ws new_ws tolerance trim_whitespace case_insensitive
  = Some ds →
  (r, c, st) ∈ ds →
  (∀ mr, mr ∈ Xl.merged_cells base_ws ∨ mr ∈ Xl.merged_cells new_ws →
         ¬ non_anchor_member mr r c)
  ∧ ∃ base_max_r base_max_c new_max_r new_max_c,
      sheet_used_bounds base_ws = Some (base_max_r, base_max_c)
      ∧ sheet_used_bounds new_ws = Some (new_max_r, new_max_c)
      ∧ 1 ≤ r ≤ Z.max base_max_r new_max_r
      ∧ 1 ≤ c ≤ Z.max base_max_c new_max_c.
Proof.
  intros Hds Hin.
  pose proof Hds as (br & bc & nr & nc & Hb & Hn & _)%iter_diff_cells_Some.
  destruct (elem_of_iter_diff_cells _ _ _ _ _ _ _ _ _ _ Hds Hb Hn r c st)
    as [Hyielded _].
  destruct (Hyielded Hin) as (Hr & Hc & Hbase & Hnew & _).
  split.
  - intros mr [Hmr|Hmr] Hmem.
    + apply Hbase, elem_of_merged_non_anchors. by exists mr.
    + apply Hnew, elem_of_merged_non_anchors. by exists mr.
  - by exists br, bc, nr, nc.
Qed.

Lemma diff_skips_merged_cells_and_stays_in_bounds_witness :
  (∀ mr, mr ∈ Xl.merged_cells base_S1 ∨ mr ∈ Xl.merged_cells new_S1 →
         ¬ non_anchor_member mr 4 3)
  ∧ ∃ base_max_r base_max_c new_max_r new_max_c,
      sheet_used_bounds base_S1 = Some (base_max_r, base_max_c)
      ∧ sheet_used_bounds new_S1 = Some (new_max_r, new_max_c)
      ∧ 1 ≤ 4 ≤ Z.max base_max_r new_max_r
      ∧ 1 ≤ 3 ≤ Z.max base_max_c new_max_c.
Proof.
  apply (diff_skips_merged_cells_and_stays_in_bounds base_S1 new_S1 zero
           false false
           [(1, 1, "changed"); (3, 2, "removed"); (4, 3, "added")]
           4 3 "added").
  - vm_compute. reflexivity.
  - do 2 apply list_elem_of_further. apply list_elem_of_here.
Defined.

(** An empty cell is [None] or the empty text; any other text, blank or
    not, is non-empty, whatever trimming would make of it. *)
Lemma is_empty_text (s : string) : is_empty (VStr s) = bool_decide (s = "").
Proof. unfold is_empty. simpl. apply bool_decide_ext. naive_solver. Qed.

(** The added and removed classes do not look at the configuration. *)
Lemma classify_config_independent (a b : value) (st : string)
    (tolerance tolerance' : float)
    (trim_whitespace case_insensitive trim_whitespace' case_insensitive' : bool) :
  st ≠ "changed" →
  classify a b tolerance trim_whitespace case_insensitive = Some st
  ↔ classify a b tolerance' trim_whitespace' case_insensitive' = Some st.
Proof.
  intros Hst. unfold classify.
  destruct (is_empty a), (is_empty b); try done.
  do 2 destruct (equal_values _ _ _ _ _); naive_solver.
Qed.

(** C5: the empty/non-empty test is on the raw values.  At a coordinate
    the loops visit, a base cell holding a non-empty text (a blank one
    included) against an empty new cell is yielded as 'removed', and as
    nothing else, for every configuration; and the 'added' and 'removed'
    records are the same under any two configurations, so tolerance and
    text normalisation bear on 'changed' only. *)
Theorem emptiness_is_decided_on_raw_values
    (base_ws new_ws : Xl.Worksheet) (tolerance : float)
    (trim_whitespace case_insensitive : bool)
    (ds : list (Z * Z * string))
    (base_max_r base_max_c new_max_r new_max_c r c : Z) (s : string) :
  iter_diff_cells base_ws new_ws tolerance trim_whitespace case_insensitive
  = Some ds →
  sheet_used_bounds base_ws = Some (base_max_r, base_max_c) →
  sheet_used_bounds new_ws = Some (new_max_r, new_max_c) →
  1 ≤ r ≤ Z.max base_max_r new_max_r →
  1 ≤ c ≤ Z.max base_max_c new_max_c →
  (r, c) ∉ merged_non_anchors base_ws →
  (r, c) ∉ merged_non_anchors new_ws →
  Xl.cell_value base_ws r c = VStr s →
  s ≠ "" →
  is_empty (Xl.cell_value new_ws r c) = true →
  (∀ st, (r, c, st) ∈ ds ↔ st = "removed")
  ∧ (∀ tolerance' trim_whitespace' case_insensitive' ds',
       iter_diff_cells base_ws new_ws tolerance' trim_whitespace'
                       case_insensitive' = Some ds' →
       ∀ r' c' st, st ≠ "changed" →
                   ((r', c', st) ∈ ds ↔ (r', c', st) ∈ ds')).
Proof.
  intros Hds Hb Hn Hr Hc Hbase Hnew Ha Hs Hempty.
  pose proof (elem_of_iter_diff_cells _ _ _ _ _ _ _ _ _ _ Hds Hb Hn) as Hin.
  split.
  - intros st. rewrite Hin. unfold classify.
    rewrite Ha, is_empty_text, Hempty, bool_decide_eq_false_2 by done.
    naive_solver.
  - intros tolerance' trim_whitespace' case_insensitive' ds' Hds' r' c' st Hst.
    rewrite Hin.
    rewrite (elem_of_iter_diff_cells _ _ _ _ _ _ _ _ _ _ Hds' Hb Hn).
    by rewrite (classify_config_independent _ _ _ tolerance tolerance'
                  trim_whitespace case_insensitive
                  trim_whitespace' case_insensitive').
Qed.

Lemma emptiness_is_decided_on_raw_values_witness :
  (∀ st, (3, 2, st) ∈ [(3, 2, "removed"); (4, 3, "added")]
         ↔ st = "removed")
  ∧ (∀ tolerance' trim_whitespace' case_insensitive' ds',
       iter_diff_cells base_S1 new_S1 tolerance' trim_whitespace'
                       case_insensitive' = Some ds' →
       ∀ r' c' st, st ≠ "changed" →
                   ((r', c', st) ∈ [(3, 2, "removed"); (4, 3, "added")]
                    ↔ (r', c', st) ∈ ds')).
Proof.
  apply (emptiness_is_decided_on_raw_values base_S1 new_S1 zero true true
           [(3, 2, "removed"); (4, 3, "added")] 3 2 4 4 3 2 "  ").
  - vm_compute. reflexivity.
  - vm_compute. reflexivity.
  - vm_compute. reflexivity.
  - lia.
  - lia.
  - apply (bool_decide_unpack _). vm_compute. exact I.
  - apply (bool_decide_unpack _). vm_compute. exact I.
  - vm_compute. reflexivity.
  - discriminate.
  - vm_compute. reflexivity.
Defined.

(* ===================================================================== *)
(** * The workbook comparator *)
(* ===================================================================== *)

(** ** Sorted sheet names *)

Lemma string_le_lt (s t : string) : String.le s t → s ≠ t → string_lt s t.
Proof.
  unfold String.le, String.leb, string_lt. intros Hle Hne.
  destruct (String.compare s t) eqn:Hcmp; [|done..].
  by apply String.compare_eq_iff in Hcmp.
Qed.

Lemma StronglySorted_strict {A} (R R' : relation A) (l : list A) :
  (∀ x y, R x y → x ≠ y → R' x y) →
  StronglySorted R l → NoDup l → StronglySorted R' l.
Proof.
  intros HR. induction 1 as [|x l Hl IH Hall]; intros Hnodup; [constructor|].
  apply NoDup_cons in Hnodup as [Hx Hnodup]. constructor; [by apply IH|].
  rewrite Forall_forall in Hall |- *. intros y Hy.
  apply HR; [by apply Hall|]. by intros ->.
Qed.

Lemma StronglySorted_filter {A} (R : relation A) (P : A → Prop)
    `{!∀ x, Decision (P x)} (l : list A) :
  StronglySorted R l → StronglySorted R (filter P l).
Proof.
  induction 1 as [|x l Hl IH Hall]; [constructor|].
  rewrite filter_cons. case_decide; [|done].
  constructor; [done|]. rewrite Forall_forall in Hall |- *.
  intros y [_ Hy]%list_elem_of_filter. by apply Hall.
Qed.

(** [sorted(set)], filtered or not, ascends strictly. *)
Lemma sorted_elements_lt (X : gset string) (P : string → Prop)
    `{!∀ x, Decision (P x)} :
  StronglySorted string_lt (filter P (Py.sorted (elements X))).
Proof.
  apply StronglySorted_filter.
  apply (StronglySorted_strict String.le); [apply string_le_lt|..].
  - apply (StronglySorted_merge_sort _).
  - unfold Py.sorted. rewrite merge_sort_Permutation. apply NoDup_elements.
Qed.

Lemma elem_of_sorted (X : gset string) (s : string) :
  s ∈ Py.sorted (elements X) ↔ s ∈ X.
Proof.
  unfold Py.sorted. by rewrite merge_sort_Permutation, elem_of_elements.
Qed.

(** ** The three loops of [compare_workbooks] *)

Section comparator.
Variables (base_wb new_wb_values : Xl.Workbook).
Variables (include_sheets exclude_sheets : option (gset string)).
Variables (tolerance : float).
Variables (trim_whitespace case_insensitive highlight : bool).

(** The missing-sheet loop appends one record per name that passes. *)
Lemma record_missing_spec (st : string) (names : list string)
    (diffs : list DiffRecord) :
  record_missing include_sheets exclude_sheets st diffs names
  = diffs ++ (sheet_level st <$>
                filter (λ s, passes include_sheets exclude_sheets s = true)
                       names).
Proof.
  unfold record_missing. revert diffs.
  induction names as [|s names IH]; intros diffs; simpl.
  { by rewrite app_nil_r. }
  rewrite IH, filter_cons. clear IH.
  assert (∀ x y : list DiffRecord,
            (if truthy include_sheets && negb (member s include_sheets)
             then x
             else if truthy exclude_sheets && member s exclude_sheets
                  then x else y)
            = if passes include_sheets exclude_sheets s then y else x) as ->.
  { intros x y. unfold passes.
    by destruct (truthy include_sheets), (truthy exclude_sheets),
      (member s include_sheets), (member s exclude_sheets). }
  destruct (passes include_sheets exclude_sheets s); simpl; [|done].
  by rewrite <- app_assoc.
Qed.

(** The sheets to compare are the common ones that pass, sorted. *)
Lemma to_compare_of_spec :
  to_compare_of base_wb new_wb_values include_sheets exclude_sheets
  = filter (λ s, passes include_sheets exclude_sheets s = true)
      (Py.sorted (elements (list_to_set (Xl.sheetnames base_wb)
                            ∩ list_to_set (Xl.sheetnames new_wb_values)
                            : gset string))).
Proof.
  unfold to_compare_of. generalize (Py.sorted (elements
    (list_to_set (Xl.sheetnames base_wb)
     ∩ list_to_set (Xl.sheetnames new_wb_values) : gset string))).
  intros l. unfold passes.
  destruct (truthy include_sheets), (truthy exclude_sheets); simpl.
  - rewrite list_filter_filter. apply list_filter_iff. intros s.
    destruct (member s include_sheets), (member s exclude_sheets);
      naive_solver.
  - apply list_filter_iff. intros s.
    destruct (member s include_sheets); naive_solver.
  - apply list_filter_iff. intros s.
    destruct (member s exclude_sheets); naive_solver.
  - induction l as [|s l IH]; [done|].
    rewrite filter_cons. simpl. by rewrite <- IH.
Qed.

Lemma sheetnames_modify (s : string) (f : Xl.Worksheet → Xl.Worksheet)
    (wb : Xl.Workbook) :
  (∀ ws, Xl.title (f ws) = Xl.title ws) →
  Xl.sheetnames (Xl.modify s f wb) = Xl.sheetnames wb.
Proof.
  intros Hf. unfold Xl.sheetnames.
  induction wb as [|[w|c] wb IH]; csimpl; [done| |by f_equal].
  case_bool_decide; csimpl; [by rewrite Hf|by f_equal].
Qed.

(** Mutating a worksheet leaves every sheet the kind of sheet it is. *)
Lemma kinds_modify (s : string) (f : Xl.Worksheet → Xl.Worksheet)
    (wb : Xl.Workbook) :
  Xl.is_worksheet <$> Xl.modify s f wb = Xl.is_worksheet <$> wb.
Proof.
  induction wb as [|[w|c] wb IH]; csimpl; [done| |by f_equal].
  case_bool_decide; csimpl; [done|by f_equal].
Qed.

Lemma title_mark (st : string) (r c : Z) (ws : Xl.Worksheet) :
  Xl.title (mark st r c ws) = Xl.title ws.
Proof.
  unfold mark, Xl.set_fill, Xl.touch.
  repeat case_bool_decide; by destruct (Xl.cells ws !! (r, c)).
Qed.

(** One turn of the loop over the differences of a sheet. *)
Lemma record_cell_step (s : string) (base_ws new_ws : Xl.Worksheet)
    (new_ws_out : option Xl.Sheet) (acc : list DiffRecord * Xl.Workbook)
    (d : Z * Z * string) :
  record_cell s base_ws new_ws highlight new_ws_out acc d
  = rec ← cell_level s base_ws new_ws d;
    if highlight && bool_decide (is_Some new_ws_out)
    then _ ← new_ws_out ≫= Xl.as_worksheet;
         Some (acc.1 ++ [rec], Xl.modify s (mark d.2 d.1.1 d.1.2) acc.2)
    else Some (acc.1 ++ [rec], acc.2).
Proof.
  destruct d as [[r c] st]. unfold record_cell, cell_level. simpl.
  by destruct (cell_coord r c).
Qed.

(** What the loop over the differences of a sheet has done when it
    ends: one record per difference, in order, and no sheet of the
    output copy renamed or turned into another kind of sheet. *)
Lemma for_each_record_cell (s : string) (base_ws new_ws : Xl.Worksheet)
    (new_ws_out : option Xl.Sheet) (ds : list (Z * Z * string))
    (acc acc' : list DiffRecord * Xl.Workbook) :
  for_each (record_cell s base_ws new_ws highlight new_ws_out) ds acc
  = Some acc' →
  ∃ recs, Forall2 (λ d rec, cell_level s base_ws new_ws d = Some rec) ds recs
          ∧ acc'.1 = acc.1 ++ recs
          ∧ Xl.sheetnames acc'.2 = Xl.sheetnames acc.2
          ∧ Xl.is_worksheet <$> acc'.2 = Xl.is_worksheet <$> acc.2.
Proof.
  revert acc. induction ds as [|d ds IH]; intros acc; simpl.
  { intros [= <-]. exists []. by rewrite app_nil_r. }
  rewrite record_cell_step.
  destruct (cell_level s base_ws new_ws d) as [rec|] eqn:Hrec; simpl;
    [|done].
  destruct (highlight && bool_decide (is_Some new_ws_out)).
  - destruct (new_ws_out ≫= Xl.as_worksheet) as [?|]; simpl; [|done].
    intros (recs & Hrecs & -> & -> & ->)%IH. exists (rec :: recs). simpl.
    rewrite <- app_assoc. split; [by constructor|]. split; [done|].
    split; [apply sheetnames_modify, title_mark|apply kinds_modify].
  - intros (recs & Hrecs & -> & -> & ->)%IH. exists (rec :: recs). simpl.
    rewrite <- app_assoc. by split; [constructor|].
Qed.


(** The loop over the sheets to compare: sheet by sheet, the records of
    its differences. *)
Lemma compare_sheet_spec (acc acc' : list DiffRecord * Xl.Workbook)
    (s : string) :
  compare_sheet base_wb new_wb_values tolerance trim_whitespace
    case_insensitive highlight acc s = Some acc' →
  ∃ recs, acc'.1 = acc.1 ++ recs
          ∧ Xl.sheetnames acc'.2 = Xl.sheetnames acc.2
          ∧ Xl.is_worksheet <$> acc'.2 = Xl.is_worksheet <$> acc.2
          ∧ cell_records_of base_wb new_wb_values tolerance
              trim_whitespace case_insensitive s recs.
Proof.
  unfold compare_sheet, cell_records_of.
  destruct (Xl.getitem base_wb s) as [base_sh|]; simpl; [|done].
  destruct (Xl.getitem new_wb_values s) as [new_sh|]; simpl; [|done].
  destruct (if bool_decide (s ∈ Xl.sheetnames acc.2)
            then Some <$> Xl.getitem acc.2 s else Some None)
    as [new_ws_out|]; simpl; [|done].
  destruct base_sh as [base_ws|?]; simpl; [|done].
  destruct new_sh as [new_ws|?]; simpl; [|done].
  destruct (iter_diff_cells _ _ _ _ _) as [ds|] eqn:Hds; simpl; [|done].
  intros (recs & Hrecs & ? & ? & ?)%for_each_record_cell.
  exists recs. do 3 (split; [done|]). exists base_ws, new_ws, ds.
  do 3 (split; [done|]).
  split; [by eapply iter_diff_cells_row_major|done].
Qed.


Lemma for_each_compare_sheet (to_compare : list string)
    (acc acc' : list DiffRecord * Xl.Workbook) :
  for_each (compare_sheet base_wb new_wb_values tolerance trim_whitespace
                          case_insensitive highlight) to_compare acc
  = Some acc' →
  ∃ groups,
    acc'.1 = acc.1 ++ concat groups
    ∧ Xl.sheetnames acc'.2 = Xl.sheetnames acc.2
    ∧ Forall2 (cell_records_of base_wb new_wb_values tolerance
                 trim_whitespace case_insensitive) to_compare groups.
Proof.
  revert acc. induction to_compare as [|s l IH]; intros acc; simpl.
  { intros [= <-]. exists []. simpl. rewrite app_nil_r. by repeat split. }
  destruct (compare_sheet _ _ _ _ _ _ _ _) as [acc1|] eqn:Hs; simpl; [|done].
  apply compare_sheet_spec in Hs as (recs & Hdiffs & Hnames & _ & Hrecs).
  intros (groups & Hdiffs' & Hnames' & Hgroups)%IH.
  exists (recs :: groups). simpl.
  rewrite Hdiffs', Hdiffs, Hnames', Hnames, <- app_assoc.
  repeat split. by constructor.
Qed.

End comparator.

(** ** When the comparison returns *)

Lemma get_column_letter_is_Some (col : Z) :
  is_Some (Xl.get_column_letter col) ↔ 1 ≤ col ≤ 18278.
Proof.
  unfold Xl.get_column_letter.
  destruct (Z.leb_spec 1 col), (Z.leb_spec col 18278); simpl;
    split; intros Hcol; try lia; try (by eexists); by destruct Hcol.
Qed.




Lemma list_max_bounds (d lo hi : Z) (l : list Z) :
  lo ≤ d ≤ hi → Forall (λ x, lo ≤ x ≤ hi) l → lo ≤ Xl.list_max d l ≤ hi.
Proof.
  intros Hd [|x l' Hx Hl']; simpl; [done|].
  induction Hl' as [|y l'' Hy Hl'' IH]; simpl; lia.
Qed.

Lemma list_min_bounds (d lo hi : Z) (l : list Z) :
  lo ≤ d ≤ hi → Forall (λ x, lo ≤ x ≤ hi) l → lo ≤ Xl.list_min d l ≤ hi.
Proof.
  intros Hd [|x l' Hx Hl']; simpl; [done|].
  induction Hl' as [|y l'' Hy Hl'' IH]; simpl; lia.
Qed.




Section returns.
Variables (base_wb new_wb_values new_wb_out : Xl.Workbook).
Variables (include_sheets exclude_sheets : option (gset string)).
Variables (tolerance : float).
Variables (trim_whitespace case_insensitive highlight : bool).


End returns.

(** ** The records [compare_workbooks] collects *)

Lemma compare_workbooks_diffs
    (base_wb new_wb_values new_wb_out : Xl.Workbook)
    (include_sheets exclude_sheets : option (gset string))
    (tolerance : float)
    (trim_whitespace case_insensitive highlight : bool) (o : Outcome) :
  compare_workbooks base_wb new_wb_values new_wb_out include_sheets
    exclude_sheets tolerance trim_whitespace case_insensitive highlight
  = Some o →
  let base_sheets : gset string := list_to_set (Xl.sheetnames base_wb) in
  let new_sheets : gset string := list_to_set (Xl.sheetnames new_wb_values) in
  let keep := λ s, passes include_sheets exclude_sheets s = true in
  let to_compare :=
    filter keep (Py.sorted (elements (base_sheets ∩ new_sheets))) in
  ∃ groups : list (list DiffRecord),
    diffs_of o
    = (sheet_level "missing_sheet_new" <$>
         filter keep (Py.sorted (elements (base_sheets ∖ new_sheets))))
      ++ (sheet_level "missing_sheet_base" <$>
            filter keep (Py.sorted (elements (new_sheets ∖ base_sheets))))
      ++ concat groups
    ∧ Forall2 (cell_records_of base_wb new_wb_values tolerance
                 trim_whitespace case_insensitive) to_compare groups
    ∧ returned o = (Z.of_nat (length to_compare),
                    Z.of_nat (length (diffs_of o))).
Proof.
  intros Hrun base_sheets new_sheets keep to_compare.
  unfold compare_workbooks in Hrun.
  rewrite to_compare_of_spec, !record_missing_spec in Hrun.
  fold base_sheets new_sheets keep to_compare in Hrun.
  destruct (for_each _ to_compare _) as [[diffs out]|] eqn:Hloop;
    simpl in Hrun; [|done].
  destruct (add_summary_sheet out diffs) as [saved [[]|]]; simpl in Hrun;
    [|done].
  injection Hrun as <-. simpl.
  apply for_each_compare_sheet in Hloop as (groups & Hdiffs & _ & Hgroups).
  simpl in Hdiffs. exists groups.
  split; [by rewrite Hdiffs, <- app_assoc|]. by split.
Qed.

Lemma elem_of_concat_Forall2 {A B} (P : A → list B → Prop) (l : list A)
    (groups : list (list B)) (x : B) :
  Forall2 P l groups → x ∈ concat groups →
  ∃ a g, a ∈ l ∧ P a g ∧ x ∈ g.
Proof.
  induction 1 as [|a g l groups Hag _ IH]; simpl.
  { by intros ?%elem_of_nil. }
  intros [Hx|Hx]%elem_of_app.
  - exists a, g. split; [apply list_elem_of_here|done].
  - destruct (IH Hx) as (a' & g' & ? & ? & ?). exists a', g'.
    split; [by apply list_elem_of_further|done].
Qed.

(** Every record is a sheet-level one, or names a coordinate that the
    diff of its sheet has yielded: one within the union of the two used
    bounds and outside the non-anchor cells of both versions' merged
    ranges. *)
Lemma compare_workbooks_record
    (base_wb new_wb_values new_wb_out : Xl.Workbook)
    (include_sheets exclude_sheets : option (gset string))
    (tolerance : float)
    (trim_whitespace case_insensitive highlight : bool) (o : Outcome)
    (rec : DiffRecord) :
  compare_workbooks base_wb new_wb_values new_wb_out include_sheets
    exclude_sheets tolerance trim_whitespace case_insensitive highlight
  = Some o →
  rec ∈ diffs_of o →
  (∃ st, (st = "missing_sheet_new" ∨ st = "missing_sheet_base")
         ∧ rec = sheet_level st (sheet rec))
  ∨ (∃ base_ws new_ws ds r c,
       Xl.getitem base_wb (sheet rec) = Some (Xl.Ws base_ws)
       ∧ Xl.getitem new_wb_values (sheet rec) = Some (Xl.Ws new_ws)
       ∧ iter_diff_cells base_ws new_ws tolerance trim_whitespace
           case_insensitive = Some ds
       ∧ (r, c, status rec) ∈ ds
       ∧ cell_coord r c = Some (cell rec)
       ∧ old rec = Xl.cell_value base_ws r c
       ∧ new rec = Xl.cell_value new_ws r c).
Proof.
  intros (groups & -> & Hgroups & _)%compare_workbooks_diffs.
  rewrite !elem_of_app, !list_elem_of_fmap.
  intros [(s & -> & _)|[(s & -> & _)|Hrec]].
  - left. exists "missing_sheet_new". by split; [left|].
  - left. exists "missing_sheet_base". by split; [right|].
  - right.
    destruct (elem_of_concat_Forall2 _ _ _ _ Hgroups Hrec)
      as (s & recs & _ & (base_ws & new_ws & ds & Hb & Hn & Hds & _ & Hrecs)
          & Hin).
    apply list_elem_of_lookup in Hin as [i Hi].
    destruct (Forall2_lookup_r _ _ _ _ _ Hrecs Hi) as ([[r c] st] & Hd & Hlevel).
    unfold cell_level in Hlevel. simpl in Hlevel.
    destruct (cell_coord r c) as [name|] eqn:Hname; simplify_eq/=.
    exists base_ws, new_ws, ds, r, c.
    repeat split; try done. by eapply list_elem_of_lookup_2.
Qed.

(** C6: what [compare_workbooks] has in [diffs] when it returns: first
    the sheets only in the base workbook as 'missing_sheet_new' records,
    then the sheets only in the new workbook as 'missing_sheet_base'
    records, then, sheet by sheet over the common sheets, the records of
    the differences the cell diff yields, in its row-major order.  Each of
    the three sheet lists is filtered by the same include/exclude rule
    and ascends strictly in lexicographic order. *)
Theorem compare_emits_sheets_then_cells_in_order
    (base_wb new_wb_values new_wb_out : Xl.Workbook)
    (include_sheets exclude_sheets : option (gset string))
    (tolerance : float)
    (trim_whitespace case_insensitive highlight : bool) (o : Outcome) :
  compare_workbooks base_wb new_wb_values new_wb_out include_sheets
    exclude_sheets tolerance trim_whitespace case_insensitive highlight
  = Some o →
  let base_sheets : gset string := list_to_set (Xl.sheetnames base_wb) in
  let new_sheets : gset string := list_to_set (Xl.sheetnames new_wb_values) in
  let keep := λ s, passes include_sheets exclude_sheets s = true in
  let only_in_base :=
    filter keep (Py.sorted (elements (base_sheets ∖ new_sheets))) in
  let only_in_new :=
    filter keep (Py.sorted (elements (new_sheets ∖ base_sheets))) in
  let to_compare :=
    filter keep (Py.sorted (elements (base_sheets ∩ new_sheets))) in
  ∃ groups : list (list DiffRecord),
    diffs_of o
    = (sheet_level "missing_sheet_new" <$> only_in_base)
      ++ (sheet_level "missing_sheet_base" <$> only_in_new)
      ++ concat groups
    ∧ Forall2 (cell_records_of base_wb new_wb_values tolerance
                 trim_whitespace case_insensitive) to_compare groups
    ∧ StronglySorted string_lt only_in_base
    ∧ StronglySorted string_lt only_in_new
    ∧ StronglySorted string_lt to_compare
    ∧ returned o = (Z.of_nat (length to_compare),
                    Z.of_nat (length (diffs_of o))).
Proof.
  intros Hrun base_sheets new_sheets keep only_in_base only_in_new to_compare.
  destruct (compare_workbooks_diffs _ _ _ _ _ _ _ _ _ _ Hrun)
    as (groups & Hdiffs & Hgroups & Hreturned).
  exists groups. do 2 (split; [done|]).
  split; [apply sorted_elements_lt|].
  split; [apply sorted_elements_lt|].
  split; [apply sorted_elements_lt|done].
Qed.

Lemma compare_emits_sheets_then_cells_in_order_witness :
  ∃ o,
    compare_workbooks base_wb_ex new_wb_ex new_wb_ex None None zero
      false false true = Some o
    ∧ let base_sheets : gset string := list_to_set (Xl.sheetnames base_wb_ex) in
      let new_sheets : gset string := list_to_set (Xl.sheetnames new_wb_ex) in
      let keep := λ s, passes None None s = true in
      let only_in_base :=
        filter keep (Py.sorted (elements (base_sheets ∖ new_sheets))) in
      let only_in_new :=
        filter keep (Py.sorted (elements (new_sheets ∖ base_sheets))) in
      let to_compare :=
        filter keep (Py.sorted (elements (base_sheets ∩ new_sheets))) in
      ∃ groups : list (list DiffRecord),
        diffs_of o
        = (sheet_level "missing_sheet_new" <$> only_in_base)
          ++ (sheet_level "missing_sheet_base" <$> only_in_new)
          ++ concat groups
        ∧ Forall2 (cell_records_of base_wb_ex new_wb_ex zero false false)
                  to_compare groups
        ∧ StronglySorted string_lt only_in_base
        ∧ StronglySorted string_lt only_in_new
        ∧ StronglySorted string_lt to_compare
        ∧ returned o = (Z.of_nat (length to_compare),
                        Z.of_nat (length (diffs_of o))).
Proof.
  destruct (compare_workbooks base_wb_ex new_wb_ex new_wb_ex None None zero
              false false true) as [o|] eqn:Hrun.
  - exists o. split; [reflexivity|].
    exact (compare_emits_sheets_then_cells_in_order _ _ _ _ _ _ _ _ _ o Hrun).
  - vm_compute in Hrun. discriminate Hrun.
Defined.

Lemma truthy_empty : truthy (Some ∅) = false.
Proof. reflexivity. Qed.

Lemma passes_empty_include (exclude_sheets : option (gset string))
    (s : string) :
  passes (Some ∅) exclude_sheets s = passes None exclude_sheets s.
Proof. reflexivity. Qed.

Lemma passes_empty_exclude (include_sheets : option (gset string))
    (s : string) :
  passes include_sheets (Some ∅) s = passes include_sheets None s.
Proof. unfold passes. by rewrite truthy_empty. Qed.

Lemma filter_all {A} (P : A → Prop) `{!∀ x, Decision (P x)} (l : list A) :
  (∀ x, P x) → filter P l = l.
Proof.
  intros HP. induction l as [|x l IH]; [done|].
  by rewrite filter_cons, decide_True, IH.
Qed.

(** C10: an empty include set, or an empty exclude set, is no filter.
    A run of [compare_workbooks] with both sets empty that returns has
    recorded every sheet that only one workbook holds and compared
    every sheet that both hold: its records are the 'missing_sheet_new'
    records of all the sheets only in the base workbook, then the
    'missing_sheet_base' records of all the sheets only in the new one,
    then the cell records of all the common sheets, and the sheet count
    it returns is the number of common sheets.  With one set empty the
    other filter alone applies: the records are those of the sheets
    that pass it, and the run is the run with no set in the place of
    the empty one. *)
Theorem empty_sheet_filter_is_no_filter
    (base_wb new_wb_values new_wb_out : Xl.Workbook)
    (include_sheets exclude_sheets : option (gset string))
    (tolerance : float)
    (trim_whitespace case_insensitive highlight : bool) (o : Outcome) :
  compare_workbooks base_wb new_wb_values new_wb_out (Some ∅) (Some ∅)
    tolerance trim_whitespace case_insensitive highlight = Some o →
  let base_sheets : gset string := list_to_set (Xl.sheetnames base_wb) in
  let new_sheets : gset string := list_to_set (Xl.sheetnames new_wb_values) in
  (∃ groups : list (list DiffRecord),
     diffs_of o
     = (sheet_level "missing_sheet_new" <$>
          Py.sorted (elements (base_sheets ∖ new_sheets)))
       ++ (sheet_level "missing_sheet_base" <$>
             Py.sorted (elements (new_sheets ∖ base_sheets)))
       ++ concat groups
     ∧ Forall2 (cell_records_of base_wb new_wb_values tolerance
                  trim_whitespace case_insensitive)
         (Py.sorted (elements (base_sheets ∩ new_sheets))) groups
     ∧ returned o = (Z.of_nat (size (base_sheets ∩ new_sheets)),
                     Z.of_nat (length (diffs_of o))))
  ∧ (∀ o', compare_workbooks base_wb new_wb_values new_wb_out (Some ∅)
             exclude_sheets tolerance trim_whitespace case_insensitive
             highlight = Some o' →
           records_of_kept (passes None exclude_sheets) base_wb
             new_wb_values tolerance trim_whitespace case_insensitive o')
  ∧ (∀ o', compare_workbooks base_wb new_wb_values new_wb_out
             include_sheets (Some ∅) tolerance trim_whitespace
             case_insensitive highlight = Some o' →
           records_of_kept (passes include_sheets None) base_wb
             new_wb_values tolerance trim_whitespace case_insensitive o')
  ∧ compare_workbooks base_wb new_wb_values new_wb_out (Some ∅)
      exclude_sheets tolerance trim_whitespace case_insensitive highlight
    = compare_workbooks base_wb new_wb_values new_wb_out None
        exclude_sheets tolerance trim_whitespace case_insensitive highlight
  ∧ compare_workbooks base_wb new_wb_values new_wb_out include_sheets
      (Some ∅) tolerance trim_whitespace case_insensitive highlight
    = compare_workbooks base_wb new_wb_values new_wb_out include_sheets
        None tolerance trim_whitespace case_insensitive highlight
  ∧ to_compare_of base_wb new_wb_values (Some ∅) (Some ∅)
    = Py.sorted (elements (list_to_set (Xl.sheetnames base_wb)
                           ∩ list_to_set (Xl.sheetnames new_wb_values)
                           : gset string))
  ∧ ∀ st diffs names,
      record_missing (Some ∅) (Some ∅) st diffs names
      = diffs ++ (sheet_level st <$> names).
Proof.
  intros Hrun base_sheets new_sheets.
  split; [|split; [|split; [|split; [|split; [|split]]]]].
  - destruct (compare_workbooks_diffs _ _ _ _ _ _ _ _ _ _ Hrun)
      as (groups & Hdiffs & Hgroups & Hreturned).
    fold base_sheets new_sheets in Hdiffs, Hgroups, Hreturned.
    assert (∀ l, filter (λ s, passes (Some ∅) (Some ∅) s = true) l = l)
      as Hall by (intros l; by apply filter_all).
    rewrite !Hall in Hdiffs. rewrite Hall in Hgroups, Hreturned.
    exists groups. do 2 (split; [done|]). rewrite Hreturned. do 3 f_equal.
    unfold Py.sorted. by rewrite merge_sort_Permutation.
  - intros o' Hrun'.
    destruct (compare_workbooks_diffs _ _ _ _ _ _ _ _ _ _ Hrun')
      as (groups & Hdiffs & Hgroups & Hreturned).
    by exists groups.
  - intros o' Hrun'.
    destruct (compare_workbooks_diffs _ _ _ _ _ _ _ _ _ _ Hrun')
      as (groups & Hdiffs & Hgroups & Hreturned).
    fold base_sheets new_sheets in Hdiffs, Hgroups, Hreturned.
    assert (∀ l, filter (λ s, passes include_sheets (Some ∅) s = true) l
                 = filter (λ s, passes include_sheets None s = true) l)
      as Hsame
      by (intros l; apply list_filter_iff; intros s;
          by rewrite passes_empty_exclude).
    rewrite !Hsame in Hdiffs. rewrite Hsame in Hgroups, Hreturned.
    by exists groups.
  - unfold compare_workbooks, to_compare_of, record_missing.
    by rewrite truthy_empty.
  - unfold compare_workbooks, to_compare_of, record_missing.
    by rewrite truthy_empty.
  - unfold to_compare_of. by rewrite truthy_empty.
  - intros st diffs names. unfold record_missing. rewrite truthy_empty.
    simpl. revert diffs. induction names as [|s names IH]; intros diffs; simpl.
    + by rewrite app_nil_r.
    + by rewrite IH, <- app_assoc.
Qed.

Lemma empty_sheet_filter_is_no_filter_witness :
  ∃ o,
    compare_workbooks base_wb_ex new_wb_ex new_wb_ex (Some ∅) (Some ∅)
      zero false false true = Some o
    ∧ diffs_of o
      = [ sheet_level "missing_sheet_new" "Old";
          sheet_level "missing_sheet_base" "New";
          {| sheet := "S1"; cell := "A1"; status := "changed";
             old := VStr "foo"; new := VStr "FOO" |};
          {| sheet := "S1"; cell := "B3"; status := "removed";
             old := VStr "  "; new := VNone |};
          {| sheet := "S1"; cell := "C4"; status := "added";
             old := VNone; new := VStr "y" |} ]
    ∧ returned o = (1, 5)
    ∧ ∃ groups : list (list DiffRecord),
        diffs_of o
        = (sheet_level "missing_sheet_new" <$>
             Py.sorted (elements (list_to_set (Xl.sheetnames base_wb_ex)
                                  ∖ list_to_set (Xl.sheetnames new_wb_ex)
                                  : gset string)))
          ++ (sheet_level "missing_sheet_base" <$>
                Py.sorted (elements (list_to_set (Xl.sheetnames new_wb_ex)
                                     ∖ list_to_set (Xl.sheetnames base_wb_ex)
                                     : gset string)))
          ++ concat groups
        ∧ Forall2 (cell_records_of base_wb_ex new_wb_ex zero false false)
            (Py.sorted (elements (list_to_set (Xl.sheetnames base_wb_ex)
                                  ∩ list_to_set (Xl.sheetnames new_wb_ex)
                                  : gset string))) groups
        ∧ returned o
          = (Z.of_nat (size (list_to_set (Xl.sheetnames base_wb_ex)
                             ∩ list_to_set (Xl.sheetnames new_wb_ex)
                             : gset string)),
             Z.of_nat (length (diffs_of o))).
Proof.
  destruct (compare_workbooks base_wb_ex new_wb_ex new_wb_ex (Some ∅)
              (Some ∅) zero false false true) as [o|] eqn:Hrun.
  - exists o. split; [reflexivity|].
    split; [vm_compute in Hrun; by injection Hrun as <-|].
    split; [vm_compute in Hrun; by injection Hrun as <-|].
    exact (proj1 (empty_sheet_filter_is_no_filter _ _ _ None None _ _ _ _ o
                    Hrun)).
  - vm_compute in Hrun. discriminate Hrun.
Defined.

(* ===================================================================== *)
(** * Scenarios *)
(* ===================================================================== *)

(** "foo" against "FOO": changed unless case is folded. *)
Example scenario_case_folding :
  equal_values (VStr "foo") (VStr "FOO") zero false false = false
  ∧ equal_values (VStr "foo") (VStr "FOO") zero false true = true.
Proof. by vm_compute. Qed.

(** 100 against 100.04: equal at tolerance 0.05, changed at 0.01. *)
Example scenario_tolerance :
  equal_values (VInt 100) (VFloat (S754_finite false 7039689167533507 (-46)))
    (S754_finite false 7205759403792794 (-57)) false false = true
  ∧ equal_values (VInt 100) (VFloat (S754_finite false 7039689167533507 (-46)))
      (S754_finite false 5764607523034235 (-59)) false false = false.
Proof. by vm_compute. Qed.

(** What [str] makes of numbers, as Python prints them. *)
Example scenario_str :
  Py.str (VFloat (S754_finite false 7039689167533507 (-46))) = "100.04"
  ∧ Py.str (VFloat (S754_finite false 7205759403792794 (-56))) = "0.1"
  ∧ Py.str (VFloat (S754_finite false 5000000000000000 1)) = "1e+16"
  ∧ Py.str (VFloat (S754_finite false 5404319552844596 (-54)))
    = "0.30000000000000004"
  ∧ Py.str (VInt (-42)) = "-42"
  ∧ Py.str (VFloat (S754_finite true 6755399441055744 (-52))) = "-1.5".
Proof. by vm_compute. Qed.

Example scenario_columns :
  cell_coord 5 1 = Some "A5" ∧ cell_coord 10 28 = Some "AB10"
  ∧ Xl.get_column_letter 18278 = Some "ZZZ"
  ∧ Xl.get_column_letter 18279 = None
  ∧ Xl.column_index_from_string "AB" = Some 28
  ∧ sheet_used_bounds new_S1 = Some (4, 4).
Proof. by vm_compute. Qed.

(** A sheet only in the base and one only in the new workbook give one
    record each, ahead of the cell records of the common sheet; the cell
    under the merged range is not reported. *)
Example scenario_missing_sheets :
  diffs_of <$> compare_workbooks base_wb_ex new_wb_ex new_wb_ex None None
                 zero false false true
  = Some [ sheet_level "missing_sheet_new" "Old";
           sheet_level "missing_sheet_base" "New";
           {| sheet := "S1"; cell := "A1"; status := "changed";
              old := VStr "foo"; new := VStr "FOO" |};
           {| sheet := "S1"; cell := "B3"; status := "removed";
              old := VStr "  "; new := VNone |};
           {| sheet := "S1"; cell := "C4"; status := "added";
              old := VNone; new := VStr "y" |} ].
Proof. by vm_compute. Qed.

(** A new sheet whose title matches one of the workbook up to letter
    case is renamed by openpyxl: the title gets a number, one more than
    the highest that follows it among the names. *)
Example scenario_renamed_summary :
  Xl.sheetnames
    (add_summary_sheet [Xl.Ws (Xl.empty_sheet "Diff_Summary");
                        Xl.Ws (Xl.empty_sheet "diff_summary_1")] []).1
  = ["Diff_Summary_11"; "Diff_Summary"; "diff_summary_1"]
  ∧ Xl.sheetnames
      (add_summary_sheet [Xl.Ws (Xl.empty_sheet "diff_summary")] []).1
    = ["Diff_Summary1"; "diff_summary"]
  ∧ Xl.avoid_duplicate_name ["Data"; "data1"; "DATA7"] "data" = "data8"
  ∧ Xl.avoid_duplicate_name ["Data"] "Dat" = "Dat".
Proof. by vm_compute. Qed.

(** A record with a control character in its old value: the summary
    raises at that value, with the header and the three texts before it
    written and the row counter still on the header. *)
Example scenario_illegal_character :
  (add_summary_sheet [] [control_record]).2 = None
  ∧ (λ ws, (Xl.cell_value ws 2 3, Xl.cells ws !! (2, 4), Xl.current_row ws))
      <$> (Xl.getitem (add_summary_sheet [] [control_record]).1 "Diff_Summary"
           ≫= Xl.as_worksheet)
    = Some (VStr "changed", None, 1).
Proof. by vm_compute. Qed.

(** A text of 32768 characters is written to the summary without its
    last character. *)
Example scenario_long_text :
  let d := {| sheet := "S1"; cell := "A1"; status := "removed";
              old := VStr (copies (Z.to_nat 32768) "a"); new := VNone |} in
  (add_summary_sheet [] [d]).2 = Some ()
  ∧ (λ ws, bool_decide (Xl.cell_value ws 2 4
                        = VStr (copies (Z.to_nat 32767) "a")))
      <$> (Xl.getitem (add_summary_sheet [] [d]).1 "Diff_Summary"
           ≫= Xl.as_worksheet)
    = Some true.
Proof. vm_compute. done. Qed.

(** A chart sheet that both workbooks hold is listed and found by its
    name, and the comparison raises on it. *)
Example scenario_chart_sheet :
  Xl.sheetnames [chart_ex] = ["Chart1"]
  ∧ Xl.getitem [chart_ex] "Chart1" = Some chart_ex
  ∧ compare_workbooks [chart_ex] [chart_ex] [chart_ex] None None zero
      false false true = None.
Proof. by vm_compute. Qed.

(* ===================================================================== *)
(** * Further properties of the program *)
(* ===================================================================== *)

(** ** The equality oracle *)

(** X1: the equality oracle is symmetric on all values, numbers
    included: [abs(x - y)] is [abs(y - x)] in binary64. *)
Theorem equal_values_symmetric (a b : value) (tolerance : float)
    (trim_whitespace case_insensitive : bool) :
  equal_values a b tolerance trim_whitespace case_insensitive
  = equal_values b a tolerance trim_whitespace case_insensitive.
Proof. apply equal_values_sym. Qed.

Lemma feq_refl (x : float) : Py.feq x x = negb (is_nan (VFloat x)).
Proof.
  unfold Py.feq, SFeqb. destruct x as [s|s| |s m e]; simpl; try done.
  - by destruct s.
  - rewrite Z.compare_refl, Pos.compare_cont_refl. by destruct s.
Qed.

Lemma Py_eq_refl (a : value) : Py.eq a a = negb (is_nan a).
Proof.
  destruct a as [|b|z|f|s|d]; simpl.
  - done.
  - by destruct b.
  - apply Z.eqb_refl.
  - rewrite feq_refl. by destruct f.
  - by apply bool_decide_eq_true.
  - by apply bool_decide_eq_true.
Qed.

Lemma equal_values_refl (a : value) (tolerance : float)
    (trim_whitespace case_insensitive : bool) :
  equal_values a a tolerance trim_whitespace case_insensitive
  = negb (is_nan a).
Proof.
  unfold equal_values. rewrite Py_eq_refl.
  destruct a as [|b|z|f|s|d]; try done.
  by destruct f.
Qed.

(** X2: a value is equal to itself, whatever the configuration, except
    the float nan, which is equal to nothing. *)
Theorem equal_values_self (a : value) (tolerance : float)
    (trim_whitespace case_insensitive : bool) :
  equal_values a a tolerance trim_whitespace case_insensitive
  = negb (is_nan a).
Proof. apply equal_values_refl. Qed.

(** X3: a value that is not absent and the text [str] makes of it are
    equal values, whatever the configuration: the number 5 and the text
    "5" do not differ. *)
Theorem equal_values_own_text (a : value) (tolerance : float)
    (trim_whitespace case_insensitive : bool) :
  a ≠ VNone →
  equal_values a (VStr (Py.str a)) tolerance trim_whitespace
    case_insensitive = true.
Proof.
  intros Ha. unfold equal_values.
  destruct a as [|b|z|f|s|d]; simpl; try done;
    by rewrite bool_decide_eq_true_2.
Qed.

Lemma equal_values_own_text_witness :
  equal_values (VInt 5) (VStr (Py.str (VInt 5))) zero true true = true.
Proof. apply (equal_values_own_text (VInt 5) zero true true). discriminate. Defined.

(** [<=] on doubles is transitive. *)
Lemma fle_trans (x y z : float) :
  Py.fle x y = true → Py.fle y z = true → Py.fle x z = true.
Proof.
  unfold Py.fle, SFleb, SFcompare.
  destruct x as [sx|sx| |sx mx ex], y as [sy|sy| |sy my ey],
    z as [sz|sz| |sz mz ez]; try done;
    try destruct sx; try destruct sy; try destruct sz; try done;
    change (Pos.compare_cont Eq) with Pos.compare;
    repeat match goal with
           | |- context [Z.compare ?a ?b] => destruct (Z.compare_spec a b)
           | |- context [Pos.compare ?a ?b] => destruct (Pos.compare_spec a b)
           end; simpl; try done; try lia.
Qed.

(** X4: widening the tolerance never turns equal values into different
    ones. *)
Theorem equal_values_tolerance_monotone (a b : value)
    (tolerance tolerance' : float)
    (trim_whitespace case_insensitive : bool) :
  Py.fle tolerance tolerance' = true →
  equal_values a b tolerance trim_whitespace case_insensitive = true →
  equal_values a b tolerance' trim_whitespace case_insensitive = true.
Proof.
  intros Hle. unfold equal_values.
  destruct (Py.eq a b); [done|].
  destruct (is_number a && is_number b); [|done].
  destruct (float_of_number a), (float_of_number b); try done.
  intros Hd. by eapply fle_trans.
Qed.

Lemma equal_values_tolerance_monotone_witness :
  equal_values (VInt 3) (VInt 1) (S754_infinity false) false false = true.
Proof.
  apply (equal_values_tolerance_monotone (VInt 3) (VInt 1) two
           (S754_infinity false) false false); reflexivity.
Defined.

(** ** Texts: reversal, stripping, lower-casing *)

Lemma rev_app_append (s t : string) :
  String.rev_app s t = String.rev s +:+ t.
Proof.
  unfold String.rev. revert t. induction s as [|c s IH]; intros t; [done|].
  simpl. rewrite (IH (String c t)), (IH (String c "")).
  by rewrite append_assoc.
Qed.

Lemma rev_cons (c : ascii) (s : string) :
  String.rev (String c s) = String.rev s +:+ String c "".
Proof. unfold String.rev at 1. simpl. apply rev_app_append. Qed.

Lemma rev_append (s t : string) :
  String.rev (s +:+ t) = String.rev t +:+ String.rev s.
Proof.
  induction s as [|c s IH].
  - by rewrite append_nil_r.
  - by rewrite append_cons, !rev_cons, IH, append_assoc.
Qed.

Lemma rev_involutive (s : string) : String.rev (String.rev s) = s.
Proof.
  induction s as [|c s IH]; [done|]. by rewrite rev_cons, rev_append, IH.
Qed.

Lemma rev_eq_nil (s : string) : String.rev s = "" → s = "".
Proof.
  destruct s as [|c s]; [done|]. rewrite rev_cons.
  by intros [_ ?]%append_eq_nil.
Qed.

Lemma starts_blank_append (s t : string) :
  s ≠ "" → starts_blank (s +:+ t) = starts_blank s.
Proof. by destruct s. Qed.

Lemma lstrip_not_blank (s : string) : starts_blank (Py.lstrip s) = false.
Proof.
  induction s as [|c s IH]; [done|]. simpl.
  by destruct (Py.isspace c) eqn:Hc; simpl.
Qed.

Lemma lstrip_fixed (s : string) : starts_blank s = false → Py.lstrip s = s.
Proof. destruct s as [|c s]; [done|]. simpl. by intros ->. Qed.

(** Stripping on the left leaves the right end as it is. *)
Lemma lstrip_keeps_end (s : string) :
  starts_blank (String.rev s) = false →
  starts_blank (String.rev (Py.lstrip s)) = false.
Proof.
  induction s as [|c s IH]; [done|]. simpl.
  destruct (Py.isspace c) eqn:Hc; [|done].
  rewrite rev_cons. destruct (decide (s = "")) as [->|Hs].
  { simpl. by rewrite Hc. }
  rewrite starts_blank_append; [done|]. by intros ?%rev_eq_nil.
Qed.

Lemma strip_not_blank (s : string) :
  starts_blank (Py.strip s) = false
  ∧ starts_blank (String.rev (Py.strip s)) = false.
Proof.
  unfold Py.strip. split.
  - apply lstrip_keeps_end. rewrite rev_involutive. apply lstrip_not_blank.
  - rewrite rev_involutive. apply lstrip_not_blank.
Qed.

Lemma strip_fixed (s : string) :
  starts_blank s = false → starts_blank (String.rev s) = false →
  Py.strip s = s.
Proof.
  intros Hl Hr. unfold Py.strip.
  by rewrite (lstrip_fixed s), (lstrip_fixed (String.rev s)), rev_involutive.
Qed.

Lemma strip_idempotent (s : string) : Py.strip (Py.strip s) = Py.strip s.
Proof. apply strip_fixed; apply strip_not_blank. Qed.

Lemma lower_char_idempotent (c : ascii) :
  Py.lower_char (Py.lower_char c) = Py.lower_char c.
Proof. by destruct c as [[] [] [] [] [] [] [] []]. Qed.

Lemma isspace_lower_char (c : ascii) :
  Py.isspace (Py.lower_char c) = Py.isspace c.
Proof. by destruct c as [[] [] [] [] [] [] [] []]. Qed.

Lemma lower_append (s t : string) :
  Py.lower (s +:+ t) = Py.lower s +:+ Py.lower t.
Proof.
  induction s as [|c s IH]; [done|]. rewrite append_cons. simpl.
  by rewrite IH.
Qed.

Lemma lower_rev (s : string) : Py.lower (String.rev s) = String.rev (Py.lower s).
Proof.
  induction s as [|c s IH]; [done|]. simpl.
  by rewrite !rev_cons, lower_append, IH.
Qed.

Lemma lower_lstrip (s : string) :
  Py.lower (Py.lstrip s) = Py.lstrip (Py.lower s).
Proof.
  induction s as [|c s IH]; [done|]. simpl.
  rewrite isspace_lower_char. by destruct (Py.isspace c).
Qed.

Lemma lower_strip (s : string) : Py.lower (Py.strip s) = Py.strip (Py.lower s).
Proof.
  unfold Py.strip. by rewrite lower_rev, lower_lstrip, lower_rev, lower_lstrip.
Qed.

Lemma lower_idempotent (s : string) : Py.lower (Py.lower s) = Py.lower s.
Proof.
  induction s as [|c s IH]; [done|]. simpl.
  by rewrite lower_char_idempotent, IH.
Qed.

Lemma normalize_text_idempotent (trim_whitespace case_insensitive : bool)
    (s : string) :
  normalize_text trim_whitespace case_insensitive
    (normalize_text trim_whitespace case_insensitive s)
  = normalize_text trim_whitespace case_insensitive s.
Proof.
  unfold normalize_text. destruct trim_whitespace, case_insensitive; try done.
  - by rewrite <- lower_strip, lower_idempotent, strip_idempotent.
  - apply strip_idempotent.
  - apply lower_idempotent.
Qed.

(** X5: [normalize_str] is idempotent, on every value, and a text and
    its normal form are equal values under the same configuration:
    blanks around a text do not count when trimming is on, nor does its
    case when case is folded. *)
Theorem normalize_str_idempotent (v : value) (s : string) (tolerance : float)
    (trim_whitespace case_insensitive : bool) :
  normalize_str (normalize_str v trim_whitespace case_insensitive)
    trim_whitespace case_insensitive
  = normalize_str v trim_whitespace case_insensitive
  ∧ equal_values (VStr s)
      (normalize_str (VStr s) trim_whitespace case_insensitive)
      tolerance trim_whitespace case_insensitive = true.
Proof.
  split.
  - destruct v; try done. rewrite !normalize_str_text.
    by rewrite normalize_text_idempotent.
  - rewrite normalize_str_text, equal_values_text.
    apply bool_decide_eq_true. by rewrite normalize_text_idempotent.
Qed.

(** ** The sheet lists of the command line *)

Lemma none_of_rev (p : ascii → bool) (s : string) :
  none_of p (String.rev s) = none_of p s.
Proof.
  induction s as [|c s IH]; [done|]. rewrite rev_cons, none_of_append, IH.
  simpl. by rewrite andb_true_r, andb_comm.
Qed.

Lemma none_of_lstrip (p : ascii → bool) (s : string) :
  none_of p s = true → none_of p (Py.lstrip s) = true.
Proof.
  induction s as [|c s IH]; [done|]. simpl.
  intros [Hc Hs]%andb_true_iff. destruct (Py.isspace c); [by apply IH|].
  simpl. by rewrite Hc.
Qed.

Lemma none_of_strip (p : ascii → bool) (s : string) :
  none_of p s = true → none_of p (Py.strip s) = true.
Proof.
  intros Hs. unfold Py.strip. rewrite none_of_rev. apply none_of_lstrip.
  rewrite none_of_rev. by apply none_of_lstrip.
Qed.

Lemma split_not_nil (sep : ascii) (s : string) : Py.split sep s ≠ [].
Proof.
  induction s as [|c s IH]; [done|]. simpl.
  case_bool_decide; [done|]. by destruct (Py.split sep s).
Qed.

(** No piece holds the separator. *)
Lemma split_pieces (sep : ascii) (s : string) :
  Forall (λ piece, none_of (is_sep sep) piece = true) (Py.split sep s).
Proof.
  induction s as [|c s IH]; simpl.
  { by repeat constructor. }
  case_bool_decide as Hc.
  - by constructor.
  - destruct (Py.split sep s) as [|piece pieces] eqn:Hsplit;
      [by apply split_not_nil in Hsplit|].
    inversion_clear IH as [|? ? Hpiece Hpieces]. constructor; [|done].
    simpl. unfold is_sep at 1. by rewrite bool_decide_eq_false_2.
Qed.

(** Splitting undoes joining, for pieces without the separator. *)
Lemma split_join (sep : ascii) (pieces : list string) :
  pieces ≠ [] →
  Forall (λ piece, none_of (is_sep sep) piece = true) pieces →
  Py.split sep (Py.join sep pieces) = pieces.
Proof.
  assert (∀ piece rest,
            none_of (is_sep sep) piece = true →
            Py.split sep (piece +:+ String sep rest)
            = piece :: Py.split sep rest) as Hstep.
  { intros piece rest. induction piece as [|c piece IH]; simpl.
    - intros _. by rewrite bool_decide_eq_true_2.
    - intros [Hc Hpiece]%andb_true_iff.
      unfold is_sep in Hc. apply negb_true_iff, bool_decide_eq_false in Hc.
      rewrite bool_decide_eq_false_2 by done. by rewrite IH. }
  assert (∀ piece, none_of (is_sep sep) piece = true →
                   Py.split sep piece = [piece]) as Hlast.
  { intros piece. induction piece as [|c piece IH]; simpl; [done|].
    intros [Hc Hpiece]%andb_true_iff.
    unfold is_sep in Hc. apply negb_true_iff, bool_decide_eq_false in Hc.
    rewrite bool_decide_eq_false_2 by done. by rewrite IH. }
  intros Hne Hall. induction Hall as [|piece pieces Hpiece Hpieces IH]; [done|].
  destruct pieces as [|piece' pieces']; simpl.
  - by apply Hlast.
  - rewrite Hstep by done. f_equal. by apply IH.
Qed.

Lemma str_truthy_true (s : string) : str_truthy s = true ↔ s ≠ "".
Proof.
  unfold str_truthy. rewrite negb_true_iff, bool_decide_eq_false. done.
Qed.

(** X6: what [parse_csv_set] returns is never the empty set, and every
    name in it is non-empty, has no blank at either end and holds no
    comma; it returns [None] exactly when it is given nothing or only
    blank pieces. *)
Theorem parse_csv_set_names (v : option string) :
  (∀ names, parse_csv_set v = Some names →
     names ≠ ∅
     ∧ ∀ name, name ∈ names →
         name ≠ "" ∧ Py.strip name = name
         ∧ none_of (is_sep ",") name = true)
  ∧ (parse_csv_set v = None
     ↔ ∀ text, v = Some text →
         Forall (λ piece, Py.strip piece = "") (Py.split "," text)).
Proof.
  destruct v as [text|]; [|by split]. unfold parse_csv_set.
  set (kept := filter (λ x, str_truthy (Py.strip x) = true) (Py.split "," text)).
  assert (∀ name, name ∈ Py.strip <$> kept →
            name ≠ "" ∧ Py.strip name = name
            ∧ none_of (is_sep ",") name = true) as Hnames.
  { intros name (piece & -> & [Hkeep Hin]%list_elem_of_filter)%list_elem_of_fmap.
    split; [by apply str_truthy_true|]. split; [apply strip_idempotent|].
    apply none_of_strip.
    pose proof (split_pieces "," text) as Hall.
    rewrite Forall_forall in Hall. by apply Hall. }
  split.
  - intros names. case_bool_decide as Hitems; [done|]. intros [= <-]. split.
    + intros Hempty. destruct (Py.strip <$> kept) as [|x l]; [done|].
      set_solver.
    + intros name Hin%elem_of_list_to_set. by apply Hnames.
  - case_bool_decide as Hitems; split; try done.
    + intros _ ? [= <-]. apply Forall_forall. intros piece Hpiece.
      destruct (decide (Py.strip piece = "")) as [|Hne]; [done|].
      assert (piece ∈ kept) as Hin.
      { apply list_elem_of_filter. split; [by apply str_truthy_true|done]. }
      apply fmap_nil_inv in Hitems. rewrite Hitems in Hin.
      by apply elem_of_nil in Hin.
    + intros Hall. specialize (Hall text eq_refl). exfalso. apply Hitems.
      assert (kept = []) as ->; [|done].
      apply filter_none. eapply Forall_impl; [exact Hall|].
      intros piece Hpiece. simpl in *. rewrite Hpiece.
      by intros ?%str_truthy_true.
Qed.

(** X7: a comma-separated list of names that are non-empty, without
    blanks at their ends and without commas parses back to exactly those
    names. *)
Theorem parse_csv_set_join (names : list string) :
  names ≠ [] →
  Forall (λ name, name ≠ "" ∧ Py.strip name = name
                  ∧ none_of (is_sep ",") name = true) names →
  parse_csv_set (Some (Py.join "," names)) = Some (list_to_set names).
Proof.
  intros Hne Hall. unfold parse_csv_set.
  rewrite split_join; [|done|by eapply Forall_impl; [exact Hall|naive_solver]].
  assert (filter (λ x, str_truthy (Py.strip x) = true) names = names) as ->.
  { clear Hne. induction Hall as [|name names (Hname & Hstrip & _) _ IH]; [done|].
    rewrite filter_cons, decide_True, IH; [done|].
    rewrite Hstrip. by apply str_truthy_true. }
  assert (Py.strip <$> names = names) as ->.
  { clear Hne. induction Hall as [|name names (_ & Hstrip & _) _ IH]; [done|].
    csimpl. by rewrite Hstrip, IH. }
  by rewrite bool_decide_eq_false_2.
Qed.

Lemma parse_csv_set_join_witness :
  parse_csv_set (Some (Py.join "," ["Sheet1"; "Q3 totals"]))
  = Some (list_to_set ["Sheet1"; "Q3 totals"]).
Proof.
  apply (parse_csv_set_join ["Sheet1"; "Q3 totals"]); [discriminate|].
  repeat constructor; try discriminate; reflexivity.
Defined.

(** ** Column letters and coordinates *)

(** Checked column by column, A to ZZZ. *)
Lemma columns_read_back : forallb column_reads_back (seqZ 1 18278) = true.
Proof. vm_compute. reflexivity. Qed.

Lemma get_column_letter_spec (c : Z) :
  1 ≤ c ≤ 18278 →
  ∃ s, Xl.get_column_letter c = Some s
       ∧ Xl.column_index_from_string s = Some c
       ∧ none_of (λ ch, negb (is_upper ch)) s = true.
Proof.
  intros Hc. pose proof columns_read_back as Hall.
  rewrite forallb_forall in Hall.
  assert (column_reads_back c = true) as Hok.
  { apply Hall, list_elem_of_In, elem_of_seqZ. lia. }
  unfold column_reads_back in Hok.
  destruct (Xl.get_column_letter c) as [s|]; [|done].
  apply andb_true_iff in Hok as [Hback%bool_decide_eq_true Hupper].
  by exists s.
Qed.

Lemma get_column_letter_inj (c c' : Z) (s : string) :
  Xl.get_column_letter c = Some s → Xl.get_column_letter c' = Some s → c = c'.
Proof.
  intros Hc Hc'.
  destruct (get_column_letter_spec c) as (s1 & Hs1 & Hback & _).
  { apply get_column_letter_is_Some. by eexists. }
  destruct (get_column_letter_spec c') as (s2 & Hs2 & Hback' & _).
  { apply get_column_letter_is_Some. by eexists. }
  congruence.
Qed.

Lemma take_upper_append (letters rest : string) :
  none_of (λ ch, negb (is_upper ch)) letters = true →
  take_upper rest = "" →
  take_upper (letters +:+ rest) = letters.
Proof.
  intros Hletters Hrest. induction letters as [|c s IH]; [done|].
  simpl in Hletters. apply andb_true_iff in Hletters as [Hc Hs].
  rewrite negb_involutive in Hc. rewrite append_cons. simpl.
  by rewrite Hc, IH.
Qed.

(** No integer's decimal form starts with a letter. *)
Lemma take_upper_pretty (z : Z) : take_upper (pretty z) = "".
Proof.
  destruct z as [|p|p]; [done|..].
  - destruct (pretty_nonneg (Z.pos p)) as (_ & Hdigits & _); [lia|].
    destruct (pretty (Z.pos p)) as [|c s]; [done|]. simpl in *.
    apply andb_true_iff in Hdigits as [Hc _].
    rewrite negb_involutive in Hc.
    assert (is_upper c = false) as ->; [|done].
    revert Hc. by destruct c as [[] [] [] [] [] [] [] []].
  - done.
Qed.

(** X8: two coordinates with the same name are the same coordinate. *)
Theorem cell_coord_injective (row row' col col' : Z) (name : string) :
  cell_coord row col = Some name → cell_coord row' col' = Some name →
  row = row' ∧ col = col'.
Proof.
  unfold cell_coord. intros Hname Hname'.
  destruct (Xl.get_column_letter col) as [letters|] eqn:Hcol; [|done].
  destruct (Xl.get_column_letter col') as [letters'|] eqn:Hcol'; [|done].
  simpl in *. injection Hname as <-. injection Hname' as Heq.
  destruct (get_column_letter_spec col) as (? & Hs & _ & Hupper).
  { apply get_column_letter_is_Some. by eexists. }
  destruct (get_column_letter_spec col') as (? & Hs' & _ & Hupper').
  { apply get_column_letter_is_Some. by eexists. }
  simplify_eq.
  assert (letters' = letters) as ->.
  { rewrite <- (take_upper_append letters' (pretty row')),
      <- (take_upper_append letters (pretty row));
      auto using take_upper_pretty. by rewrite Heq. }
  split.
  - by apply (inj (String.app letters)), (inj pretty) in Heq.
  - by eapply get_column_letter_inj.
Qed.

Lemma cell_coord_injective_witness : 5 = 5 ∧ 28 = 28.
Proof.
  apply (cell_coord_injective 5 5 28 28 "AB5"); reflexivity.
Defined.

(** ** The used bounds of a sheet *)

Lemma split_once_append (sep : ascii) (before after : string) :
  none_of (is_sep sep) before = true →
  Py.split_once sep (before +:+ String sep after) = Some (before, after).
Proof.
  induction before as [|c s IH]; simpl.
  - intros _. by rewrite bool_decide_eq_true_2.
  - intros [Hc Hs]%andb_true_iff.
    unfold is_sep in Hc. apply negb_true_iff, bool_decide_eq_false in Hc.
    rewrite bool_decide_eq_false_2 by done. by rewrite IH.
Qed.

Lemma filter_chars_append (p : ascii → bool) (s t : string) :
  Py.filter_chars p (s +:+ t) = Py.filter_chars p s +:+ Py.filter_chars p t.
Proof.
  induction s as [|c s IH]; [done|]. rewrite append_cons. simpl.
  destruct (p c); by rewrite IH.
Qed.

Lemma filter_chars_all (p : ascii → bool) (s : string) :
  none_of (λ c, negb (p c)) s = true → Py.filter_chars p s = s.
Proof.
  induction s as [|c s IH]; [done|]. simpl.
  intros [Hc Hs]%andb_true_iff. rewrite negb_involutive in Hc.
  by rewrite Hc, IH.
Qed.

Lemma filter_chars_none (p : ascii → bool) (s : string) :
  none_of p s = true → Py.filter_chars p s = "".
Proof.
  induction s as [|c s IH]; [done|]. simpl.
  intros [Hc Hs]%andb_true_iff. apply negb_true_iff in Hc.
  by rewrite Hc, IH.
Qed.

Lemma upper_char (c : ascii) :
  is_upper c = true →
  Py.isalpha c = true ∧ Py.isdigit c = false ∧ is_sep ":" c = false.
Proof. by destruct c as [[] [] [] [] [] [] [] []]. Qed.

Lemma digit_char (c : ascii) :
  is_ascii_digit c = true →
  Py.isdigit c = true ∧ Py.isalpha c = false ∧ is_sep ":" c = false.
Proof. by destruct c as [[] [] [] [] [] [] [] []]. Qed.

Lemma list_min_lower (d lo : Z) (l : list Z) :
  lo ≤ d → Forall (λ x, lo ≤ x) l → lo ≤ Xl.list_min d l.
Proof.
  intros Hd [|x l' Hx Hl']; simpl; [done|].
  induction Hl' as [|y l'' Hy Hl'' IH]; simpl; lia.
Qed.

(** The corner [calculate_dimension] writes reads back. *)
Lemma parse_dimension_corners (lo hi : string) (min_r max_r max_c : Z) :
  none_of (λ ch, negb (is_upper ch)) lo = true →
  none_of (λ ch, negb (is_upper ch)) hi = true →
  Xl.column_index_from_string hi = Some max_c →
  0 ≤ min_r → 0 ≤ max_r →
  parse_dimension (lo +:+ pretty min_r +:+ ":" +:+ hi +:+ pretty max_r)
  = Some (max_r, max_c).
Proof.
  intros Hlo Hhi Hback Hmin Hmax.
  destruct (pretty_nonneg min_r Hmin) as (_ & Hmin_digits & _).
  destruct (pretty_nonneg max_r Hmax) as (Hne & Hmax_digits & Hint).
  unfold parse_dimension.
  rewrite <- (append_assoc lo (pretty min_r)).
  change (":" +:+ hi +:+ pretty max_r) with (String ":" (hi +:+ pretty max_r)).
  rewrite split_once_append.
  2:{ rewrite none_of_append. apply andb_true_iff. split.
      - eapply none_of_impl; [|exact Hlo]. intros c Hc. simpl.
        destruct (is_upper c) eqn:Hu; [|done].
        apply upper_char in Hu as (_ & _ & Hu). by rewrite Hu in Hc.
      - eapply none_of_impl; [|exact Hmin_digits]. intros c Hc. simpl.
        destruct (is_ascii_digit c) eqn:Hd; [|done].
        apply digit_char in Hd as (_ & _ & Hd). by rewrite Hd in Hc. }
  rewrite !filter_chars_append.
  rewrite (filter_chars_all Py.isalpha hi).
  2:{ eapply none_of_impl; [|exact Hhi]. intros c Hc. simpl.
      destruct (is_upper c) eqn:Hu; [|done].
      apply upper_char in Hu as (Hu & _). by rewrite Hu in Hc. }
  rewrite (filter_chars_none Py.isalpha (pretty max_r)).
  2:{ eapply none_of_impl; [|exact Hmax_digits]. intros c Hc. simpl.
      destruct (is_ascii_digit c) eqn:Hd; [|done].
      apply digit_char in Hd as (_ & Hd & _). by rewrite Hd in Hc. }
  rewrite (filter_chars_none Py.isdigit hi).
  2:{ eapply none_of_impl; [|exact Hhi]. intros c Hc. simpl.
      destruct (is_upper c) eqn:Hu; [|done].
      apply upper_char in Hu as (_ & Hu & _). by rewrite Hu in Hc. }
  rewrite (filter_chars_all Py.isdigit (pretty max_r)).
  2:{ eapply none_of_impl; [|exact Hmax_digits]. intros c Hc. simpl.
      destruct (is_ascii_digit c) eqn:Hd; [|done].
      apply digit_char in Hd as (Hd & _). by rewrite Hd in Hc. }
  rewrite append_nil_r.
  change ("" +:+ pretty max_r) with (pretty max_r).
  assert (hi ≠ "") as Hhi_ne by (by intros ->).
  rewrite !bool_decide_eq_false_2 by done. cbv iota.
  by rewrite Hback, Hint.
Qed.

(** X9: on a sheet whose cells sit at rows from 1 and columns from A to
    ZZZ, the used bounds are the largest row and the largest column that
    hold a cell, (1, 1) when there is none: the dimension string always
    parses, and the fallback is never taken. *)
Theorem sheet_used_bounds_exact (ws : Xl.Worksheet) :
  well_placed ws →
  sheet_used_bounds ws = Some (Xl.ws_max_row ws, Xl.ws_max_column ws)
  ∧ ∃ dim, Xl.calculate_dimension ws = Some dim
           ∧ parse_dimension dim
             = Some (Xl.ws_max_row ws, Xl.ws_max_column ws).
Proof.
  intros Hplaced.
  cut (∃ dim, Xl.calculate_dimension ws = Some dim
              ∧ parse_dimension dim
                = Some (Xl.ws_max_row ws, Xl.ws_max_column ws)).
  { intros (dim & Hdim & Hparse). split; [|by exists dim].
    unfold sheet_used_bounds. rewrite Hdim. simpl. by rewrite Hparse. }
  unfold Xl.calculate_dimension, Xl.ws_max_row, Xl.ws_max_column.
  case_bool_decide as Hcells.
  { exists "A1:A1". split; [done|].
    unfold Xl.rows_of, Xl.cols_of. rewrite Hcells, dom_empty_L, elements_empty.
    by vm_compute. }
  assert (Forall (λ c, 1 ≤ c ≤ 18278) (Xl.cols_of ws)) as Hcols.
  { unfold Xl.cols_of. rewrite Forall_fmap, Forall_forall.
    intros [r c] [x Hx]%elem_of_elements%elem_of_dom. simpl.
    by destruct (Hplaced _ _ Hx). }
  assert (Forall (λ r, 1 ≤ r) (Xl.rows_of ws)) as Hrows.
  { unfold Xl.rows_of. rewrite Forall_fmap, Forall_forall.
    intros [r c] [x Hx]%elem_of_elements%elem_of_dom. simpl.
    by destruct (Hplaced _ _ Hx). }
  destruct (get_column_letter_spec (Xl.list_min 1 (Xl.cols_of ws)))
    as (lo & -> & _ & Hlo); [by apply list_min_bounds|].
  destruct (get_column_letter_spec (Xl.list_max 1 (Xl.cols_of ws)))
    as (hi & -> & Hback & Hhi); [by apply list_max_bounds|].
  simpl. eexists. split; [done|].
  apply parse_dimension_corners; try done.
  - pose proof (list_min_lower 1 1 (Xl.rows_of ws) ltac:(lia) Hrows). lia.
  - pose proof (list_max_lower 1 1 (Xl.rows_of ws) ltac:(lia) Hrows). lia.
Qed.

Lemma sheet_used_bounds_exact_witness :
  sheet_used_bounds new_S1
  = Some (Xl.ws_max_row new_S1, Xl.ws_max_column new_S1)
  ∧ ∃ dim, Xl.calculate_dimension new_S1 = Some dim
           ∧ parse_dimension dim
             = Some (Xl.ws_max_row new_S1, Xl.ws_max_column new_S1).
Proof.
  apply (sheet_used_bounds_exact new_S1).
  apply (bool_decide_unpack _). vm_compute. exact I.
Defined.

(** ** The cell diff engine, further *)

(** X10: [merged_non_anchors] returns, as its docstring says, the
    coordinates that are part of a merged range but not its top-left
    anchor, and no other. *)
Theorem merged_non_anchors_exact (ws : Xl.Worksheet) (r c : Z) :
  (r, c) ∈ merged_non_anchors ws
  ↔ ∃ mr, mr ∈ Xl.merged_cells ws ∧ non_anchor_member mr r c.
Proof. apply elem_of_merged_non_anchors. Qed.

(** X11: the diff yields a coordinate with a status exactly when the
    coordinate lies within the union of the used bounds, is a non-anchor
    member of no merged range of either sheet, and its two raw values
    classify to that status: nothing that differs is missed. *)
Theorem diff_yields_exactly_the_classified
    (base_ws new_ws : Xl.Worksheet) (tolerance : float)
    (trim_whitespace case_insensitive : bool)
    (ds : list (Z * Z * string))
    (base_max_r base_max_c new_max_r new_max_c r c : Z) (st : string) :
  iter_diff_cells base_ws new_ws tolerance trim_whitespace case_insensitive
  = Some ds →
  sheet_used_bounds base_ws = Some (base_max_r, base_max_c) →
  sheet_used_bounds new_ws = Some (new_max_r, new_max_c) →
  (r, c, st) ∈ ds
  ↔ 1 ≤ r ≤ Z.max base_max_r new_max_r
    ∧ 1 ≤ c ≤ Z.max base_max_c new_max_c
    ∧ (∀ mr, mr ∈ Xl.merged_cells base_ws ∨ mr ∈ Xl.merged_cells new_ws →
             ¬ non_anchor_member mr r c)
    ∧ classify (Xl.cell_value base_ws r c) (Xl.cell_value new_ws r c)
        tolerance trim_whitespace case_insensitive = Some st.
Proof.
  intros Hds Hb Hn.
  rewrite (elem_of_iter_diff_cells _ _ _ _ _ _ _ _ _ _ Hds Hb Hn).
  rewrite !elem_of_merged_non_anchors. naive_solver.
Qed.

Lemma diff_yields_exactly_the_classified_witness :
  (4, 3, "added") ∈ [(1, 1, "changed"); (3, 2, "removed"); (4, 3, "added")]
  ↔ 1 ≤ 4 ≤ Z.max 3 4
    ∧ 1 ≤ 3 ≤ Z.max 2 4
    ∧ (∀ mr, mr ∈ Xl.merged_cells base_S1 ∨ mr ∈ Xl.merged_cells new_S1 →
             ¬ non_anchor_member mr 4 3)
    ∧ classify (Xl.cell_value base_S1 4 3) (Xl.cell_value new_S1 4 3)
        zero false false = Some "added".
Proof.
  apply (diff_yields_exactly_the_classified base_S1 new_S1 zero false false
           [(1, 1, "changed"); (3, 2, "removed"); (4, 3, "added")]
           3 2 4 4 4 3 "added"); vm_compute; reflexivity.
Defined.

Lemma row_major_NoDup (ds : list (Z * Z * string)) :
  StronglySorted row_major ds → NoDup (fst <$> ds).
Proof.
  induction 1 as [|d ds Hds IH Hall]; csimpl; constructor; [|done].
  intros (d' & Heq & Hin)%list_elem_of_fmap.
  rewrite Forall_forall in Hall. specialize (Hall d' Hin).
  unfold row_major in Hall. rewrite Heq in Hall. lia.
Qed.

Lemma classify_status (a b : value) (tolerance : float)
    (trim_whitespace case_insensitive : bool) (st : string) :
  classify a b tolerance trim_whitespace case_insensitive = Some st →
  st = "added" ∨ st = "removed" ∨ st = "changed".
Proof.
  unfold classify. repeat case_match; naive_solver.
Qed.

(** X12: the diff yields each coordinate at most once, and only with the
    status 'added', 'removed' or 'changed'. *)
Theorem diff_yields_each_coordinate_once
    (base_ws new_ws : Xl.Worksheet) (tolerance : float)
    (trim_whitespace case_insensitive : bool)
    (ds : list (Z * Z * string)) :
  iter_diff_cells base_ws new_ws tolerance trim_whitespace case_insensitive
  = Some ds →
  NoDup (fst <$> ds)
  ∧ ∀ d, d ∈ ds → d.2 = "added" ∨ d.2 = "removed" ∨ d.2 = "changed".
Proof.
  intros Hds. split.
  - by eapply row_major_NoDup, iter_diff_cells_row_major.
  - pose proof Hds as (br & bc & nr & nc & Hb & Hn & _)%iter_diff_cells_Some.
    intros [[r c] st] Hin.
    apply (elem_of_iter_diff_cells _ _ _ _ _ _ _ _ _ _ Hds Hb Hn) in Hin.
    destruct Hin as (_ & _ & _ & _ & Hclass).
    by eapply classify_status.
Qed.

Lemma diff_yields_each_coordinate_once_witness :
  NoDup (fst <$> [(1, 1, "changed"); (3, 2, "removed"); (4, 3, "added")])
  ∧ ∀ d, d ∈ [(1, 1, "changed"); (3, 2, "removed"); (4, 3, "added")] →
         d.2 = "added" ∨ d.2 = "removed" ∨ d.2 = "changed".
Proof.
  apply (diff_yields_each_coordinate_once base_S1 new_S1 zero false false).
  vm_compute. reflexivity.
Defined.





Lemma is_empty_classify_swap (a b : value) (tolerance : float)
    (trim_whitespace case_insensitive : bool) :
  classify b a tolerance trim_whitespace case_insensitive
  = swap_status <$> classify a b tolerance trim_whitespace case_insensitive.
Proof.
  unfold classify. rewrite (equal_values_sym b a).
  destruct (is_empty a), (is_empty b); try done.
  by destruct (equal_values _ _ _ _ _).
Qed.

(** X14: exchanging the two sheets exchanges 'added' and 'removed' and
    changes nothing else: the same coordinates are yielded, in the same
    order, and 'changed' stays 'changed'. *)
Theorem diff_of_exchanged_sheets (base_ws new_ws : Xl.Worksheet)
    (tolerance : float) (trim_whitespace case_insensitive : bool) :
  iter_diff_cells new_ws base_ws tolerance trim_whitespace case_insensitive
  = (λ ds : list (Z * Z * string), swap_sides <$> ds)
      <$> iter_diff_cells base_ws new_ws tolerance trim_whitespace
            case_insensitive.
Proof.
  unfold iter_diff_cells.
  destruct (sheet_used_bounds base_ws) as [[br bc]|],
    (sheet_used_bounds new_ws) as [[nr nc]|]; simpl; try done.
  f_equal. rewrite (Z.max_comm nr br), (Z.max_comm nc bc).
  generalize (Py.range 1 (Z.max br nr + 1)) (Py.range 1 (Z.max bc nc + 1)).
  intros rows cols.
  induction rows as [|r rows IH]; csimpl; [done|].
  rewrite fmap_app, <- IH. f_equal. clear IH.
  induction cols as [|c cols IH]; csimpl; [done|].
  rewrite fmap_app, <- IH. f_equal. clear IH.
  rewrite !diff_cell_classify, is_empty_classify_swap.
  rewrite (bool_decide_ext _ ((r, c) ∈ merged_non_anchors base_ws
                              ∨ (r, c) ∈ merged_non_anchors new_ws))
    by naive_solver.
  case_bool_decide; [done|]. by destruct (classify _ _ _ _ _).
Qed.

(** ** The summary builder, further *)

(** X15: for any requested name [ensure_unique_sheet_name] returns, and
    returns a name no sheet carries: the requested one when it is free,
    else the requested one suffixed with the least integer from 1 that
    makes it free. *)
Theorem ensure_unique_sheet_name_contract (wb : Xl.Workbook) (name : string) :
  ∃ title,
    ensure_unique_sheet_name wb name = Some title
    ∧ (title ∉ Xl.sheetnames wb)
    ∧ (name ∉ Xl.sheetnames wb → title = name)
    ∧ (name ∈ Xl.sheetnames wb →
       ∃ i, 1 ≤ i ∧ title = suffixed name i
            ∧ ∀ k, 1 ≤ k < i → suffixed name k ∈ Xl.sheetnames wb).
Proof. apply ensure_unique_sheet_name_spec. Qed.

Lemma lookup_fill_summary (diffs : list DiffRecord) (title : string) (r c : Z) :
  (fill_summary diffs (Xl.empty_sheet title)).2 = Some () →
  Xl.cells (fill_summary diffs (Xl.empty_sheet title)).1 !! (r, c)
  = summary_cell r
      <$> table_cell (headers :: (stored_row <$> diffs)) 0 r c.
Proof.
  intros Hend.
  destruct (fill_summary_rows diffs (Xl.empty_sheet title))
    as (ws1 & Hrows & _ & Hfilled).
  destruct (Hfilled Hend) as (-> & _ & _). rewrite Hend in Hrows.
  destruct (append_rows_returns _ _ _ Hrows) as (_ & _ & _ & _ & _ & ->).
  assert ((λ vs : list value, stored <$> vs)
            <$> (headers :: (summary_row <$> diffs))
          = headers :: (stored_row <$> diffs)) as ->.
  { rewrite fmap_cons, <- list_fmap_compose. reflexivity. }
  simpl. destruct (table_cell _ 0 r c) as [v|]; simpl; [|done].
  unfold summary_cell, Xl.new_cell. simpl.
  destruct (Z.eqb_spec r 1) as [->|Hr].
  - by rewrite bool_decide_eq_true_2.
  - by rewrite bool_decide_eq_false_2.
Qed.

(** X16: [add_summary_sheet] puts one new sheet in front of the others
    and ends without raising exactly when every value of every record
    is one a cell takes (any value that is no text, and text with none
    of the control characters a cell refuses among the 32767 characters
    it keeps); otherwise it raises, the sheet left as far as it was
    written.  When it ends, the summary sheet is the table of the
    differences and nothing else: row 1 holds the five headers, in
    bold; row i+2 holds the sheet, cell, status, old and new value of
    the i-th record, in the order of the records, each text cut to the
    32767 characters a cell holds; no other cell exists, and no cell is
    filled.  Its panes are frozen under the header and its filter spans
    the rows written, one more than there are records. *)
Theorem summary_sheet_is_the_table_of_records (wb_out : Xl.Workbook)
    (diffs : list DiffRecord) :
  ∃ summary ended,
    add_summary_sheet wb_out diffs = (Xl.Ws summary :: wb_out, ended)
    ∧ (ended = Some () ↔ Forall storable_record diffs)
    ∧ (ended = Some () →
       (∀ r c, Xl.cells summary !! (r, c)
               = summary_cell r
                   <$> table_cell (headers :: (stored_row <$> diffs)) 0 r c)
       ∧ (∀ r c, is_Some (Xl.cells summary !! (r, c))
                 ↔ 1 ≤ r ≤ Z.of_nat (length diffs) + 1 ∧ 1 ≤ c ≤ 5)
       ∧ (∀ i d, diffs !! i = Some d →
                 Xl.cell_value summary (Z.of_nat i + 2) 1
                 = VStr (Py.slice_to 32767 (sheet d))
                 ∧ Xl.cell_value summary (Z.of_nat i + 2) 2
                   = VStr (Py.slice_to 32767 (cell d))
                 ∧ Xl.cell_value summary (Z.of_nat i + 2) 3
                   = VStr (Py.slice_to 32767 (status d))
                 ∧ Xl.cell_value summary (Z.of_nat i + 2) 4 = stored (old d)
                 ∧ Xl.cell_value summary (Z.of_nat i + 2) 5 = stored (new d))
       ∧ Xl.freeze_panes summary = Some "A2"
       ∧ Xl.auto_filter_ref summary
         = Some ("A1:E" +:+ pretty (Z.of_nat (length diffs) + 1))).
Proof.
  destruct (add_summary_sheet_spec wb_out diffs) as (title & _ & _ & _ & Hadd).
  set (name := Xl.avoid_duplicate_name (Xl.sheetnames wb_out) title) in Hadd.
  exists (fill_summary diffs (Xl.empty_sheet name)).1,
         (fill_summary diffs (Xl.empty_sheet name)).2.
  split; [done|]. split; [apply fill_summary_ends|]. intros Hend.
  split; [intros r c; by apply lookup_fill_summary|]. split; [|split].
  - intros r c. rewrite lookup_fill_summary by done.
    rewrite fmap_is_Some. unfold table_cell.
    case_bool_decide as Hrc.
    + destruct (decide (r = 1)) as [->|Hr].
      * simpl. rewrite lookup_lt_is_Some. simpl. lia.
      * replace (Z.to_nat (r - 0 - 1)) with (S (Z.to_nat (r - 2))) by lia.
        simpl. rewrite list_lookup_fmap.
        destruct (diffs !! Z.to_nat (r - 2)) as [d|] eqn:Hd; simpl.
        -- apply lookup_lt_Some in Hd. rewrite lookup_lt_is_Some.
           unfold stored_row, summary_row. simpl. lia.
        -- apply lookup_ge_None in Hd. split; [by intros [? ?]|lia].
    + split; [by intros [? ?]|lia].
  - intros i d Hd. unfold Xl.cell_value.
    rewrite !lookup_fill_summary by done. unfold table_cell.
    rewrite !bool_decide_eq_true_2 by lia.
    replace (Z.to_nat (Z.of_nat i + 2 - 0 - 1)) with (S i) by lia.
    simpl. rewrite list_lookup_fmap, Hd. simpl. done.
  - destruct (fill_summary_rows diffs (Xl.empty_sheet name))
      as (ws1 & _ & _ & Hfilled).
    by destruct (Hfilled Hend) as (_ & ? & ? & _).
Qed.

(** ** The output workbook *)

Lemma modify_absent (s : string) (f : Xl.Worksheet → Xl.Worksheet)
    (wb : Xl.Workbook) :
  s ∉ Xl.sheetnames wb → Xl.modify s f wb = wb.
Proof.
  unfold Xl.sheetnames. induction wb as [|[w|c] wb IH]; csimpl; [done| |].
  - intros Hs. apply not_elem_of_cons in Hs as [Hw Hs].
    rewrite bool_decide_eq_false_2 by done. by rewrite IH.
  - intros Hs. apply not_elem_of_cons in Hs as [Hw Hs]. by rewrite IH.
Qed.

Lemma modify_id (s : string) (f : Xl.Worksheet → Xl.Worksheet)
    (wb : Xl.Workbook) :
  (∀ ws, f ws = ws) → Xl.modify s f wb = wb.
Proof.
  intros Hf. induction wb as [|[w|c] wb IH]; simpl; [done| |by rewrite IH].
  case_bool_decide; [by rewrite Hf|by rewrite IH].
Qed.

Lemma modify_modify (s : string) (f g : Xl.Worksheet → Xl.Worksheet)
    (wb : Xl.Workbook) :
  (∀ ws, Xl.title (g ws) = Xl.title ws) →
  Xl.modify s f (Xl.modify s g wb) = Xl.modify s (λ ws, f (g ws)) wb.
Proof.
  intros Hg. induction wb as [|[w|c] wb IH]; simpl; [done| |by rewrite IH].
  case_bool_decide as Hw; simpl.
  - by rewrite bool_decide_eq_true_2 by (by rewrite Hg).
  - rewrite bool_decide_eq_false_2 by done. by rewrite IH.
Qed.

Lemma chartsheets_modify (s : string) (f : Xl.Worksheet → Xl.Worksheet)
    (wb : Xl.Workbook) :
  Xl.chartsheets (Xl.modify s f wb) = Xl.chartsheets wb.
Proof.
  unfold Xl.chartsheets.
  induction wb as [|[w|c] wb IH]; simpl; [done| |by rewrite IH].
  case_bool_decide; simpl; [done|apply IH].
Qed.

Lemma find_worksheets_modify (s s' : string)
    (f : Xl.Worksheet → Xl.Worksheet) (wb : Xl.Workbook) :
  (∀ ws, Xl.title (f ws) = Xl.title ws) →
  find (λ sh, bool_decide (Xl.sheet_title sh = s'))
    (Xl.worksheets (Xl.modify s f wb))
  = if bool_decide (s = s')
    then on_worksheet f
           <$> find (λ sh, bool_decide (Xl.sheet_title sh = s'))
                 (Xl.worksheets wb)
    else find (λ sh, bool_decide (Xl.sheet_title sh = s')) (Xl.worksheets wb).
Proof.
  intros Hf. unfold Xl.worksheets.
  induction wb as [|[w|c] wb IH]; simpl; [by case_bool_decide| |apply IH].
  destruct (decide (Xl.title w = s)) as [Hw|Hw].
  - rewrite (bool_decide_eq_true_2 (Xl.title w = s)) by done. simpl.
    rewrite Hf. subst s.
    destruct (decide (Xl.title w = s')) as [Hs'|Hs'].
    + by rewrite !bool_decide_eq_true_2.
    + by rewrite !bool_decide_eq_false_2.
  - rewrite (bool_decide_eq_false_2 (Xl.title w = s)) by done. simpl.
    destruct (decide (Xl.title w = s')) as [Hs'|Hs'].
    + rewrite (bool_decide_eq_true_2 (Xl.title w = s')) by done.
      by rewrite bool_decide_eq_false_2 by congruence.
    + rewrite (bool_decide_eq_false_2 (Xl.title w = s')) by done. apply IH.
Qed.

(** Mutating the worksheet titled [s] shows in what the workbook gives
    under [s], and under no other name. *)
Lemma getitem_modify (s s' : string) (f : Xl.Worksheet → Xl.Worksheet)
    (wb : Xl.Workbook) :
  (∀ ws, Xl.title (f ws) = Xl.title ws) →
  Xl.getitem (Xl.modify s f wb) s'
  = if bool_decide (s = s') then on_worksheet f <$> Xl.getitem wb s'
    else Xl.getitem wb s'.
Proof.
  intros Hf. unfold Xl.getitem.
  rewrite !find_app, chartsheets_modify, find_worksheets_modify by done.
  case_bool_decide as Hs; [|done].
  destruct (find _ (Xl.worksheets wb)) as [sh|]; simpl; [done|].
  destruct (find _ (Xl.chartsheets wb)) as [sh|] eqn:Hsh; simpl; [|done].
  apply find_Some_elem in Hsh as [_ Hin].
  unfold Xl.chartsheets in Hin.
  apply list_elem_of_In, filter_In in Hin as [_ Hkind].
  by destruct sh.
Qed.

Lemma same_content_refl (ws : Xl.Worksheet) : same_content ws ws.
Proof. by repeat split. Qed.

Lemma same_content_trans (a b c : Xl.Worksheet) :
  same_content a b → same_content b c → same_content a c.
Proof.
  intros (? & ? & ? & ? & ? & Hab) (? & ? & ? & ? & ? & Hbc).
  repeat split; try congruence; intros r k; by rewrite Hab.
Qed.

Lemma same_sheet_refl (sh : Xl.Sheet) : same_sheet sh sh.
Proof. destruct sh; simpl; [apply same_content_refl|done]. Qed.

Lemma same_sheet_trans (a b c : Xl.Sheet) :
  same_sheet a b → same_sheet b c → same_sheet a c.
Proof.
  destruct a, b, c; simpl; try done; [apply same_content_trans|congruence].
Qed.

Lemma same_sheets_refl (wb : Xl.Workbook) : Forall2 same_sheet wb wb.
Proof.
  apply Forall_Forall2_diag, Forall_forall. intros ? _. apply same_sheet_refl.
Qed.

Lemma same_sheet_modify (s : string) (f : Xl.Worksheet → Xl.Worksheet)
    (wb : Xl.Workbook) :
  (∀ ws, same_content (f ws) ws) →
  Forall2 same_sheet (Xl.modify s f wb) wb.
Proof.
  intros Hf. induction wb as [|[w|c] wb IH]; simpl; [constructor| |].
  - case_bool_decide; constructor; simpl;
      auto using same_content_refl, same_sheets_refl.
  - by constructor.
Qed.

(** *** What one highlight does to a sheet *)

Lemma same_content_touch (r c : Z) (ws : Xl.Worksheet) :
  same_content (Xl.touch r c ws) ws.
Proof.
  unfold Xl.touch. destruct (Xl.cells ws !! (r, c)) as [x|] eqn:Hx.
  { apply same_content_refl. }
  repeat split. intros r' c'. unfold Xl.cell_value. simpl.
  destruct (decide ((r, c) = (r', c'))) as [[= <- <-]|Hne].
  - by rewrite lookup_insert_eq, Hx.
  - by rewrite lookup_insert_ne.
Qed.

Lemma fill_at_touch (r c r' c' : Z) (ws : Xl.Worksheet) :
  fill_at (Xl.touch r c ws) r' c' = fill_at ws r' c'.
Proof.
  unfold Xl.touch, fill_at.
  destruct (Xl.cells ws !! (r, c)) as [x|] eqn:Hx; [done|]. simpl.
  destruct (decide ((r, c) = (r', c'))) as [[= <- <-]|Hne].
  - by rewrite lookup_insert_eq, Hx.
  - by rewrite lookup_insert_ne.
Qed.

Lemma same_content_set_fill (r c : Z) (f : Xl.PatternFill)
    (ws : Xl.Worksheet) :
  same_content (Xl.set_fill r c f ws) ws.
Proof.
  apply same_content_trans with (Xl.touch r c ws);
    [|apply same_content_touch].
  unfold Xl.set_fill. repeat split.
  intros r' c'. unfold Xl.cell_value. simpl.
  destruct (decide ((r, c) = (r', c'))) as [[= <- <-]|Hne].
  - rewrite lookup_alter_eq.
    by destruct (Xl.cells (Xl.touch r c ws) !! (r, c)).
  - by rewrite lookup_alter_ne.
Qed.

Lemma fill_at_set_fill (r c r' c' : Z) (f : Xl.PatternFill)
    (ws : Xl.Worksheet) :
  fill_at (Xl.set_fill r c f ws) r' c'
  = if bool_decide ((r, c) = (r', c')) then Some f else fill_at ws r' c'.
Proof.
  rewrite <- (fill_at_touch r c r' c' ws).
  unfold Xl.set_fill, fill_at. simpl. case_bool_decide as Heq.
  - injection Heq as <- <-. rewrite lookup_alter_eq.
    unfold Xl.touch. destruct (Xl.cells ws !! (r, c)) as [x|] eqn:Hx; simpl.
    + by rewrite Hx.
    + by rewrite lookup_insert_eq.
  - by rewrite lookup_alter_ne.
Qed.

Lemma same_content_mark (st : string) (r c : Z) (ws : Xl.Worksheet) :
  same_content (mark st r c ws) ws.
Proof.
  unfold mark. repeat case_bool_decide;
    apply same_content_set_fill || apply same_content_touch.
Qed.

Lemma fill_at_mark (st : string) (r c r' c' : Z) (ws : Xl.Worksheet) :
  fill_at (mark st r c ws) r' c'
  = if bool_decide ((r, c) = (r', c'))
    then match fill_of_status st with
         | Some f => Some f
         | None => fill_at ws r' c'
         end
    else fill_at ws r' c'.
Proof.
  unfold mark, fill_of_status.
  repeat case_bool_decide;
    rewrite ?fill_at_set_fill, ?fill_at_touch;
    repeat case_bool_decide; done.
Qed.

Lemma marked_snoc (ds : list (Z * Z * string)) (d : Z * Z * string)
    (ws : Xl.Worksheet) :
  marked (ds ++ [d]) ws = mark d.2 d.1.1 d.1.2 (marked ds ws).
Proof. unfold marked. by rewrite foldl_app. Qed.

Lemma same_content_marked (ds : list (Z * Z * string)) (ws : Xl.Worksheet) :
  same_content (marked ds ws) ws.
Proof.
  induction ds as [|d ds IH] using rev_ind; [apply same_content_refl|].
  rewrite marked_snoc.
  eapply same_content_trans; [apply same_content_mark|done].
Qed.

Lemma title_marked (ds : list (Z * Z * string)) (ws : Xl.Worksheet) :
  Xl.title (marked ds ws) = Xl.title ws.
Proof. by destruct (same_content_marked ds ws). Qed.

(** A coordinate the list does not hold keeps its fill. *)
Lemma fill_at_marked_out (ds : list (Z * Z * string)) (ws : Xl.Worksheet)
    (r c : Z) :
  (∀ st, (r, c, st) ∉ ds) →
  fill_at (marked ds ws) r c = fill_at ws r c.
Proof.
  induction ds as [|[[r' c'] st'] ds IH] using rev_ind; [done|].
  intros Hout. rewrite marked_snoc, fill_at_mark. simpl.
  rewrite bool_decide_eq_false_2.
  - apply IH. intros st Hin. apply (Hout st), elem_of_app. by left.
  - intros [= -> ->]. apply (Hout st'), elem_of_app. right.
    apply list_elem_of_singleton. done.
Qed.

(** A coordinate the list holds once gets the fill of its status. *)
Lemma fill_at_marked_in (ds : list (Z * Z * string)) (ws : Xl.Worksheet)
    (r c : Z) (st : string) (f : Xl.PatternFill) :
  (r, c, st) ∈ ds →
  (∀ st', (r, c, st') ∈ ds → st' = st) →
  fill_of_status st = Some f →
  fill_at (marked ds ws) r c = Some f.
Proof.
  intros Hin Honce Hf.
  induction ds as [|[[r' c'] st'] ds IH] using rev_ind.
  { by apply elem_of_nil in Hin. }
  rewrite marked_snoc, fill_at_mark. simpl. case_bool_decide as Heq.
  - injection Heq as -> ->.
    rewrite (Honce st') by (apply elem_of_app; right;
                            by apply list_elem_of_singleton).
    by rewrite Hf.
  - apply elem_of_app in Hin as [Hin|Hin%list_elem_of_singleton];
      [|congruence].
    apply IH; [done|]. intros st'' Hin'. apply Honce, elem_of_app. by left.
Qed.

(** *** The loops, as they act on the output workbook *)

Section output.
Variables (base_wb new_wb_values : Xl.Workbook).
Variables (tolerance : float).
Variables (trim_whitespace case_insensitive highlight : bool).

Lemma for_each_record_cell_out (s : string) (base_ws new_ws : Xl.Worksheet)
    (new_ws_out : option Xl.Sheet) (ds : list (Z * Z * string))
    (acc acc' : list DiffRecord * Xl.Workbook) :
  for_each (record_cell s base_ws new_ws highlight new_ws_out) ds acc
  = Some acc' →
  acc'.2 = if highlight && bool_decide (is_Some new_ws_out)
           then Xl.modify s (marked ds) acc.2
           else acc.2.
Proof.
  revert acc. induction ds as [|d ds IH]; intros acc; csimpl.
  { intros [= <-]. destruct (highlight && _); [|done]. by rewrite modify_id. }
  rewrite record_cell_step.
  destruct (cell_level s base_ws new_ws d) as [rec|]; csimpl; [|done].
  destruct highlight, new_ws_out as [[ws|cs]|]; simpl; try done;
    intros Hrest; apply IH in Hrest; rewrite Hrest; simpl; [|done..].
  rewrite modify_modify by apply title_mark. done.
Qed.

Lemma compare_sheet_out (acc acc' : list DiffRecord * Xl.Workbook)
    (s : string) :
  compare_sheet base_wb new_wb_values tolerance trim_whitespace
    case_insensitive highlight acc s = Some acc' →
  ∃ base_ws new_ws ds,
    Xl.getitem base_wb s = Some (Xl.Ws base_ws)
    ∧ Xl.getitem new_wb_values s = Some (Xl.Ws new_ws)
    ∧ iter_diff_cells base_ws new_ws tolerance trim_whitespace
        case_insensitive = Some ds
    ∧ acc'.2 = if highlight then Xl.modify s (marked ds) acc.2 else acc.2.
Proof.
  unfold compare_sheet.
  destruct (Xl.getitem base_wb s) as [base_sh|]; simpl; [|done].
  destruct (Xl.getitem new_wb_values s) as [new_sh|]; simpl; [|done].
  destruct (if bool_decide (s ∈ Xl.sheetnames acc.2)
            then Some <$> Xl.getitem acc.2 s else Some None)
    as [new_ws_out|] eqn:Hout; simpl; [|done].
  destruct base_sh as [base_ws|?]; simpl; [|done].
  destruct new_sh as [new_ws|?]; simpl; [|done].
  destruct (iter_diff_cells _ _ _ _ _) as [ds|] eqn:Hds; simpl; [|done].
  intros Hloop. apply for_each_record_cell_out in Hloop. rewrite Hloop.
  exists base_ws, new_ws, ds.
  do 3 (split; [done|]). destruct highlight; simpl; [|done].
  destruct (decide (s ∈ Xl.sheetnames acc.2)) as [Hs|Hs].
  - rewrite bool_decide_eq_true_2 in Hout by done.
    destruct (Xl.getitem acc.2 s) as [sh|]; simpl in Hout; [|done].
    by injection Hout as <-.
  - rewrite bool_decide_eq_false_2 in Hout by done.
    injection Hout as <-. simpl. by rewrite modify_absent.
Qed.

Lemma for_each_compare_sheet_plain (to_compare : list string)
    (acc acc' : list DiffRecord * Xl.Workbook) :
  highlight = false →
  for_each (compare_sheet base_wb new_wb_values tolerance trim_whitespace
              case_insensitive highlight) to_compare acc = Some acc' →
  acc'.2 = acc.2.
Proof.
  intros Hplain. revert acc.
  induction to_compare as [|s l IH]; intros acc; simpl.
  { by intros [= <-]. }
  destruct (compare_sheet _ _ _ _ _ _ _ _) as [acc1|] eqn:Hs; simpl; [|done].
  apply compare_sheet_out in Hs as (b & n & ds & _ & _ & _ & Hout).
  rewrite Hplain in Hout. intros Hrest%IH. by rewrite Hrest.
Qed.

Lemma for_each_compare_sheet_content (to_compare : list string)
    (acc acc' : list DiffRecord * Xl.Workbook) :
  for_each (compare_sheet base_wb new_wb_values tolerance trim_whitespace
              case_insensitive highlight) to_compare acc = Some acc' →
  Forall2 same_sheet acc'.2 acc.2.
Proof.
  revert acc. induction to_compare as [|s l IH]; intros acc; simpl.
  { intros [= <-]. apply same_sheets_refl. }
  destruct (compare_sheet _ _ _ _ _ _ _ _) as [acc1|] eqn:Hs; simpl; [|done].
  apply compare_sheet_out in Hs as (b & n & ds & _ & _ & _ & Hout).
  intros Hrest%IH. rewrite Hout in Hrest.
  eapply Forall2_trans; [apply same_sheet_trans|done|].
  destruct highlight.
  - apply same_sheet_modify, same_content_marked.
  - apply same_sheets_refl.
Qed.

Lemma for_each_compare_sheet_marks (to_compare : list string)
    (acc acc' : list DiffRecord * Xl.Workbook) (s : string) :
  highlight = true →
  NoDup to_compare →
  for_each (compare_sheet base_wb new_wb_values tolerance trim_whitespace
              case_insensitive highlight) to_compare acc = Some acc' →
  (s ∉ to_compare → Xl.getitem acc'.2 s = Xl.getitem acc.2 s)
  ∧ (s ∈ to_compare →
     ∃ base_ws new_ws ds,
       Xl.getitem base_wb s = Some (Xl.Ws base_ws)
       ∧ Xl.getitem new_wb_values s = Some (Xl.Ws new_ws)
       ∧ iter_diff_cells base_ws new_ws tolerance trim_whitespace
           case_insensitive = Some ds
       ∧ Xl.getitem acc'.2 s
         = on_worksheet (marked ds) <$> Xl.getitem acc.2 s).
Proof.
  intros Hlight. revert acc.
  induction to_compare as [|s1 l IH]; intros acc Hnodup; simpl.
  { intros [= <-]. split; [done|]. by intros ?%elem_of_nil. }
  apply NoDup_cons in Hnodup as [Hs1 Hnodup].
  destruct (compare_sheet _ _ _ _ _ _ _ _) as [acc1|] eqn:Hstep; simpl;
    [|done].
  apply compare_sheet_out in Hstep
    as (base_ws & new_ws & ds & Hb & Hn & Hds & Hout).
  rewrite Hlight in Hout.
  intros Hrest. destruct (IH _ Hnodup Hrest) as [Hnotin Hin].
  rewrite Hout in Hnotin, Hin.
  setoid_rewrite (getitem_modify s1 s (marked ds) acc.2 (title_marked ds))
    in Hnotin.
  setoid_rewrite (getitem_modify s1 s (marked ds) acc.2 (title_marked ds))
    in Hin.
  split.
  - intros [Hne Hs]%not_elem_of_cons.
    rewrite Hnotin by done. by rewrite bool_decide_eq_false_2.
  - intros [->|Hs]%elem_of_cons.
    + exists base_ws, new_ws, ds. do 3 (split; [done|]).
      rewrite Hnotin by done. by rewrite bool_decide_eq_true_2.
    + destruct (Hin Hs) as (b & n & ds' & ? & ? & ? & Hget).
      exists b, n, ds'. do 3 (split; [done|]).
      rewrite Hget. rewrite bool_decide_eq_false_2; [done|].
      by intros ->.
Qed.
End output.

Lemma elem_of_to_compare (base_wb new_wb_values : Xl.Workbook)
    (include_sheets exclude_sheets : option (gset string)) (s : string) :
  s ∈ to_compare_of base_wb new_wb_values include_sheets exclude_sheets
  ↔ passes include_sheets exclude_sheets s = true
    ∧ s ∈ Xl.sheetnames base_wb ∧ s ∈ Xl.sheetnames new_wb_values.
Proof.
  rewrite to_compare_of_spec, list_elem_of_filter, elem_of_sorted,
    elem_of_intersection, !elem_of_list_to_set. done.
Qed.

Lemma NoDup_to_compare (base_wb new_wb_values : Xl.Workbook)
    (include_sheets exclude_sheets : option (gset string)) :
  NoDup (to_compare_of base_wb new_wb_values include_sheets exclude_sheets).
Proof.
  rewrite to_compare_of_spec. apply NoDup_filter. unfold Py.sorted.
  rewrite merge_sort_Permutation. apply NoDup_elements.
Qed.

(** The diff gives a coordinate one status, one with a fill. *)
Lemma diff_status_once (base_ws new_ws : Xl.Worksheet) (tolerance : float)
    (trim_whitespace case_insensitive : bool) (ds : list (Z * Z * string))
    (r c : Z) (st : string) :
  iter_diff_cells base_ws new_ws tolerance trim_whitespace case_insensitive
  = Some ds →
  (r, c, st) ∈ ds →
  classify (Xl.cell_value base_ws r c) (Xl.cell_value new_ws r c)
    tolerance trim_whitespace case_insensitive = Some st
  ∧ is_Some (fill_of_status st)
  ∧ ∀ st', (r, c, st') ∈ ds → st' = st.
Proof.
  intros Hds Hin.
  destruct (proj1 (iter_diff_cells_Some _ _ _ _ _ _) Hds)
    as (br & bc & nr & nc & Hb & Hn & _).
  pose proof (elem_of_iter_diff_cells _ _ _ _ _ _ _ _ _ _ Hds Hb Hn) as Hmem.
  destruct (proj1 (Hmem _ _ _) Hin) as (_ & _ & _ & _ & Hclass).
  split; [done|]. split.
  - destruct (classify_status _ _ _ _ _ _ Hclass) as [-> | [-> | ->] ];
      by eexists.
  - intros st' Hin'.
    destruct (proj1 (Hmem _ _ _) Hin') as (_ & _ & _ & _ & Hclass').
    congruence.
Qed.

(** The run of [compare_workbooks], cut at its loop over the sheets. *)
Lemma compare_workbooks_out
    (base_wb new_wb_values new_wb_out : Xl.Workbook)
    (include_sheets exclude_sheets : option (gset string))
    (tolerance : float)
    (trim_whitespace case_insensitive highlight : bool) (o : Outcome) :
  compare_workbooks base_wb new_wb_values new_wb_out include_sheets
    exclude_sheets tolerance trim_whitespace case_insensitive highlight
  = Some o →
  ∃ diffs0 out title summary,
    for_each (compare_sheet base_wb new_wb_values tolerance trim_whitespace
                case_insensitive highlight)
      (to_compare_of base_wb new_wb_values include_sheets exclude_sheets)
      (diffs0, new_wb_out) = Some (diffs_of o, out)
    ∧ (title ∉ Xl.sheetnames out)
    ∧ fill_summary (diffs_of o) (Xl.empty_sheet title) = (summary, Some ())
    ∧ Xl.title summary = title
    ∧ saved o = Xl.Ws summary :: out.
Proof.
  unfold compare_workbooks. intros Hrun.
  destruct (for_each _ _ _) as [[diffs out]|] eqn:Hloop; simpl in Hrun;
    [|done].
  destruct (add_summary_sheet_spec out diffs)
    as (title & _ & _ & Hfresh & Hadd).
  rewrite Hadd in Hrun.
  pose proof (title_new_summary diffs
                (Xl.avoid_duplicate_name (Xl.sheetnames out) title))
    as Htitle.
  destruct (fill_summary diffs _) as [summary [[]|]] eqn:Hfill;
    simpl in Hrun; [|done].
  injection Hrun as <-. simpl. eexists _, out, _, summary. by split.
Qed.

Lemma current_row_fill_summary (diffs : list DiffRecord)
    (ws ws' : Xl.Worksheet) :
  fill_summary diffs ws = (ws', Some ()) →
  Xl.current_row ws' = Xl.current_row ws + Z.of_nat (length diffs) + 1.
Proof.
  intros Hfill.
  destruct (fill_summary_rows diffs ws) as (ws1 & Hrows & _ & Hfilled).
  rewrite Hfill in Hrows, Hfilled. simpl in Hrows, Hfilled.
  destruct (Hfilled eq_refl) as (_ & _ & _ & ->).
  destruct (append_rows_returns _ _ _ Hrows) as (-> & _).
  simpl. rewrite length_fmap. lia.
Qed.

(** X17: the workbook a run that returns has left to be saved is the
    writable copy of the new workbook behind one more sheet, the
    summary, whose title no sheet of the copy carries.  The sheets of
    the copy, of either kind, keep their order, titles, merged ranges,
    panes, filters, column widths and every cell value; without
    highlighting they are not touched at all.  Every value of every
    record collected is one a cell takes, and the summary is the table
    of the records, one row each, each text cut to the 32767
    characters a cell holds. *)
Theorem saved_workbook_is_the_copy_behind_the_summary
    (base_wb new_wb_values new_wb_out : Xl.Workbook)
    (include_sheets exclude_sheets : option (gset string))
    (tolerance : float)
    (trim_whitespace case_insensitive highlight : bool) (o : Outcome) :
  compare_workbooks base_wb new_wb_values new_wb_out include_sheets
    exclude_sheets tolerance trim_whitespace case_insensitive highlight
  = Some o →
  ∃ summary out,
    saved o = Xl.Ws summary :: out
    ∧ (Xl.title summary ∉ Xl.sheetnames new_wb_out)
    ∧ Xl.sheetnames out = Xl.sheetnames new_wb_out
    ∧ Forall2 same_sheet out new_wb_out
    ∧ (highlight = false → out = new_wb_out)
    ∧ Forall storable_record (diffs_of o)
    ∧ (∀ r c, Xl.cells summary !! (r, c)
              = summary_cell r
                  <$> table_cell (headers :: (stored_row <$> diffs_of o))
                        0 r c)
    ∧ returned o
      = (Z.of_nat (length (to_compare_of base_wb new_wb_values
                             include_sheets exclude_sheets)),
         Xl.current_row summary - 1).
Proof.
  intros Hrun.
  pose proof Hrun
    as (diffs0 & out & title & summary & Hloop & Hfresh & Hfill & Htitle
        & Hsaved)%compare_workbooks_out.
  pose proof (for_each_compare_sheet _ _ _ _ _ _ _ _ _ Hloop)
    as (_ & _ & Hnames & _). simpl in Hnames.
  exists summary, out.
  split; [done|]. rewrite Htitle.
  split; [by rewrite <- Hnames|]. split; [done|].
  split; [by apply (for_each_compare_sheet_content _ _ _ _ _ _ _ _ _ Hloop)|].
  split.
  { intros Hplain.
    by apply (for_each_compare_sheet_plain _ _ _ _ _ _ _ _ _ Hplain Hloop). }
  split.
  { apply (fill_summary_ends _ (Xl.empty_sheet title)). by rewrite Hfill. }
  split.
  { intros r c. pose proof (lookup_fill_summary (diffs_of o) title r c) as Hrc.
    rewrite Hfill in Hrc. by apply Hrc. }
  apply compare_workbooks_diffs in Hrun as (_ & _ & _ & ->).
  rewrite <- to_compare_of_spec. f_equal.
  rewrite (current_row_fill_summary _ _ _ Hfill). simpl. lia.
Qed.

(** X18: with highlighting on, a compared sheet that the copy holds as
    a worksheet is saved with exactly the fills of its differences:
    each coordinate the diff of its two versions yields carries the
    fill of its status (green for 'added', red for 'removed', yellow
    for 'changed'), every other coordinate the fill it had; the cell
    values are those of the copy. *)
Theorem highlights_follow_the_diff
    (base_wb new_wb_values new_wb_out : Xl.Workbook)
    (include_sheets exclude_sheets : option (gset string))
    (tolerance : float)
    (trim_whitespace case_insensitive : bool) (o : Outcome)
    (s : string) (base_ws new_ws ws_out : Xl.Worksheet) :
  compare_workbooks base_wb new_wb_values new_wb_out include_sheets
    exclude_sheets tolerance trim_whitespace case_insensitive true
  = Some o →
  passes include_sheets exclude_sheets s = true →
  Xl.getitem base_wb s = Some (Xl.Ws base_ws) →
  Xl.getitem new_wb_values s = Some (Xl.Ws new_ws) →
  Xl.getitem new_wb_out s = Some (Xl.Ws ws_out) →
  ∃ ds ws',
    iter_diff_cells base_ws new_ws tolerance trim_whitespace case_insensitive
    = Some ds
    ∧ Xl.getitem (saved o) s = Some (Xl.Ws ws')
    ∧ same_content ws' ws_out
    ∧ (∀ r c st, (r, c, st) ∈ ds →
                 is_Some (fill_of_status st)
                 ∧ fill_at ws' r c = fill_of_status st)
    ∧ (∀ r c, (∀ st, (r, c, st) ∉ ds) →
              fill_at ws' r c = fill_at ws_out r c).
Proof.
  intros (diffs0 & out & title & summary & Hloop & Hfresh & _ & Htitle
          & Hsaved)%compare_workbooks_out Hpass Hb Hn Hout.
  destruct (for_each_compare_sheet_marks _ _ _ _ _ _ _ _ _ s eq_refl
              (NoDup_to_compare _ _ _ _) Hloop) as [_ Hin].
  destruct Hin as (base_ws' & new_ws' & ds & Hb' & Hn' & Hds & Hget).
  { apply elem_of_to_compare. split; [done|].
    split; by eapply getitem_sheetnames. }
  simpl in Hget. rewrite Hout in Hget. simpl in Hget.
  assert (base_ws' = base_ws) as -> by congruence.
  assert (new_ws' = new_ws) as -> by congruence.
  exists ds, (marked ds ws_out). split; [done|]. split.
  { rewrite Hsaved. apply getitem_cons_fresh; [|done].
    simpl. by rewrite Htitle. }
  split; [apply same_content_marked|]. split.
  - intros r c st Hin.
    destruct (diff_status_once _ _ _ _ _ _ _ _ _ Hds Hin)
      as (_ & [f Hf] & Honce).
    split; [by eexists|]. rewrite Hf. by eapply fill_at_marked_in.
  - intros r c Hnone. by apply fill_at_marked_out.
Qed.

(** X19: a sheet of the copy, of either kind, that is not compared (it
    fails the filters, or one of the two workbooks compared lacks it)
    is saved as it is, fills included. *)
Theorem sheets_not_compared_are_saved_as_they_are
    (base_wb new_wb_values new_wb_out : Xl.Workbook)
    (include_sheets exclude_sheets : option (gset string))
    (tolerance : float)
    (trim_whitespace case_insensitive highlight : bool) (o : Outcome)
    (s : string) (ws_out : Xl.Sheet) :
  compare_workbooks base_wb new_wb_values new_wb_out include_sheets
    exclude_sheets tolerance trim_whitespace case_insensitive highlight
  = Some o →
  Xl.getitem new_wb_out s = Some ws_out →
  passes include_sheets exclude_sheets s = false
  ∨ (s ∉ Xl.sheetnames base_wb) ∨ (s ∉ Xl.sheetnames new_wb_values) →
  Xl.getitem (saved o) s = Some ws_out.
Proof.
  intros (diffs0 & out & title & summary & Hloop & Hfresh & _ & Htitle
          & Hsaved)%compare_workbooks_out Hout Hskip.
  rewrite Hsaved. apply getitem_cons_fresh; [simpl; by rewrite Htitle|].
  destruct highlight.
  - destruct (for_each_compare_sheet_marks _ _ _ _ _ _ _ _ _ s eq_refl
                (NoDup_to_compare _ _ _ _) Hloop) as [Hnotin _].
    simpl in Hnotin. rewrite Hnotin; [done|].
    rewrite elem_of_to_compare. intros (Hpass & ? & ?).
    destruct Hskip as [Hskip|[?|?]]; [congruence|done..].
  - pose proof (for_each_compare_sheet_plain _ _ _ _ _ _ _ _ _ eq_refl Hloop)
      as Hsame.
    simpl in Hsame. by rewrite Hsame.
Qed.

Lemma saved_workbook_is_the_copy_behind_the_summary_witness :
  ∃ o,
    compare_workbooks base_wb_ex new_wb_ex new_wb_ex None None zero
      false false true = Some o
    ∧ ∃ summary out,
        saved o = Xl.Ws summary :: out
        ∧ (Xl.title summary ∉ Xl.sheetnames new_wb_ex)
        ∧ Xl.sheetnames out = Xl.sheetnames new_wb_ex
        ∧ Forall2 same_sheet out new_wb_ex
        ∧ (true = false → out = new_wb_ex)
        ∧ Forall storable_record (diffs_of o)
        ∧ (∀ r c, Xl.cells summary !! (r, c)
                  = summary_cell r
                      <$> table_cell
                            (headers :: (stored_row <$> diffs_of o)) 0 r c)
        ∧ returned o
          = (Z.of_nat (length (to_compare_of base_wb_ex new_wb_ex None None)),
             Xl.current_row summary - 1).
Proof.
  destruct (compare_workbooks base_wb_ex new_wb_ex new_wb_ex None None zero
              false false true) as [o|] eqn:Hrun.
  - exists o. split; [reflexivity|].
    exact (saved_workbook_is_the_copy_behind_the_summary
             _ _ _ _ _ _ _ _ _ o Hrun).
  - vm_compute in Hrun. discriminate Hrun.
Defined.

Lemma highlights_follow_the_diff_witness :
  ∃ o,
    compare_workbooks base_wb_ex new_wb_ex new_wb_ex None None zero
      false false true = Some o
    ∧ ∃ ds ws',
        iter_diff_cells base_S1 new_S1 zero false false = Some ds
        ∧ Xl.getitem (saved o) "S1" = Some (Xl.Ws ws')
        ∧ same_content ws' new_S1
        ∧ (∀ r c st, (r, c, st) ∈ ds →
                     is_Some (fill_of_status st)
                     ∧ fill_at ws' r c = fill_of_status st)
        ∧ (∀ r c, (∀ st, (r, c, st) ∉ ds) →
                  fill_at ws' r c = fill_at new_S1 r c).
Proof.
  destruct (compare_workbooks base_wb_ex new_wb_ex new_wb_ex None None zero
              false false true) as [o|] eqn:Hrun.
  - exists o. split; [reflexivity|].
    apply (highlights_follow_the_diff _ _ _ _ _ _ _ _ o "S1"
             base_S1 new_S1 new_S1 Hrun); vm_compute; reflexivity.
  - vm_compute in Hrun. discriminate Hrun.
Defined.

Lemma sheets_not_compared_are_saved_as_they_are_witness :
  ∃ o,
    compare_workbooks base_wb_ex new_wb_ex new_wb_ex None None zero
      false false true = Some o
    ∧ Xl.getitem (saved o) "New" = Some (Xl.Ws (Xl.empty_sheet "New")).
Proof.
  destruct (compare_workbooks base_wb_ex new_wb_ex new_wb_ex None None zero
              false false true) as [o|] eqn:Hrun.
  - exists o. split; [reflexivity|].
    apply (sheets_not_compared_are_saved_as_they_are _ _ _ _ _ _ _ _ _ o
             "New" (Xl.Ws (Xl.empty_sheet "New")) Hrun);
      [vm_compute; reflexivity|].
    right. left. apply (bool_decide_unpack _). vm_compute. exact I.
  - vm_compute in Hrun. discriminate Hrun.
Defined.

(** ** The records, one by one *)

Lemma elem_of_cell_records (base_wb new_wb_values : Xl.Workbook)
    (tolerance : float) (trim_whitespace case_insensitive : bool)
    (s : string) (recs : list DiffRecord) (rec : DiffRecord) :
  cell_records_of base_wb new_wb_values tolerance trim_whitespace
    case_insensitive s recs →
  rec ∈ recs →
  ∃ base_ws new_ws ds r c,
    sheet rec = s
    ∧ Xl.getitem base_wb s = Some (Xl.Ws base_ws)
    ∧ Xl.getitem new_wb_values s = Some (Xl.Ws new_ws)
    ∧ iter_diff_cells base_ws new_ws tolerance trim_whitespace
        case_insensitive = Some ds
    ∧ (r, c, status rec) ∈ ds
    ∧ cell_coord r c = Some (cell rec)
    ∧ old rec = Xl.cell_value base_ws r c
    ∧ new rec = Xl.cell_value new_ws r c.
Proof.
  intros (base_ws & new_ws & ds & Hb & Hn & Hds & _ & Hrecs) Hin.
  apply list_elem_of_lookup in Hin as [i Hi].
  destruct (Forall2_lookup_r _ _ _ _ _ Hrecs Hi) as ([[r c] st] & Hd & Hlevel).
  unfold cell_level in Hlevel. simpl in Hlevel.
  destruct (cell_coord r c) as [name|] eqn:Hname; simplify_eq/=.
  exists base_ws, new_ws, ds, r, c.
  repeat split; try done. by eapply list_elem_of_lookup_2.
Qed.

(** X20: no record names a sheet that the filters turn away, and the
    status of a record tells where its sheet is: a 'missing_sheet_new'
    record names a sheet of the base workbook that the new one lacks, a
    'missing_sheet_base' record the reverse, and an 'added', 'removed'
    or 'changed' record a sheet that both hold. *)
Theorem records_name_sheets_that_pass_the_filters
    (base_wb new_wb_values new_wb_out : Xl.Workbook)
    (include_sheets exclude_sheets : option (gset string))
    (tolerance : float)
    (trim_whitespace case_insensitive highlight : bool) (o : Outcome)
    (rec : DiffRecord) :
  compare_workbooks base_wb new_wb_values new_wb_out include_sheets
    exclude_sheets tolerance trim_whitespace case_insensitive highlight
  = Some o →
  rec ∈ diffs_of o →
  passes include_sheets exclude_sheets (sheet rec) = true
  ∧ ((status rec = "missing_sheet_new"
      ∧ sheet rec ∈ Xl.sheetnames base_wb
      ∧ sheet rec ∉ Xl.sheetnames new_wb_values)
     ∨ (status rec = "missing_sheet_base"
        ∧ sheet rec ∈ Xl.sheetnames new_wb_values
        ∧ sheet rec ∉ Xl.sheetnames base_wb)
     ∨ ((status rec = "added" ∨ status rec = "removed"
         ∨ status rec = "changed")
        ∧ sheet rec ∈ Xl.sheetnames base_wb
        ∧ sheet rec ∈ Xl.sheetnames new_wb_values)).
Proof.
  intros (groups & -> & Hgroups & _)%compare_workbooks_diffs.
  rewrite !elem_of_app, !list_elem_of_fmap.
  intros [(s & -> & Hs)|[(s & -> & Hs)|Hrec]]; simpl.
  - apply list_elem_of_filter in Hs as [Hpass Hs].
    apply elem_of_sorted, elem_of_difference in Hs as [Hb Hn].
    rewrite elem_of_list_to_set in Hb, Hn. split; [done|]. by left.
  - apply list_elem_of_filter in Hs as [Hpass Hs].
    apply elem_of_sorted, elem_of_difference in Hs as [Hn Hb].
    rewrite elem_of_list_to_set in Hb, Hn. split; [done|]. right. by left.
  - destruct (elem_of_concat_Forall2 _ _ _ _ Hgroups Hrec)
      as (s & recs & Hs & Hrecs & Hin).
    destruct (elem_of_cell_records _ _ _ _ _ _ _ _ Hrecs Hin)
      as (base_ws & new_ws & ds & r & c & -> & _ & _ & Hds & Hd & _).
    apply list_elem_of_filter in Hs as [Hpass Hs].
    apply elem_of_sorted, elem_of_intersection in Hs as [Hb Hn].
    rewrite elem_of_list_to_set in Hb, Hn. split; [done|]. right. right.
    destruct (diff_status_once _ _ _ _ _ _ _ _ _ Hds Hd) as (Hclass & _).
    split; [by eapply classify_status|done].
Qed.

Lemma records_name_sheets_that_pass_the_filters_witness :
  ∃ o,
    compare_workbooks base_wb_ex new_wb_ex new_wb_ex None None zero
      false false true = Some o
    ∧ passes None None "Old" = true
    ∧ (("missing_sheet_new" = "missing_sheet_new"
        ∧ "Old" ∈ Xl.sheetnames base_wb_ex
        ∧ "Old" ∉ Xl.sheetnames new_wb_ex)
       ∨ ("missing_sheet_new" = "missing_sheet_base"
          ∧ "Old" ∈ Xl.sheetnames new_wb_ex
          ∧ "Old" ∉ Xl.sheetnames base_wb_ex)
       ∨ (("missing_sheet_new" = "added" ∨ "missing_sheet_new" = "removed"
           ∨ "missing_sheet_new" = "changed")
          ∧ "Old" ∈ Xl.sheetnames base_wb_ex
          ∧ "Old" ∈ Xl.sheetnames new_wb_ex)).
Proof.
  destruct (compare_workbooks base_wb_ex new_wb_ex new_wb_ex None None zero
              false false true) as [o|] eqn:Hrun.
  - exists o. split; [reflexivity|].
    apply (records_name_sheets_that_pass_the_filters _ _ _ _ _ _ _ _ _ o
             (sheet_level "missing_sheet_new" "Old") Hrun).
    vm_compute in Hrun. injection Hrun as <-. simpl. apply list_elem_of_here.
  - vm_compute in Hrun. discriminate Hrun.
Defined.

(** X21: what a record reports agrees with its status.  A sheet-level
    record has no cell name and no values.  A cell-level record carries
    the name of a coordinate and the raw values of the two versions
    there: 'added' has an empty old and a non-empty new value,
    'removed' the reverse, and 'changed' two non-empty values that
    [equal_values] tells apart under the configuration of the run. *)
Theorem record_status_agrees_with_its_values
    (base_wb new_wb_values new_wb_out : Xl.Workbook)
    (include_sheets exclude_sheets : option (gset string))
    (tolerance : float)
    (trim_whitespace case_insensitive highlight : bool) (o : Outcome)
    (rec : DiffRecord) :
  compare_workbooks base_wb new_wb_values new_wb_out include_sheets
    exclude_sheets tolerance trim_whitespace case_insensitive highlight
  = Some o →
  rec ∈ diffs_of o →
  ((status rec = "missing_sheet_new" ∨ status rec = "missing_sheet_base")
   ∧ cell rec = "" ∧ old rec = VNone ∧ new rec = VNone)
  ∨ ((∃ r c, cell_coord r c = Some (cell rec))
     ∧ ((status rec = "added"
         ∧ is_empty (old rec) = true ∧ is_empty (new rec) = false)
        ∨ (status rec = "removed"
           ∧ is_empty (old rec) = false ∧ is_empty (new rec) = true)
        ∨ (status rec = "changed"
           ∧ is_empty (old rec) = false ∧ is_empty (new rec) = false
           ∧ equal_values (old rec) (new rec) tolerance trim_whitespace
               case_insensitive = false))).
Proof.
  intros (groups & -> & Hgroups & _)%compare_workbooks_diffs.
  rewrite !elem_of_app, !list_elem_of_fmap.
  intros [(s & -> & _)|[(s & -> & _)|Hrec]]; simpl.
  - left. split; [by left|done].
  - left. split; [by right|done].
  - right.
    destruct (elem_of_concat_Forall2 _ _ _ _ Hgroups Hrec)
      as (s & recs & _ & Hrecs & Hin).
    destruct (elem_of_cell_records _ _ _ _ _ _ _ _ Hrecs Hin)
      as (base_ws & new_ws & ds & r & c & _ & _ & _ & Hds & Hd & Hname
          & -> & ->).
    split; [by exists r, c|].
    destruct (diff_status_once _ _ _ _ _ _ _ _ _ Hds Hd) as (Hclass & _).
    unfold classify in Hclass.
    destruct (is_empty (Xl.cell_value base_ws r c)),
      (is_empty (Xl.cell_value new_ws r c)); try done.
    + injection Hclass as <-. by left.
    + injection Hclass as <-. right. by left.
    + destruct (equal_values _ _ _ _ _); [done|].
      injection Hclass as <-. right. by right.
Qed.

Lemma record_status_agrees_with_its_values_witness :
  ∃ o,
    compare_workbooks base_wb_ex new_wb_ex new_wb_ex None None zero
      false false true = Some o
    ∧ ((("changed" = "missing_sheet_new" ∨ "changed" = "missing_sheet_base")
        ∧ "A1" = "" ∧ VStr "foo" = VNone ∧ VStr "FOO" = VNone)
       ∨ ((∃ r c, cell_coord r c = Some "A1")
          ∧ (("changed" = "added"
              ∧ is_empty (VStr "foo") = true ∧ is_empty (VStr "FOO") = false)
             ∨ ("changed" = "removed"
                ∧ is_empty (VStr "foo") = false
                ∧ is_empty (VStr "FOO") = true)
             ∨ ("changed" = "changed"
                ∧ is_empty (VStr "foo") = false
                ∧ is_empty (VStr "FOO") = false
                ∧ equal_values (VStr "foo") (VStr "FOO") zero false false
                  = false)))).
Proof.
  destruct (compare_workbooks base_wb_ex new_wb_ex new_wb_ex None None zero
              false false true) as [o|] eqn:Hrun.
  - exists o. split; [reflexivity|].
    apply (record_status_agrees_with_its_values _ _ _ _ _ _ _ _ _ o
             {| sheet := "S1"; cell := "A1"; status := "changed";
                old := VStr "foo"; new := VStr "FOO" |} Hrun).
    vm_compute in Hrun. injection Hrun as <-. simpl.
    do 2 apply list_elem_of_further. apply list_elem_of_here.
  - vm_compute in Hrun. discriminate Hrun.
Defined.

(** ** When the comparison returns, again *)
















(** ** Laxer configurations *)

Lemma normalize_text_laxer (t1 c1 t2 c2 : bool) (s t : string) :
  implb t1 t2 = true → implb c1 c2 = true →
  normalize_text t1 c1 s = normalize_text t1 c1 t →
  normalize_text t2 c2 s = normalize_text t2 c2 t.
Proof.
  unfold normalize_text.
  destruct t1, c1, t2, c2; simpl; try done; intros _ _ Heq;
    first [by rewrite Heq|by rewrite !lower_strip, Heq].
Qed.

Lemma str_or_None_shape (a : value) :
  str_or_None a = VNone ∨ ∃ s, str_or_None a = VStr s.
Proof. unfold str_or_None. destruct (Py.is_None a); eauto. Qed.

Lemma equal_values_laxer_flags (a b : value) (tolerance : float)
    (t1 c1 t2 c2 : bool) :
  implb t1 t2 = true → implb c1 c2 = true →
  equal_values a b tolerance t1 c1 = true →
  equal_values a b tolerance t2 c2 = true.
Proof.
  intros Ht Hc. unfold equal_values.
  destruct (Py.eq a b); [done|].
  destruct (is_number a && is_number b); [done|].
  destruct (Py.isinstance_str a || Py.isinstance_str b); [|done].
  destruct (str_or_None_shape a) as [->|[s ->]],
    (str_or_None_shape b) as [->|[t ->]]; try done.
  rewrite !normalize_str_text. simpl.
  intros Heq%bool_decide_eq_true. apply bool_decide_eq_true.
  by eapply normalize_text_laxer.
Qed.

Lemma equal_values_laxer (a b : value) (tol1 tol2 : float)
    (t1 c1 t2 c2 : bool) :
  Py.fle tol1 tol2 = true → implb t1 t2 = true → implb c1 c2 = true →
  equal_values a b tol1 t1 c1 = true →
  equal_values a b tol2 t2 c2 = true.
Proof.
  intros Htol Ht Hc Heq.
  apply (equal_values_laxer_flags a b tol2 t1 c1); [done..|].
  revert Heq. unfold equal_values.
  destruct (Py.eq a b); [done|].
  destruct (is_number a && is_number b); [|done].
  destruct (float_of_number a), (float_of_number b); try done.
  intros Hd. by eapply fle_trans.
Qed.

(** X23: turning on the trimming of white space or the folding of case
    never turns equal values into different ones. *)
Theorem equal_values_flags_monotone (a b : value) (tolerance : float)
    (t1 c1 t2 c2 : bool) :
  implb t1 t2 = true → implb c1 c2 = true →
  equal_values a b tolerance t1 c1 = true →
  equal_values a b tolerance t2 c2 = true.
Proof. apply equal_values_laxer_flags. Qed.

Lemma equal_values_flags_monotone_witness :
  equal_values (VStr "Fund A") (VStr "fund a") zero true true = true.
Proof.
  apply (equal_values_flags_monotone (VStr "Fund A") (VStr "fund a") zero
           false true true true); reflexivity.
Defined.

Lemma classify_laxer (a b : value) (tol1 tol2 : float) (t1 c1 t2 c2 : bool)
    (st : string) :
  Py.fle tol1 tol2 = true → implb t1 t2 = true → implb c1 c2 = true →
  classify a b tol2 t2 c2 = Some st → classify a b tol1 t1 c1 = Some st.
Proof.
  intros Htol Ht Hc. unfold classify.
  destruct (is_empty a), (is_empty b); try done.
  destruct (equal_values a b tol1 t1 c1) eqn:Heq1; [|by case_match].
  by rewrite (equal_values_laxer a b tol1 tol2 t1 c1 t2 c2).
Qed.

(** X24: a laxer configuration (a wider tolerance, trimming or case
    folding turned on) reports no difference that the stricter one does
    not: every coordinate the diff yields under the laxer one it yields
    under the stricter one, with the same status; the 'added' and
    'removed' differences are the same under both. *)
Theorem laxer_diff_is_contained_in_the_stricter
    (base_ws new_ws : Xl.Worksheet) (tol1 tol2 : float)
    (t1 c1 t2 c2 : bool) (strict lax : list (Z * Z * string)) :
  Py.fle tol1 tol2 = true → implb t1 t2 = true → implb c1 c2 = true →
  iter_diff_cells base_ws new_ws tol1 t1 c1 = Some strict →
  iter_diff_cells base_ws new_ws tol2 t2 c2 = Some lax →
  (∀ d, d ∈ lax → d ∈ strict)
  ∧ (∀ d, d ∈ strict → d.2 ≠ "changed" → d ∈ lax).
Proof.
  intros Htol Ht Hc Hstrict Hlax.
  destruct (proj1 (iter_diff_cells_Some _ _ _ _ _ _) Hstrict)
    as (br & bc & nr & nc & Hb & Hn & _).
  pose proof (elem_of_iter_diff_cells _ _ _ _ _ _ _ _ _ _ Hstrict Hb Hn)
    as Hin1.
  pose proof (elem_of_iter_diff_cells _ _ _ _ _ _ _ _ _ _ Hlax Hb Hn)
    as Hin2.
  split.
  - intros [[r c] st] Hd. apply Hin1.
    destruct (proj1 (Hin2 _ _ _) Hd) as (? & ? & ? & ? & Hclass).
    do 4 (split; [done|]). by eapply classify_laxer.
  - intros [[r c] st] Hd Hst. simpl in Hst. apply Hin2.
    destruct (proj1 (Hin1 _ _ _) Hd) as (? & ? & ? & ? & Hclass).
    do 4 (split; [done|]). revert Hclass. unfold classify.
    destruct (is_empty _), (is_empty _); try done.
    destruct (equal_values _ _ tol1 _ _); [done|]. by intros [= <-].
Qed.

Lemma laxer_diff_is_contained_in_the_stricter_witness :
  (∀ d, d ∈ [(3, 2, "removed"); (4, 3, "added")] →
        d ∈ [(1, 1, "changed"); (3, 2, "removed"); (4, 3, "added")])
  ∧ (∀ d, d ∈ [(1, 1, "changed"); (3, 2, "removed"); (4, 3, "added")] →
          d.2 ≠ "changed" →
          d ∈ [(3, 2, "removed"); (4, 3, "added")]).
Proof.
  apply (laxer_diff_is_contained_in_the_stricter base_S1 new_S1 zero zero
           false false false true); vm_compute; reflexivity.
Defined.
